(** * pyolib/opensndctrl.py : the Open Sound Control objects of pyo

    A shallow embedding of the Python classes [OscSend], [OscReceive],
    [OscDataSend], [OscDataReceive] and [OscListReceive], and the
    properties of their address registries.

    Python values keep their dynamic shape where the code inspects it
    ([type(port) != IntType], [type(i) == type('')],
    [type(value[0]) == ListType]); a method is a function in a small monad
    threading the object's fields and the console, whose result is a normal
    return, a propagating exception or the interpreter's [exit()]. *)

From Stdlib Require Import Ascii.
From stdpp Require Import base numbers list strings gmap.

Local Open Scope string_scope.
Local Open Scope Z_scope.
Local Open Scope list_scope.

(** ** Python run-time model *)

(** The built-in exceptions the file can raise. *)
Inductive exn : Set :=
| ValueError          (* list.index(x), list.remove(x): x not in list *)
| KeyError            (* d[k], del d[k]: k not in dict *)
| IndexError          (* l[i], l.pop(i): i out of range *)
| ZeroDivisionError   (* i % 0 *)
| TypeError.

(** How a call ends: it returns, an exception propagates to the caller, or
    [exit()] stops the interpreter. *)
Inductive outcome (A : Type) : Type :=
| Returned (a : A)
| Raised (e : exn)
| Exited.
Arguments Returned {A} a.
Arguments Raised {A} e.
Arguments Exited {A}.

(** [print ...] writes on stdout, [print >> sys.stderr, ...] on stderr. *)
Inductive channel : Set := Stdout | Stderr.
Definition console : Type := list (channel * string).

(** A method over an object of fields [S]. *)
Definition Py (S A : Type) : Type := S -> console -> outcome A * S * console.

Definition ret {S A} (a : A) : Py S A := fun s c => (Returned a, s, c).

Definition bind {S A B} (m : Py S A) (k : A -> Py S B) : Py S B :=
  fun s c =>
    match m s c with
    | (Returned a, s', c') => k a s' c'
    | (Raised e, s', c') => (Raised e, s', c')
    | (Exited, s', c') => (Exited, s', c')
    end.

Declare Scope py_scope.
Delimit Scope py_scope with py.
Notation "x <- m ;; k" := (bind m (fun x => k))
  (at level 100, m at next level, right associativity) : py_scope.
Notation "m ;; k" := (bind m (fun _ => k))
  (at level 100, right associativity) : py_scope.
Local Open Scope py_scope.

Definition lift {S A} (o : outcome A) : Py S A := fun s c => (o, s, c).
Definition raise {S A} (e : exn) : Py S A := lift (Raised e).
Definition exit {S A} : Py S A := lift Exited.
Definition get_self {S} : Py S S := fun s c => (Returned s, s, c).
Definition modify {S} (f : S -> S) : Py S unit := fun s c => (Returned tt, f s, c).
Definition print {S} (ch : channel) (line : string) : Py S unit :=
  fun s c => (Returned tt, s, c ++ [(ch, line)]).

(** The body of an [__init__] that goes on with [self] set up as [init]:
    the object is what the body leaves. *)
Definition construct {S A} (init : S) (body : Py S A) : Py unit S :=
  fun _ c =>
    match body init c with
    | (Returned _, s, c') => (Returned s, tt, c')
    | (Raised e, _, c') => (Raised e, tt, c')
    | (Exited, _, c') => (Exited, tt, c')
    end.

(** [for x in l: body x] *)
Fixpoint for_each {S B} (l : list B) (body : B -> Py S unit) : Py S unit :=
  match l with
  | [] => ret tt
  | x :: l' => body x ;; for_each l' body
  end.

(** [[f x for x in l]] *)
Fixpoint comprehension {S B C} (l : list B) (f : B -> Py S C) : Py S (list C) :=
  match l with
  | [] => ret []
  | x :: l' => y <- f x ;; ys <- comprehension l' f ;; ret (y :: ys)
  end.

(** [enumerate(l)] and [range(n)] *)
Definition enumerate {B} (l : list B) : list (nat * B) := imap (fun i x => (i, x)) l.
Definition range (n : Z) : list nat := seq 0 (Z.to_nat n).
(** [range(a, b)] *)
Definition range2 (a b : Z) : list Z := (fun k => a + Z.of_nat k) <$> seq 0 (Z.to_nat (b - a)).

(** The double quote and the line feed of the printed messages. *)
Definition dq : string := String (Ascii.ascii_of_nat 34) EmptyString.
Definition nl : string := String (Ascii.ascii_of_nat 10) EmptyString.

(** *** Lists *)

(** [x in l] *)
Definition py_in (x : string) (l : list string) : bool := bool_decide (x ∈ l).

(** [l.index(x)]: the first position of [x], [ValueError] when absent. *)
Definition py_index (l : list string) (x : string) : outcome nat :=
  match list_find (fun y => y = x) l with
  | Some (i, _) => Returned i
  | None => Raised ValueError
  end.

(** A subscript counted from the end when negative. *)
Definition norm_index (len i : Z) : option nat :=
  let j := if decide (i < 0) then i + len else i in
  if decide (0 <= j < len) then Some (Z.to_nat j) else None.

(** [l[i]] *)
Definition py_getitem {B} (l : list B) (i : Z) : outcome B :=
  match norm_index (Z.of_nat (length l)) i with
  | Some j => match l !! j with Some x => Returned x | None => Raised IndexError end
  | None => Raised IndexError
  end.

(** [l.pop(i)]: the element and the shortened list. *)
Definition py_pop {B} (l : list B) (i : Z) : outcome (B * list B) :=
  match norm_index (Z.of_nat (length l)) i with
  | Some j => match l !! j with
              | Some x => Returned (x, delete j l)
              | None => Raised IndexError
              end
  | None => Raised IndexError
  end.

(** A slice bound, clipped as [l[a:b]] does. *)
Definition clip (len i : Z) : nat :=
  Z.to_nat (if decide (i < 0) then Z.max (i + len) 0 else Z.min i len).

(** [l[a:b]] *)
Definition py_slice {B} (l : list B) (a b : Z) : list B :=
  let len := Z.of_nat (length l) in
  let lo := clip len a in
  let hi := clip len b in
  take (hi - lo)%nat (drop lo l).

(** *** _core helpers *)

(** An argument that is one value or a list of values. *)
Inductive arg (B : Type) : Type :=
| One (x : B)
| Many (l : list B).
Arguments One {B} x.
Arguments Many {B} l.

(** Modelled from the spec: [convertArgsToLists] of pyolib/_core.py, which
    is not part of this file ("argument-broadcasting glue"): every argument
    that is not a list becomes a one-element list, and the longest length
    is returned with them. *)
Definition to_list {B} (a : arg B) : list B :=
  match a with One x => [x] | Many l => l end.

Definition lmax1 {B} (a : list B) : Z := Z.of_nat (length a).
Definition lmax2 {B C} (a : list B) (b : list C) : Z :=
  Z.max (lmax1 a) (lmax1 b).
Definition lmax3 {B C D} (a : list B) (b : list C) (c : list D) : Z :=
  Z.max (lmax2 a b) (lmax1 c).

(** Modelled from the spec: [wrap(arg, i)] of pyolib/_core.py, the value at
    position [i] with wrap around the length of [arg], that is
    [arg[i % len(arg)]]. *)
Definition wrap {B} (l : list B) (i : nat) : outcome B :=
  match l with
  | [] => Raised ZeroDivisionError
  | _ => py_getitem l (Z.of_nat i `mod` Z.of_nat (length l))
  end.

(** The values a constructor argument can be, as far as their type is
    inspected. *)
Inductive pyval : Type :=
| PInt (z : Z)              (* IntType *)
| PLong (z : Z)             (* LongType, 10001L *)
| PBool (b : bool)
| PFloat (mantissa exponent : Z)
| PStr (s : string)
| PNone
| PList (l : list pyval)    (* ListType *)
| PFunc (name : string).    (* a def or lambda *)

(** [type(v) == IntType] *)
Definition is_IntType (v : pyval) : bool :=
  match v with PInt _ => true | _ => false end.

(** [callable(v)] *)
Definition callable (v : pyval) : bool :=
  match v with PFunc _ => true | _ => false end.

Definition int_of (v : pyval) : Z :=
  match v with PInt z => z | _ => 0 end.

(** A subscript [i] of [obj[i]]: an address string or an ordinal. *)
Inductive key : Type :=
| KStr (a : string)
| KInt (i : Z).

(** ** The C objects

    [OscReceiver_base], [OscReceive_base], [OscListReceiver_base] and
    [OscListReceive_base] are extension types written in C; this file only
    calls them.  Their state is kept abstract: a receiver of type [R]
    carrying values of type [V] per address ([float] for [OscReceive], a
    list of floats for [OscListReceive]), read through stream objects of
    type [B]. *)
Class Receiver (R V B sample : Type) : Type := {
  recv_addAddress : string -> R -> R;
  recv_delAddress : list string -> R -> R;
  recv_setValue : string -> V -> R -> R;
  (* obj._getStream().getValue() of a stream object bound to the receiver *)
  stream_getValue : R -> B -> sample
}.

(** ** class OscReceive *)
Module OscReceive.
Section Model.
Context {sample R : Type}.

(** [OscReceive_base(self._mainReceiver, address, mul, add)] *)
Record base : Type := OscReceive_base {
  b_address : string;
  b_mul : sample;
  b_add : sample
}.

Context `{!Receiver R sample base sample}.
(** [OscReceiver_base(port, address)] *)
Context (OscReceiver_base : Z -> list string -> R).

Record t : Type := Build {
  _mul : arg sample;
  _add : arg sample;
  _address : list string;
  _mainReceiver : R;
  _base_objs : list base
}.

Definition set_address (f : list string -> list string) (s : t) : t :=
  Build (_mul s) (_add s) (f (_address s)) (_mainReceiver s) (_base_objs s).
Definition set_mainReceiver (f : R -> R) (s : t) : t :=
  Build (_mul s) (_add s) (_address s) (f (_mainReceiver s)) (_base_objs s).
Definition set_base_objs (f : list base -> list base) (s : t) : t :=
  Build (_mul s) (_add s) (_address s) (_mainReceiver s) (f (_base_objs s)).

Definition port_error : string :=
  "TypeError: " +:+ dq +:+ "port" +:+ dq +:+ " argument of OscReceive must be an integer." +:+ nl.

Definition __init__ (port : pyval) (address : arg string) (mul add : arg sample)
  : Py unit t :=
  (if is_IntType port then ret tt else print Stderr port_error ;; exit) ;;
  let address := to_list address in
  let lmax := lmax3 address (to_list mul) (to_list add) in
  objs <- comprehension (range lmax) (fun i =>
            a <- lift (wrap address i) ;;
            m <- lift (wrap (to_list mul) i) ;;
            d <- lift (wrap (to_list add) i) ;;
            ret (OscReceive_base a m d)) ;;
  ret (Build mul add address (OscReceiver_base (int_of port) address) objs).

Definition too_large : string := "'i' too large!".

Definition __getitem__ (i : key) : Py t (option base) :=
  s <- get_self ;;
  match i with
  | KStr a =>
      k <- lift (py_index (_address s) a) ;;
      x <- lift (py_getitem (_base_objs s) (Z.of_nat k)) ;;
      ret (Some x)
  | KInt i =>
      if decide (i < Z.of_nat (length (_base_objs s)))
      then x <- lift (py_getitem (_base_objs s) i) ;; ret (Some x)
      else print Stdout too_large ;; ret None
  end.

Definition getAddresses : Py t (list string) :=
  s <- get_self ;; ret (_address s).

Definition addAddress (path : arg string) (mul add : arg sample) : Py t unit :=
  let path := to_list path in
  for_each (enumerate path) (fun '(i, p) =>
    s <- get_self ;;
    if negb (py_in p (_address s)) then
      modify (set_mainReceiver (recv_addAddress p)) ;;
      modify (set_address (fun l => l ++ [p])) ;;
      m <- lift (wrap (to_list mul) i) ;;
      d <- lift (wrap (to_list add) i) ;;
      modify (set_base_objs (fun l => l ++ [OscReceive_base p m d]))
    else ret tt).

Definition delAddress (path : arg string) : Py t unit :=
  let path := to_list path in
  modify (set_mainReceiver (recv_delAddress path)) ;;
  indexes <- comprehension path (fun p =>
               s <- get_self ;; lift (py_index (_address s) p)) ;;
  for_each (rev indexes) (fun ind =>
    s <- get_self ;;
    r <- lift (py_pop (_address s) (Z.of_nat ind)) ;;
    modify (set_address (fun _ => r.2)) ;;
    s <- get_self ;;
    r <- lift (py_pop (_base_objs s) (Z.of_nat ind)) ;;
    modify (set_base_objs (fun _ => r.2))).

Definition illegal_address (p : string) : string :=
  "Error: OscReceive.setValue, Illegal address " +:+ dq +:+ p +:+ dq.

Definition setValue (path : arg string) (value : arg sample) : Py t unit :=
  let path := to_list path in
  let value := to_list value in
  for_each (range (lmax2 path value)) (fun i =>
    p <- lift (wrap path i) ;;
    s <- get_self ;;
    if py_in p (_address s) then
      v <- lift (wrap value i) ;;
      modify (set_mainReceiver (recv_setValue p v))
    else print Stdout (illegal_address p)).

(** [get(identifier, all)]: a float, or the list of them when [all]. *)
Definition get (identifier : option string) (all : bool) : Py t (sample + list sample) :=
  s <- get_self ;;
  if negb all then
    k <- lift (match identifier with
               | Some a => py_index (_address s) a
               | None => Raised ValueError
               end) ;;
    x <- lift (py_getitem (_base_objs s) (Z.of_nat k)) ;;
    ret (inl (stream_getValue (_mainReceiver s) x))
  else
    ret (inr (stream_getValue (_mainReceiver s) <$> _base_objs s)).

End Model.
Arguments base : clear implicits.
Arguments t : clear implicits.
End OscReceive.


(** ** class OscListReceive *)
Module OscListReceive.
Section Model.
Context {sample R : Type}.

(** [OscListReceive_base(self._mainReceiver, address, j, mul, add)]: the
    [j]th stream of [address]. *)
Record base : Type := OscListReceive_base {
  b_address : string;
  b_order : nat;
  b_mul : sample;
  b_add : sample
}.

(** An element of the [value] argument of [setValue]: a float, or a list of
    floats when one list is given per path. *)
Inductive elem : Type :=
| EFloat (x : sample)
| EList (l : list sample).

(** [type(e) == ListType] *)
Definition is_ListType (e : elem) : bool :=
  match e with EList _ => true | EFloat _ => false end.

Context `{!Receiver R (list elem) base sample}.
(** [OscListReceiver_base(port, address, num)] *)
Context (OscListReceiver_base : Z -> list string -> Z -> R).

Record t : Type := Build {
  _num : Z;
  _op_duplicate : Z;
  _mul : arg sample;
  _add : arg sample;
  _address : list string;
  _mainReceiver : R;
  _base_objs : list base
}.

Definition set_address (f : list string -> list string) (s : t) : t :=
  Build (_num s) (_op_duplicate s) (_mul s) (_add s) (f (_address s))
        (_mainReceiver s) (_base_objs s).
Definition set_mainReceiver (f : R -> R) (s : t) : t :=
  Build (_num s) (_op_duplicate s) (_mul s) (_add s) (_address s)
        (f (_mainReceiver s)) (_base_objs s).
Definition set_base_objs (f : list base -> list base) (s : t) : t :=
  Build (_num s) (_op_duplicate s) (_mul s) (_add s) (_address s)
        (_mainReceiver s) (f (_base_objs s)).

Definition port_error : string :=
  "TypeError: " +:+ dq +:+ "port" +:+ dq +:+ " argument of OscListReceive must be an integer." +:+ nl.
Definition num_error : string :=
  "TypeError: " +:+ dq +:+ "num" +:+ dq +:+ " argument of OscListReceive must be an integer." +:+ nl.

(** [[OscListReceive_base(.., p, j, wrap(mul,i), wrap(add,i)) for j in range(num)]] *)
Definition new_streams {S} (num : Z) (p : outcome string) (mul add : list sample) (i : nat)
  : Py S (list base) :=
  comprehension (range num) (fun j =>
    a <- lift p ;;
    m <- lift (wrap mul i) ;;
    d <- lift (wrap add i) ;;
    ret (OscListReceive_base a j m d)).

Definition __init__ (port : pyval) (address : arg string) (num : pyval)
  (mul add : arg sample) : Py unit t :=
  (if is_IntType port then ret tt else print Stderr port_error ;; exit) ;;
  (if is_IntType num then ret tt else print Stderr num_error ;; exit) ;;
  let n := int_of num in
  let address := to_list address in
  let lmax := lmax3 address (to_list mul) (to_list add) in
  objs <- comprehension (range lmax) (fun i =>
            new_streams n (wrap address i) (to_list mul) (to_list add) i) ;;
  ret (Build n n mul add address (OscListReceiver_base (int_of port) address n)
             (concat objs)).

Definition too_large : string := "'i' too large!".

(** The window [self._base_objs[first:first+self._num]]. *)
Definition window (s : t) (first : Z) : list base :=
  py_slice (_base_objs s) first (first + _num s).

Definition __getitem__ (i : key) : Py t (option (list base)) :=
  s <- get_self ;;
  match i with
  | KStr a =>
      k <- lift (py_index (_address s) a) ;;
      ret (Some (window s (Z.of_nat k * _num s)))
  | KInt i =>
      if decide (i < Z.of_nat (length (_base_objs s)))
      then ret (Some (window s (i * _num s)))
      else print Stdout too_large ;; ret None
  end.

Definition getAddresses : Py t (list string) :=
  s <- get_self ;; ret (_address s).

Definition addAddress (path : arg string) (mul add : arg sample) : Py t unit :=
  let path := to_list path in
  for_each (enumerate path) (fun '(i, p) =>
    s <- get_self ;;
    if negb (py_in p (_address s)) then
      modify (set_mainReceiver (recv_addAddress p)) ;;
      modify (set_address (fun l => l ++ [p])) ;;
      objs <- new_streams (_num s) (Returned p) (to_list mul) (to_list add) i ;;
      modify (set_base_objs (fun l => l ++ objs))
    else ret tt).

Definition delAddress (path : arg string) : Py t unit :=
  let path := to_list path in
  modify (set_mainReceiver (recv_delAddress path)) ;;
  indexes <- comprehension path (fun p =>
               s <- get_self ;; lift (py_index (_address s) p)) ;;
  for_each (rev indexes) (fun ind =>
    s <- get_self ;;
    r <- lift (py_pop (_address s) (Z.of_nat ind)) ;;
    modify (set_address (fun _ => r.2)) ;;
    let first := Z.of_nat ind * _num s in
    for_each (rev (range2 first (first + _num s))) (fun i =>
      s <- get_self ;;
      r <- lift (py_pop (_base_objs s) i) ;;
      modify (set_base_objs (fun _ => r.2)))).

Definition length_error : string :=
  "Error: OscListReceive.setValue, value must be of the same length as the `num` attribute.".
Definition illegal_address (p : string) : string :=
  "Error: OscListReceive.setValue, Illegal address " +:+ dq +:+ p +:+ dq.

(** [len(val)] of an element of [value]: a float has no length. *)
Definition as_list (e : elem) : outcome (list elem) :=
  match e with
  | EList l => Returned (EFloat <$> l)
  | EFloat _ => Raised TypeError
  end.

Definition setValue (path : arg string) (value : list elem) : Py t unit :=
  let path := to_list path in
  for_each (range (lmax1 path)) (fun i =>
    p <- lift (wrap path i) ;;
    s <- get_self ;;
    if py_in p (_address s) then
      v0 <- lift (py_getitem value 0) ;;
      val <- (if is_ListType v0
              then e <- lift (wrap value i) ;; lift (as_list e)
              else ret value) ;;
      if decide (Z.of_nat (length val) = _num s)
      then modify (set_mainReceiver (recv_setValue p val))
      else print Stdout length_error
    else print Stdout (illegal_address p)).

(** [[obj._getStream().getValue() for obj in self._base_objs[first:first+self._num]]] *)
Definition values (s : t) (first : Z) : list sample :=
  stream_getValue (_mainReceiver s) <$> window s first.

Definition get (identifier : option string) (all : bool)
  : Py t (list sample + list (list sample)) :=
  s <- get_self ;;
  if negb all then
    k <- lift (match identifier with
               | Some a => py_index (_address s) a
               | None => Raised ValueError
               end) ;;
    ret (inl (values s (Z.of_nat k * _num s)))
  else
    outlist <- comprehension (_address s) (fun add =>
                 k <- lift (py_index (_address s) add) ;;
                 ret (values s (Z.of_nat k * _num s))) ;;
    ret (inr outlist).

End Model.
Arguments base : clear implicits.
Arguments elem : clear implicits.
Arguments t : clear implicits.
End OscListReceive.


(** ** class OscSend *)
Module OscSend.
Section Model.
(** The input signal (a [PyoObject]), its [InputFader] and the audio
    streams of a fader come from pyolib/_core.py and the C library. *)
Context {signal fader stream : Type}.
Context (InputFader : signal -> fader).
Context (fader_setInput : signal -> pyval -> fader -> fader).
Context (fader_streams : fader -> list stream).

(** [OscSend_base(input, port, address, host)] *)
Record base : Type := OscSend_base {
  b_input : stream;
  b_port : Z;
  b_address : string;
  b_host : string
}.

Record t : Type := Build {
  _input : signal;
  _in_fader : fader;
  _base_objs : list base
}.

Definition __init__ (input : signal) (port : arg Z) (address host : arg string)
  : Py unit t :=
  let in_fader := fader_streams (InputFader input) in
  let port := to_list port in
  let address := to_list address in
  let host := to_list host in
  let lmax := Z.max (lmax3 in_fader port address) (lmax1 host) in
  objs <- comprehension (range lmax) (fun i =>
            x <- lift (wrap in_fader i) ;;
            p <- lift (wrap port i) ;;
            a <- lift (wrap address i) ;;
            h <- lift (wrap host i) ;;
            ret (OscSend_base x p a h)) ;;
  ret (Build input (InputFader input) objs).

Definition setInput (x : signal) (fadetime : pyval) : Py t unit :=
  modify (fun s => Build x (fader_setInput x fadetime (_in_fader s)) (_base_objs s)).

Definition setMul (x : pyval) : Py t unit := ret tt.

Definition setAdd (x : pyval) : Py t unit := ret tt.

End Model.
Arguments base : clear implicits.
Arguments t : clear implicits.
End OscSend.

(** ** class OscDataSend *)
Module OscDataSend.

(** [OscDataSend_base(types, port, address, host)].  Python compares these
    objects by identity ([list.remove]), so each carries the rank of its
    allocation. *)
Record base : Type := OscDataSend_base {
  b_id : nat;
  b_types : string;
  b_port : Z;
  b_address : string;
  b_host : string
}.

#[global] Instance base_eq_dec : EqDecision base.
Proof. solve_decision. Defined.

(** A message handed to the transport. *)
Record packet : Type := Packet {
  p_host : string;
  p_port : Z;
  p_address : string;
  p_values : list pyval
}.

Record t : Type := Build {
  _base_objs : list base;
  _addresses : gmap string base;
  (* number of base objects created so far *)
  allocated : nat;
  (* what the base objects gave to the transport, oldest first *)
  wire : list packet
}.

Definition set_base_objs (f : list base -> list base) (s : t) : t :=
  Build (f (_base_objs s)) (_addresses s) (allocated s) (wire s).
Definition set_addresses (f : gmap string base -> gmap string base) (s : t) : t :=
  Build (_base_objs s) (f (_addresses s)) (allocated s) (wire s).
Definition set_wire (f : list packet -> list packet) (s : t) : t :=
  Build (_base_objs s) (_addresses s) (allocated s) (f (wire s)).

(** [[OscDataSend_base(wrap(types,i), wrap(port,i), wrap(address,i), wrap(host,i)) for i in range(lmax)]] *)
Definition new_objs {S} (from : nat) (types : list string) (port : list Z)
  (address host : list string) : Py S (list base) :=
  let lmax := Z.max (lmax3 types port address) (lmax1 host) in
  comprehension (range lmax) (fun i =>
    ty <- lift (wrap types i) ;;
    p <- lift (wrap port i) ;;
    a <- lift (wrap address i) ;;
    h <- lift (wrap host i) ;;
    ret (OscDataSend_base (from + i) ty p a h)).

(** [for i, adr in enumerate(address): d[adr] = objs[i]] *)
Definition bind_addresses (address : list string) (objs : list base) : Py t unit :=
  for_each (enumerate address) (fun '(i, adr) =>
    o <- lift (py_getitem objs (Z.of_nat i)) ;;
    modify (set_addresses (insert adr o))).

Definition __init__ (types : arg string) (port : arg Z) (address host : arg string)
  : Py unit t :=
  let address := to_list address in
  objs <- new_objs 0 (to_list types) (to_list port) address (to_list host) ;;
  construct (Build objs ∅ (length objs) []) (bind_addresses address objs).

Definition setMul (x : pyval) : Py t unit := ret tt.

Definition setAdd (x : pyval) : Py t unit := ret tt.

(** [self._addresses.keys()], in the order of the keys *)
Definition getAddresses : Py t (list string) :=
  s <- get_self ;; ret (map_to_list (_addresses s)).*1.

Definition addAddress (types : arg string) (port : arg Z) (address host : arg string)
  : Py t unit :=
  let address := to_list address in
  s <- get_self ;;
  objs <- new_objs (allocated s) (to_list types) (to_list port) address (to_list host) ;;
  modify (fun s => Build (_base_objs s ++ objs) (_addresses s)
                         (allocated s + length objs) (wire s)) ;;
  bind_addresses address objs.

(** [d[k]] *)
Definition dict_getitem (d : gmap string base) (k : string) : outcome base :=
  match d !! k with
  | Some o => Returned o
  | None => Raised KeyError
  end.

(** [l.remove(x)]: without the first element equal to [x]. *)
Fixpoint py_remove (l : list base) (x : base) : outcome (list base) :=
  match l with
  | [] => Raised ValueError
  | y :: l' =>
      if decide (y = x) then Returned l'
      else match py_remove l' x with
           | Returned r => Returned (y :: r)
           | Raised e => Raised e
           | Exited => Exited
           end
  end.

Definition delAddress (path : arg string) : Py t unit :=
  for_each (to_list path) (fun p =>
    s <- get_self ;;
    o <- lift (dict_getitem (_addresses s) p) ;;
    l <- lift (py_remove (_base_objs s) o) ;;
    modify (set_base_objs (fun _ => l)) ;;
    s <- get_self ;;
    _ <- lift (dict_getitem (_addresses s) p) ;;
    modify (set_addresses (delete p))).

(** The type tags of a signature. *)
Definition tag_ok (tag : Ascii.ascii) (v : pyval) : bool :=
  match v with
  | PInt z =>
      (bool_decide (tag = "i"%char) && bool_decide (- 2 ^ 31 <= z < 2 ^ 31))
      || (bool_decide (tag = "h"%char) && bool_decide (- 2 ^ 63 <= z < 2 ^ 63))
  | PLong z => bool_decide (tag = "h"%char) && bool_decide (- 2 ^ 63 <= z < 2 ^ 63)
  | PFloat _ _ => bool_decide (tag = "f"%char) || bool_decide (tag = "d"%char)
  | PStr _ => bool_decide (tag = "s"%char)
  | _ => false
  end.

Fixpoint conforms (types : string) (msg : list pyval) : bool :=
  match types, msg with
  | EmptyString, [] => true
  | String tag types', v :: msg' => tag_ok tag v && conforms types' msg'
  | _, _ => false
  end.

Definition mismatch (o : base) : string :=
  "TypeSignatureMismatchError: " +:+ b_address o.

(** Modelled from the spec: the [send] method of the C object
    [OscDataSend_base], which is not part of this file.  "Values are
    validated against the registered type signature (i=int32, h=int64,
    f=float32, d=float64, s=string); mismatch: TypeSignatureMismatchError,
    non-fatal, that send aborted."  A valid message goes to the transport
    for [(host, port, address)]; an invalid one is reported and the call
    returns. *)
Definition packet_for (msg : list pyval) (o : base) : packet :=
  Packet (b_host o) (b_port o) (b_address o) msg.

Definition base_send (o : base) (msg : list pyval) : Py t unit :=
  if conforms (b_types o) msg
  then modify (set_wire (fun w => w ++ [packet_for msg o]))
  else print Stdout (mismatch o).

Definition send (msg : list pyval) (address : option string) : Py t unit :=
  s <- get_self ;;
  match address with
  | None => for_each (_base_objs s) (fun obj => base_send obj msg)
  | Some a => o <- lift (dict_getitem (_addresses s) a) ;; base_send o msg
  end.

End OscDataSend.

(** ** class OscDataReceive *)
Module OscDataReceive.

(** The one base object [OscDataReceive_base(port, self._address, function)]
    holds the very list [self._address] ("linked with list at C level"),
    so the object is its port, its function and that shared list. *)
Record t : Type := Build {
  _port : Z;
  _function : pyval;
  _address : list string
}.

Definition set_address (f : list string -> list string) (s : t) : t :=
  Build (_port s) (_function s) (f (_address s)).

Definition port_error : string :=
  "TypeError: " +:+ dq +:+ "port" +:+ dq +:+ " argument of OscDataReceive must be an integer." +:+ nl.
Definition function_error : string :=
  "TypeError: " +:+ dq +:+ "function" +:+ dq +:+ " argument of OscDataReceive must be callable." +:+ nl.

Definition __init__ (port : pyval) (address : arg string) (function : pyval)
  : Py unit t :=
  (if is_IntType port then ret tt else print Stderr port_error ;; exit) ;;
  (if callable function then ret tt else print Stderr function_error ;; exit) ;;
  ret (Build (int_of port) function (to_list address)).

Definition getAddresses : Py t (list string) :=
  s <- get_self ;; ret (_address s).

(** Modelled from the spec: [addAddress] and [delAddress] of the C object
    [OscDataReceive_base], which are not part of this file; they "mutate
    the registered set live": the first appends the path to the shared
    list, the second removes the entry at the given position. *)
Definition base_addAddress (p : string) : Py t unit :=
  modify (set_address (fun l => l ++ [p])).
Definition base_delAddress (index : nat) : Py t unit :=
  modify (set_address (delete index)).

Definition addAddress (path : arg string) : Py t unit :=
  for_each (to_list path) (fun p =>
    s <- get_self ;;
    if negb (py_in p (_address s)) then base_addAddress p else ret tt).

Definition delAddress (path : arg string) : Py t unit :=
  for_each (to_list path) (fun p =>
    s <- get_self ;;
    index <- lift (py_index (_address s) p) ;;
    base_delAddress index).

End OscDataReceive.

(** ** Vocabulary of the properties *)

(** An error is reported by a call when an exception reaches the caller or
    a line is written on the console. *)
Definition reported {A} (before after : console) (o : outcome A) : Prop :=
  (exists e, o = Raised e) \/ (exists lines, lines <> [] /\ after = before ++ lines).

(** A call is fatal when it ends the interpreter. *)
Definition fatal {A} (o : outcome A) : Prop := o = Exited.

(** A call gives an error result when an exception reaches the caller. *)
Definition error_result {A} (o : outcome A) : Prop := exists e, o = Raised e.

(** The pairs [(wrap(path,i), wrap(value,i))] for [i] in [range(lmax)], as
    the loop of [OscReceive.setValue] meets them. *)
Definition broadcast_at {B C} (path : list B) (value : list C) (i : nat) : option (B * C) :=
  p ← path !! (i mod length path)%nat;
  v ← value !! (i mod length value)%nat;
  Some (p, v).
Definition broadcast {B C} (path : list B) (value : list C) : list (B * C) :=
  omap (broadcast_at path value) (seq 0 (max (length path) (length value))).

(** What [OscReceive.setValue] does with a pair of the broadcast: the value
    goes to the receiver, or the path is complained about. *)
Definition deliver {R V B sample} `{!Receiver R V B sample} (m : R) (pv : string * V) : R :=
  recv_setValue pv.1 pv.2 m.
Definition complaint {V} (pv : string * V) : channel * string :=
  (Stdout, OscReceive.illegal_address pv.1).

(** The targets of an OscDataSend whose signature a message fits, and the
    others. *)
Definition accepts (msg : list pyval) (o : OscDataSend.base) : Prop :=
  OscDataSend.conforms (OscDataSend.b_types o) msg = true.
#[global] Instance accepts_dec msg o : Decision (accepts msg o).
Proof. unfold accepts. apply _. Defined.
Definition rejection (o : OscDataSend.base) : channel * string :=
  (Stdout, OscDataSend.mismatch o).

(** The calls that change a registry, and a sequence of them made by a
    caller that goes on after an exception. *)
Inductive registry_call (sample : Type) : Type :=
| AddAddress (path : arg string) (mul add : arg sample)
| DelAddress (path : arg string).
Arguments AddAddress {sample} path mul add.
Arguments DelAddress {sample} path.

(** [mul] and [add] are documented as a float or a PyoObject: once made
    lists they have a first element. *)
Definition documented {sample} (o : registry_call sample) : Prop :=
  match o with
  | AddAddress _ mul add => to_list mul <> [] /\ to_list add <> []
  | DelAddress _ => True
  end.

Fixpoint run_calls {S O} (method : O -> Py S unit) (calls : list O) (s : S) (c : console)
  : S * console :=
  match calls with
  | [] => (s, c)
  | o :: calls' => let '(_, s', c') := method o s c in run_calls method calls' s' c'
  end.

Definition OscReceive_call {sample R} `{!Receiver R sample (OscReceive.base sample) sample}
  (o : registry_call sample) : Py (OscReceive.t sample R) unit :=
  match o with
  | AddAddress path mul add => OscReceive.addAddress path mul add
  | DelAddress path => OscReceive.delAddress path
  end.

Definition OscListReceive_call {sample L}
  `{!Receiver L (list (OscListReceive.elem sample)) (OscListReceive.base sample) sample}
  (o : registry_call sample) : Py (OscListReceive.t sample L) unit :=
  match o with
  | AddAddress path mul add => OscListReceive.addAddress path mul add
  | DelAddress path => OscListReceive.delAddress path
  end.

(** The stream objects of an OscReceive are those of its addresses, one
    each, in the order of the addresses. *)
Definition registry {sample R} (r : OscReceive.t sample R) : Prop :=
  OscReceive.b_address <$> OscReceive._base_objs r = OscReceive._address r.

(** The stream objects of an OscListReceive are those of its addresses, in
    the order of the addresses: a block of streams 0, 1, ... num-1 each. *)
Definition tag {sample} (b : OscListReceive.base sample) : string * nat :=
  (OscListReceive.b_address b, OscListReceive.b_order b).
Definition block (num : Z) (a : string) : list (string * nat) :=
  (fun j => (a, j)) <$> range num.
Definition list_registry {sample L} (lr : OscListReceive.t sample L) : Prop :=
  tag <$> OscListReceive._base_objs lr
  = OscListReceive._address lr ≫= block (OscListReceive._num lr).

(** A receiver that only records the calls made to it, with streams that
    read the last value set for their address; it instantiates the C side
    in the examples. *)
Inductive call (V : Type) : Type :=
| CallAdd (p : string)
| CallDel (l : list string)
| CallSet (p : string) (v : V).
Arguments CallAdd {V} p.
Arguments CallDel {V} l.
Arguments CallSet {V} p v.

Fixpoint last_set {V} (a : string) (r : list (call V)) : option V :=
  match r with
  | [] => None
  | CallSet p v :: r' =>
      match last_set a r' with
      | Some w => Some w
      | None => if decide (p = a) then Some v else None
      end
  | _ :: r' => last_set a r'
  end.

Definition recorder {V B} (read : list (call V) -> B -> Z)
  : Receiver (list (call V)) V B Z :=
  {| recv_addAddress p r := r ++ [CallAdd p];
     recv_delAddress l r := r ++ [CallDel l];
     recv_setValue p v r := r ++ [CallSet p v];
     stream_getValue := read |}.

Definition read_float (r : list (call Z)) (b : OscReceive.base Z) : Z :=
  default 0 (last_set (OscReceive.b_address b) r).

Definition read_list (r : list (call (list (OscListReceive.elem Z))))
  (b : OscListReceive.base Z) : Z :=
  match default [] (last_set (OscListReceive.b_address b) r) !! OscListReceive.b_order b with
  | Some (OscListReceive.EFloat x) => x
  | _ => 0
  end.

#[local] Instance float_recorder
  : Receiver (list (call Z)) Z (OscReceive.base Z) Z := recorder read_float.
#[local] Instance list_recorder
  : Receiver (list (call (list (OscListReceive.elem Z))))
             (list (OscListReceive.elem Z)) (OscListReceive.base Z) Z :=
  recorder read_list.

(** Objects of the examples: [OscReceive(9000, ['/pitch', '/amp'])] and
    [OscListReceive(9000, ['/pitch', '/amp'], num)]. *)
Definition ex_stream (a : string) : OscReceive.base Z := OscReceive.OscReceive_base a 1 0.
Definition ex_receive : OscReceive.t Z (list (call Z)) :=
  OscReceive.Build (One 1) (One 0) ["/pitch"; "/amp"] []
    [ex_stream "/pitch"; ex_stream "/amp"].

Definition ex_lstream (a : string) (j : nat) : OscListReceive.base Z :=
  OscListReceive.OscListReceive_base a j 1 0.
Definition ex_list_receive (num : Z)
  : OscListReceive.t Z (list (call (list (OscListReceive.elem Z)))) :=
  OscListReceive.Build num num (One 1) (One 0) ["/pitch"; "/amp"] []
    (["/pitch"; "/amp"] ≫= fun a => ex_lstream a <$> seq 0 (Z.to_nat num)).

(** [OscDataSend("fi", 9900, ['/x', '/y'])] *)
Definition ex_target (i : nat) (a : string) : OscDataSend.base :=
  OscDataSend.OscDataSend_base i "fi" 9900 a "127.0.0.1".
Definition ex_data_send : OscDataSend.t :=
  OscDataSend.Build [ex_target 0 "/x"; ex_target 1 "/y"]
    (<["/y" := ex_target 1 "/y"]> (<["/x" := ex_target 0 "/x"]> ∅)) 2 [].

(** [OscDataReceive(9900, ['/x', '/y'], pp)] *)
Definition ex_data_receive : OscDataReceive.t :=
  OscDataReceive.Build 9900 (PFunc "pp") ["/x"; "/y"].

(** [addAddress('/pan')] then [delAddress('/pitch')] *)
Definition ex_calls : list (registry_call Z) :=
  [AddAddress (One "/pan") (One 1) (One 0); DelAddress (One "/pitch")].

(** The C sides of the examples. *)
Abbreviation floats := (list (call Z)).
Abbreviation lists := (list (call (list (OscListReceive.elem Z)))).

(** Closed decidable facts about the examples. *)
Ltac by_computation := apply (bool_decide_unpack _); vm_compute; exact I.

(** The address list that the loop of [addAddress] builds: each path that is
    not in the list when its turn comes is appended. *)
Definition add_paths (address path : list string) : list string :=
  foldl (fun l p => if py_in p l then l else l ++ [p]) address path.

(** * Properties *)

(** ** The run-time model *)

Lemma py_in_true (x : string) (l : list string) : x ∈ l -> py_in x l = true.
Proof. intros H. unfold py_in. by apply bool_decide_eq_true. Qed.

Lemma py_in_false (x : string) (l : list string) : x ∉ l -> py_in x l = false.
Proof. intros H. unfold py_in. by apply bool_decide_eq_false. Qed.

Lemma py_index_absent (l : list string) (x : string) :
  x ∉ l -> py_index l x = Raised ValueError.
Proof.
  intros H. unfold py_index.
  destruct (list_find (fun y => y = x) l) as [[i y]|] eqn:E; [|done].
  apply list_find_Some in E as (Hi & -> & _).
  exfalso. apply H. by eapply list_elem_of_lookup_2.
Qed.

Lemma py_index_not_Exited (l : list string) (x : string) : py_index l x <> Exited.
Proof. unfold py_index. by destruct (list_find _ l) as [[i y]|]. Qed.

Lemma py_index_first (l : list string) (x : string) (k : nat) :
  l !! k = Some x -> x ∉ take k l -> py_index l x = Returned k.
Proof.
  intros Hk Hn. unfold py_index.
  destruct (list_find (fun y => y = x) l) as [[i y]|] eqn:E.
  - apply list_find_Some in E as (Hi & -> & Hmin).
    destruct (lt_eq_lt_dec i k) as [[Hlt | ->] | Hgt]; [|done|].
    + exfalso. apply Hn. apply list_elem_of_lookup. exists i.
      by rewrite lookup_take_lt.
    + exfalso. exact (Hmin _ _ Hk Hgt eq_refl).
  - exfalso. eapply list_find_None, Forall_lookup in E; [|exact Hk]. by apply E.
Qed.

Lemma py_index_present (l : list string) (x : string) :
  x ∈ l -> exists k, py_index l x = Returned k /\ l !! k = Some x /\ x ∉ take k l.
Proof.
  intros H. unfold py_index.
  destruct (list_find_elem_of (fun y => y = x) l x H eq_refl) as [[i y] E].
  rewrite E. apply list_find_Some in E as (Hi & -> & Hmin).
  exists i. split_and!; [done..|].
  intros Hin. apply list_elem_of_lookup in Hin as [j Hj].
  apply lookup_take_Some in Hj as [Hj Hlt]. exact (Hmin _ _ Hj Hlt eq_refl).
Qed.

Lemma py_getitem_nat {B} (l : list B) (k : nat) (x : B) :
  l !! k = Some x -> py_getitem l (Z.of_nat k) = Returned x.
Proof.
  intros H. pose proof (lookup_lt_Some _ _ _ H) as Hlt.
  unfold py_getitem, norm_index.
  destruct (decide (Z.of_nat k < 0)); [lia|].
  destruct (decide _); [|lia].
  by rewrite Nat2Z.id, H.
Qed.

Lemma py_pop_nat {B} (l : list B) (k : nat) (x : B) :
  l !! k = Some x -> py_pop l (Z.of_nat k) = Returned (x, delete k l).
Proof.
  intros H. pose proof (lookup_lt_Some _ _ _ H) as Hlt.
  unfold py_pop, norm_index.
  destruct (decide (Z.of_nat k < 0)); [lia|].
  destruct (decide _); [|lia].
  by rewrite Nat2Z.id, H.
Qed.

Lemma py_pop_nat_out {B} (l : list B) (k : nat) :
  (length l <= k)%nat -> py_pop l (Z.of_nat k) = Raised IndexError.
Proof.
  intros H. unfold py_pop, norm_index.
  destruct (decide (Z.of_nat k < 0)); [lia|].
  destruct (decide _); [lia|done].
Qed.

Lemma wrap_Returned {B} (l : list B) (i : nat) :
  l <> [] -> exists x, wrap l i = Returned x /\ l !! (i mod length l)%nat = Some x.
Proof.
  intros Hl. destruct l as [|y l']; [done|]. set (l := y :: l') in *.
  assert (0 < length l)%nat as Hpos by (simpl; lia).
  destruct (lookup_lt_is_Some_2 l (i mod length l)%nat) as [x Hx].
  { by apply Nat.mod_upper_bound, Nat.neq_0_lt_0. }
  exists x. split; [|done]. unfold wrap. fold l.
  rewrite <- Nat2Z.inj_mod. by apply py_getitem_nat.
Qed.

Lemma for_each_app {S B} (l1 l2 : list B) (body : B -> Py S unit) s c :
  for_each (l1 ++ l2) body s c =
  (for_each l1 body ;; for_each l2 body) s c.
Proof.
  revert s c. induction l1 as [|x l1 IH]; intros s c; simpl.
  - unfold bind, ret. by destruct (for_each l2 body s c) as [[[]]].
  - unfold bind in *. destruct (body x s c) as [[[]]]; [|done..].
    apply IH.
Qed.

Lemma for_each_noop {S B} (l : list B) (body : B -> Py S unit) s c :
  (forall x, x ∈ l -> body x s c = (Returned tt, s, c)) ->
  for_each l body s c = (Returned tt, s, c).
Proof.
  induction l as [|x l IH]; intros Hbody; simpl; [done|].
  unfold bind. rewrite Hbody by left.
  apply IH. intros y Hy. apply Hbody. by right.
Qed.

Lemma elem_of_enumerate {B} (l : list B) (i : nat) (x : B) :
  (i, x) ∈ enumerate l -> x ∈ l.
Proof.
  unfold enumerate. intros H. apply elem_of_lookup_imap in H as (j & y & Heq & Hj).
  inversion Heq; subst. by eapply list_elem_of_lookup_2.
Qed.

(** ** The senders have no [mul] and [add] *)

(** C10. For every OscSend and OscDataSend object and every argument x,
    setMul(x) and setAdd(x) return and leave every field of the object, and
    the console, as they were. *)
Theorem setMul_setAdd_no_op {signal fader stream : Type}
  (s : OscSend.t signal fader stream) (d : OscDataSend.t) (x : pyval) (c : console) :
  OscSend.setMul x s c = (Returned tt, s, c) /\
  OscSend.setAdd x s c = (Returned tt, s, c) /\
  OscDataSend.setMul x d c = (Returned tt, d, c) /\
  OscDataSend.setAdd x d c = (Returned tt, d, c).
Proof. by split_and!. Qed.

Section Receivers.
Context {sample R L : Type}.
Context `{!Receiver R sample (OscReceive.base sample) sample}.
Context `{!Receiver L (list (OscListReceive.elem sample)) (OscListReceive.base sample) sample}.
Context (OscReceiver_base : Z -> list string -> R).
Context (OscListReceiver_base : Z -> list string -> Z -> L).

Implicit Types (r : OscReceive.t sample R) (lr : OscListReceive.t sample L).
Implicit Types (ds : OscDataSend.t) (dr : OscDataReceive.t).
Implicit Types (p : string) (c : console).

(** ** Construction *)

(** C8. A receiver constructed with a port that is not of type int is
    refused: the TypeError line is written on stderr and exit() ends the
    call, so no object is returned. The same holds for OscDataReceive with a
    function that is not callable and for OscListReceive with a num that is
    not of type int. *)
Theorem construction_refused (port function num : pyval) (address : arg string)
  (mul add : arg sample) c :
  (is_IntType port = false ->
     OscReceive.__init__ OscReceiver_base port address mul add tt c
       = (Exited, tt, c ++ [(Stderr, OscReceive.port_error)]) /\
     OscDataReceive.__init__ port address function tt c
       = (Exited, tt, c ++ [(Stderr, OscDataReceive.port_error)]) /\
     OscListReceive.__init__ OscListReceiver_base port address num mul add tt c
       = (Exited, tt, c ++ [(Stderr, OscListReceive.port_error)])) /\
  (is_IntType port = true -> callable function = false ->
     OscDataReceive.__init__ port address function tt c
       = (Exited, tt, c ++ [(Stderr, OscDataReceive.function_error)])) /\
  (is_IntType port = true -> is_IntType num = false ->
     OscListReceive.__init__ OscListReceiver_base port address num mul add tt c
       = (Exited, tt, c ++ [(Stderr, OscListReceive.num_error)])).
Proof.
  split_and!.
  - intros Hp. unfold OscReceive.__init__, OscDataReceive.__init__,
      OscListReceive.__init__. by rewrite Hp.
  - intros Hp Hf. unfold OscDataReceive.__init__. by rewrite Hp, Hf.
  - intros Hp Hn. unfold OscListReceive.__init__. by rewrite Hp, Hn.
Qed.

(** ** delAddress of an unknown path *)

(** C1. delAddress(path) with a path that is not registered raises
    ValueError (KeyError for OscDataSend) to the caller: the call does not
    exit, nothing is printed, and the addresses and the stream objects are
    those of before the call. *)
Theorem delAddress_unknown p c :
  (forall r, p ∉ OscReceive._address r ->
     let r' := OscReceive.set_mainReceiver (recv_delAddress [p]) r in
     OscReceive.delAddress (One p) r c = (Raised ValueError, r', c) /\
     OscReceive._address r' = OscReceive._address r /\
     OscReceive._base_objs r' = OscReceive._base_objs r) /\
  (forall lr, p ∉ OscListReceive._address lr ->
     let lr' := OscListReceive.set_mainReceiver (recv_delAddress [p]) lr in
     OscListReceive.delAddress (One p) lr c = (Raised ValueError, lr', c) /\
     OscListReceive._address lr' = OscListReceive._address lr /\
     OscListReceive._base_objs lr' = OscListReceive._base_objs lr) /\
  (forall ds, OscDataSend._addresses ds !! p = None ->
     OscDataSend.delAddress (One p) ds c = (Raised KeyError, ds, c)) /\
  (forall dr, p ∉ OscDataReceive._address dr ->
     OscDataReceive.delAddress (One p) dr c = (Raised ValueError, dr, c)).
Proof.
  split_and!.
  - intros r Hp. split; [|done]. unfold OscReceive.delAddress. simpl.
    unfold bind, modify, get_self, lift, ret. simpl.
    rewrite py_index_absent by done. done.
  - intros lr Hp. split; [|done]. unfold OscListReceive.delAddress. simpl.
    unfold bind, modify, get_self, lift, ret. simpl.
    rewrite py_index_absent by done. done.
  - intros ds Hp. unfold OscDataSend.delAddress. simpl.
    unfold bind, get_self, lift, OscDataSend.dict_getitem. by rewrite Hp.
  - intros dr Hp. unfold OscDataReceive.delAddress. simpl.
    unfold bind, get_self, lift. by rewrite py_index_absent.
Qed.

(** ** addAddress of a registered path *)

(** C3, as amended. On a receive-side object, addAddress(path, ...) where
    every path is already registered returns normally and changes nothing:
    the address list, the stream objects and their order are those of
    before, and nothing is printed or raised. *)
Theorem addAddress_registered (path : arg string) (mul add : arg sample) c :
  (forall r, (forall p, p ∈ to_list path -> p ∈ OscReceive._address r) ->
     OscReceive.addAddress path mul add r c = (Returned tt, r, c)) /\
  (forall lr, (forall p, p ∈ to_list path -> p ∈ OscListReceive._address lr) ->
     OscListReceive.addAddress path mul add lr c = (Returned tt, lr, c)) /\
  (forall dr, (forall p, p ∈ to_list path -> p ∈ OscDataReceive._address dr) ->
     OscDataReceive.addAddress path dr c = (Returned tt, dr, c)).
Proof.
  split_and!.
  - intros r Hp. unfold OscReceive.addAddress. apply for_each_noop.
    intros [i p] Hin%elem_of_enumerate. unfold bind, get_self.
    by rewrite py_in_true by auto.
  - intros lr Hp. unfold OscListReceive.addAddress. apply for_each_noop.
    intros [i p] Hin%elem_of_enumerate. unfold bind, get_self.
    by rewrite py_in_true by auto.
  - intros dr Hp. unfold OscDataReceive.addAddress. apply for_each_noop.
    intros p Hin. unfold bind, get_self.
    by rewrite py_in_true by auto.
Qed.

(** ** setValue *)

Lemma range_lmax2 {B C} (a : list B) (b : list C) :
  range (lmax2 a b) = seq 0 (max (length a) (length b)).
Proof. unfold range, lmax2, lmax1. f_equal. lia. Qed.

Lemma set_mainReceiver_compose (f g : R -> R) r :
  OscReceive.set_mainReceiver f (OscReceive.set_mainReceiver g r)
  = OscReceive.set_mainReceiver (fun m => f (g m)) r.
Proof. by destruct r. Qed.

Lemma set_mainReceiver_id r : OscReceive.set_mainReceiver (fun m => m) r = r.
Proof. by destruct r. Qed.

(** The loop of [OscReceive.setValue] over any indices. *)
Lemma setValue_loop (path : list string) (value : list sample) (idxs : list nat) r c :
  path <> [] -> value <> [] ->
  let sent := omap (broadcast_at path value) idxs in
  for_each idxs (fun i =>
      p <- lift (wrap path i) ;;
      s <- get_self ;;
      if py_in p (OscReceive._address s) then
        v <- lift (wrap value i) ;;
        modify (OscReceive.set_mainReceiver (recv_setValue p v))
      else print Stdout (OscReceive.illegal_address p)) r c
  = (Returned tt,
     OscReceive.set_mainReceiver
       (fun m => foldl deliver m (filter (fun pv => pv.1 ∈ OscReceive._address r) sent)) r,
     c ++ (complaint <$> filter (fun pv => pv.1 ∉ OscReceive._address r) sent)).
Proof.
  intros Hp Hv. revert r c. induction idxs as [|i idxs IH]; intros r c.
  - simpl. unfold ret. by rewrite set_mainReceiver_id, app_nil_r.
  - destruct (wrap_Returned path i Hp) as (p & Wp & Lp).
    destruct (wrap_Returned value i Hv) as (v & Wv & Lv).
    assert (broadcast_at path value i = Some (p, v)) as Hb.
    { unfold broadcast_at. by rewrite Lp, Lv. }
    simpl. rewrite !Hb.
    unfold bind at 1. unfold bind at 1. rewrite Wp. unfold lift at 1.
    unfold bind at 1, get_self at 1.
    destruct (decide (p ∈ OscReceive._address r)) as [Hin|Hout].
    + rewrite py_in_true by done. unfold bind at 1. rewrite Wv. unfold lift at 1.
      unfold modify at 1. rewrite IH.
      rewrite set_mainReceiver_compose.
      rewrite filter_cons_True by done. rewrite filter_cons_False by (simpl; tauto).
      by destruct r.
    + rewrite py_in_false by done. unfold print at 1. rewrite IH.
      rewrite filter_cons_False by done. rewrite filter_cons_True by done.
      simpl. by rewrite <- app_assoc.
Qed.

(** C4. OscReceive.setValue(path, value) returns normally. Each position i of
    the broadcast of path and value whose path is registered hands its value
    to the receiver, in order, whatever the other paths are; each position
    whose path is not registered prints the Illegal address line and changes
    nothing. The addresses and the stream objects stay as they were. *)
Theorem setValue_routes (path : arg string) (value : arg sample) r c :
  to_list path <> [] -> to_list value <> [] ->
  let sent := broadcast (to_list path) (to_list value) in
  let known := filter (fun pv => pv.1 ∈ OscReceive._address r) sent in
  let unknown := filter (fun pv => pv.1 ∉ OscReceive._address r) sent in
  OscReceive.setValue path value r c
  = (Returned tt,
     OscReceive.set_mainReceiver (fun m => foldl deliver m known) r,
     c ++ (complaint <$> unknown)) /\
  (forall p v, path = One p -> value = One v -> p ∉ OscReceive._address r ->
     OscReceive.setValue path value r c
     = (Returned tt, r, c ++ [(Stdout, OscReceive.illegal_address p)])).
Proof.
  intros Hp Hv sent known unknown.
  assert (OscReceive.setValue path value r c
    = (Returned tt, OscReceive.set_mainReceiver (fun m => foldl deliver m known) r,
       c ++ (complaint <$> unknown))) as Hrun.
  { unfold OscReceive.setValue. rewrite range_lmax2. by apply setValue_loop. }
  split; [done|].
  intros p v -> -> Hout. rewrite Hrun.
  unfold known, unknown, sent, broadcast, broadcast_at. simpl.
  rewrite filter_cons_False by done. rewrite filter_cons_True by done.
  simpl. by rewrite set_mainReceiver_id.
Qed.

(** C2. On an OscListReceive of width num, setValue(path, value) for a
    registered path and a list of floats whose length is not num hands
    nothing to the receiver and leaves the object as it was. The mismatch is
    reported: the length line is printed and the call returns, or, for the
    empty list, IndexError reaches the caller. A get(path) made next returns
    the values of the streams of the object of before the call. *)
Theorem setValue_wrong_length p (l : list sample) lr c :
  p ∈ OscListReceive._address lr ->
  Z.of_nat (length l) <> OscListReceive._num lr ->
  exists o c' k,
    OscListReceive.setValue (One p) (OscListReceive.EFloat <$> l) lr c = (o, lr, c') /\
    reported c c' o /\ ~ fatal o /\
    (l <> [] -> o = Returned tt /\ c' = c ++ [(Stdout, OscListReceive.length_error)]) /\
    (l = [] -> o = Raised IndexError /\ c' = c) /\
    py_index (OscListReceive._address lr) p = Returned k /\
    OscListReceive.get (Some p) false lr c'
    = (Returned (inl (OscListReceive.values lr (Z.of_nat k * OscListReceive._num lr))), lr, c').
Proof.
  intros Hin Hlen.
  destruct (py_index_present _ _ Hin) as (k & Hk & _).
  assert (forall c', OscListReceive.get (Some p) false lr c'
    = (Returned (inl (OscListReceive.values lr (Z.of_nat k * OscListReceive._num lr))), lr, c'))
    as Hget.
  { intros c'. unfold OscListReceive.get, bind, get_self, lift, ret. simpl. by rewrite Hk. }
  unfold OscListReceive.setValue. simpl.
  unfold bind at 1. unfold bind at 1. simpl. unfold bind at 1, get_self at 1.
  rewrite py_in_true by done.
  destruct l as [|x l].
  - exists (Raised IndexError), c, k. split_and!; try done.
    + left. by eexists.
  - exists (Returned tt), (c ++ [(Stdout, OscListReceive.length_error)]), k.
    split_and!; try done.
    + unfold bind, lift, ret. simpl.
      rewrite decide_False; [done|].
      intros E. apply Hlen. rewrite <- E. by rewrite !length_fmap.
    + right. by exists [(Stdout, OscListReceive.length_error)].
Qed.

(** ** Subscripts *)

Lemma py_slice_inner {B} (l : list B) (a n : nat) :
  (a + n <= length l)%nat ->
  py_slice l (Z.of_nat a) (Z.of_nat a + Z.of_nat n) = take n (drop a l).
Proof.
  intros H. unfold py_slice, clip.
  rewrite !decide_False by lia. f_equal; [lia|f_equal; lia].
Qed.

(** C7, as amended. A subscript that is an address string not registered on
    a receiver raises ValueError. A subscript that is an ordinal not below
    the number of stream objects prints the line 'i' too large! and returns
    None. *)
Theorem getitem_unknown p (i : Z) c :
  (forall r, p ∉ OscReceive._address r ->
     OscReceive.__getitem__ (KStr p) r c = (Raised ValueError, r, c)) /\
  (forall lr, p ∉ OscListReceive._address lr ->
     OscListReceive.__getitem__ (KStr p) lr c = (Raised ValueError, lr, c)) /\
  (forall r, Z.of_nat (length (OscReceive._base_objs r)) <= i ->
     OscReceive.__getitem__ (KInt i) r c
     = (Returned None, r, c ++ [(Stdout, OscReceive.too_large)])) /\
  (forall lr, Z.of_nat (length (OscListReceive._base_objs lr)) <= i ->
     OscListReceive.__getitem__ (KInt i) lr c
     = (Returned None, lr, c ++ [(Stdout, OscListReceive.too_large)])).
Proof.
  split_and!.
  - intros r Hp. unfold OscReceive.__getitem__, bind, get_self, lift.
    by rewrite py_index_absent.
  - intros lr Hp. unfold OscListReceive.__getitem__, bind, get_self, lift.
    by rewrite py_index_absent.
  - intros r Hi. unfold OscReceive.__getitem__, bind, get_self.
    by rewrite decide_False by lia.
  - intros lr Hi. unfold OscListReceive.__getitem__, bind, get_self.
    by rewrite decide_False by lia.
Qed.

(** C6, as amended. On an OscListReceive of width num >= 1 that holds the
    streams of its first k+1 addresses, let A be the address whose first
    position in the address list is k. The subscript A returns the num
    streams at the flat positions k*num to k*num+num-1, the ordinal
    subscript k returns the same window, and get(A) returns the num values
    of these streams in order. *)
Theorem window_of_address (A : string) (k : nat) lr c :
  0 < OscListReceive._num lr ->
  (Z.of_nat k + 1) * OscListReceive._num lr
    <= Z.of_nat (length (OscListReceive._base_objs lr)) ->
  OscListReceive._address lr !! k = Some A ->
  A ∉ take k (OscListReceive._address lr) ->
  let num := Z.to_nat (OscListReceive._num lr) in
  let w := take num (drop (k * num) (OscListReceive._base_objs lr)) in
  length w = num /\
  (forall j, (j < num)%nat ->
     is_Some (w !! j) /\ w !! j = OscListReceive._base_objs lr !! (k * num + j)%nat) /\
  OscListReceive.__getitem__ (KStr A) lr c = (Returned (Some w), lr, c) /\
  OscListReceive.__getitem__ (KInt (Z.of_nat k)) lr c = (Returned (Some w), lr, c) /\
  OscListReceive.get (Some A) false lr c
  = (Returned (inl (stream_getValue (OscListReceive._mainReceiver lr) <$> w)), lr, c) /\
  length (stream_getValue (OscListReceive._mainReceiver lr) <$> w) = num.
Proof.
  intros Hnum Hlen Hk Hfirst num w.
  assert (OscListReceive._num lr = Z.of_nat num) as Hn by (unfold num; lia).
  assert (k * num + num <= length (OscListReceive._base_objs lr))%nat as Hle.
  { rewrite Hn in Hlen. lia. }
  assert (OscListReceive.window lr (Z.of_nat k * OscListReceive._num lr) = w) as Hw.
  { unfold OscListReceive.window. rewrite Hn, <- Nat2Z.inj_mul.
    by apply py_slice_inner. }
  assert (length w = num) as Hlw.
  { unfold w. rewrite length_take, length_drop. lia. }
  pose proof (py_index_first _ _ _ Hk Hfirst) as Hidx.
  split_and!.
  - done.
  - intros j Hj. assert (w !! j = OscListReceive._base_objs lr !! (k * num + j)%nat) as E.
    { unfold w. rewrite lookup_take_lt by done. by rewrite lookup_drop. }
    split; [|done]. apply lookup_lt_is_Some. lia.
  - unfold OscListReceive.__getitem__, bind, get_self, lift, ret.
    by rewrite Hidx, Hw.
  - unfold OscListReceive.__getitem__, bind, get_self, ret.
    rewrite decide_True by nia. by rewrite Hw.
  - unfold OscListReceive.get, bind, get_self, lift, ret. simpl.
    rewrite Hidx. unfold OscListReceive.values. by rewrite Hw.
  - by rewrite length_fmap.
Qed.

End Receivers.

(** ** OscDataSend.send *)

Lemma set_wire_compose (f g : list OscDataSend.packet -> list OscDataSend.packet) ds :
  OscDataSend.set_wire f (OscDataSend.set_wire g ds)
  = OscDataSend.set_wire (fun w => f (g w)) ds.
Proof. by destruct ds. Qed.

Lemma set_wire_ext (f g : list OscDataSend.packet -> list OscDataSend.packet) ds :
  f (OscDataSend.wire ds) = g (OscDataSend.wire ds) ->
  OscDataSend.set_wire f ds = OscDataSend.set_wire g ds.
Proof. destruct ds. unfold OscDataSend.set_wire. simpl. by intros ->. Qed.

(** The fan-out loop over any list of targets. *)
Lemma send_loop (msg : list pyval) (objs : list OscDataSend.base) ds c :
  for_each objs (fun obj => OscDataSend.base_send obj msg) ds c
  = (Returned tt,
     OscDataSend.set_wire
       (fun w => w ++ (OscDataSend.packet_for msg <$> filter (accepts msg) objs)) ds,
     c ++ (rejection <$> filter (fun o => ~ accepts msg o) objs)).
Proof.
  revert ds c. induction objs as [|o objs IH]; intros ds c.
  - simpl. unfold ret. rewrite app_nil_r. f_equal. f_equal.
    destruct ds. unfold OscDataSend.set_wire. simpl. by rewrite app_nil_r.
  - simpl. unfold bind at 1. unfold OscDataSend.base_send at 1.
    destruct (OscDataSend.conforms (OscDataSend.b_types o) msg) eqn:E.
    + unfold modify at 1. rewrite IH, set_wire_compose.
      rewrite filter_cons_True by done.
      rewrite filter_cons_False by (unfold accepts; tauto).
      f_equal. f_equal. apply set_wire_ext. simpl. by rewrite <- app_assoc.
    + unfold print at 1. rewrite IH.
      rewrite filter_cons_False by (unfold accepts; congruence).
      rewrite filter_cons_True by (unfold accepts; congruence).
      simpl. by rewrite <- app_assoc.
Qed.

(** C5. send(msg) with no address makes one send per base object, in
    order: each target whose signature fits msg gets msg once on the
    transport, each other target is reported on its own, and no target
    stops the sends to the targets after it; when every target fits, the
    transport gets exactly one packet per target. send(msg, address=a) with
    a registered sends to the target bound to a and to no other. *)
Theorem send_fan_out (msg : list pyval) (ds : OscDataSend.t) (c : console) :
  let objs := OscDataSend._base_objs ds in
  let sent := OscDataSend.packet_for msg <$> filter (accepts msg) objs in
  OscDataSend.send msg None ds c
  = (Returned tt,
     OscDataSend.set_wire (fun w => w ++ sent) ds,
     c ++ (rejection <$> filter (fun o => ~ accepts msg o) objs)) /\
  (Forall (accepts msg) objs -> sent = OscDataSend.packet_for msg <$> objs) /\
  (forall a o, OscDataSend._addresses ds !! a = Some o ->
     OscDataSend.send msg (Some a) ds c
     = if OscDataSend.conforms (OscDataSend.b_types o) msg
       then (Returned tt,
             OscDataSend.set_wire (fun w => w ++ [OscDataSend.packet_for msg o]) ds, c)
       else (Returned tt, ds, c ++ [rejection o])).
Proof.
  intros objs sent. split_and!.
  - unfold OscDataSend.send, bind, get_self. apply send_loop.
  - intros Hall. unfold sent. f_equal. clear sent.
    induction Hall as [|o l Ho Hl IH]; [done|].
    rewrite filter_cons_True by done. by rewrite IH.
  - intros a o Ha. unfold OscDataSend.send, bind, get_self, lift,
      OscDataSend.dict_getitem. rewrite Ha. unfold OscDataSend.base_send.
    by destruct (OscDataSend.conforms _ _).
Qed.

(** ** The registries under addAddress and delAddress *)

Section Registries.
Context {sample R L : Type}.
Context `{!Receiver R sample (OscReceive.base sample) sample}.
Context `{!Receiver L (list (OscListReceive.elem sample)) (OscListReceive.base sample) sample}.

Implicit Types (r : OscReceive.t sample R) (lr : OscListReceive.t sample L).
Implicit Types (c : console).

(** [[self._address.index(p) for p in path]] reads the object only. *)
Lemma comprehension_index {S} (addr : S -> list string) (path : list string) (s : S) c :
  exists o, comprehension path (fun p => s <- get_self ;; lift (py_index (addr s) p)) s c
            = (o, s, c) /\ o <> Exited.
Proof.
  induction path as [|p path (o & IH & Ho)]; simpl.
  - by eexists.
  - unfold bind at 1 2, get_self at 1, lift at 1.
    pose proof (py_index_not_Exited (addr s) p) as Hne.
    destruct (py_index (addr s) p); [|by eexists|done].
    unfold bind at 1. rewrite IH. destruct o; [by eexists..|done].
Qed.

Lemma run_calls_preserve {S O} (method : O -> Py S unit) (I : S -> Prop) (Q : O -> Prop) :
  (forall o s c, Q o -> I s -> I (method o s c).1.2) ->
  forall calls s c, Forall Q calls -> I s -> I (run_calls method calls s c).1.
Proof.
  intros Hstep calls. induction calls as [|o calls IH]; intros s c HQ Hs; [done|].
  inversion HQ; subst. simpl.
  specialize (Hstep o s c). destruct (method o s c) as [[out s'] c'].
  apply IH; [done|]. by apply Hstep.
Qed.

(** *** OscReceive *)

Lemma OscReceive_pop_loop (inds : list nat) r c :
  registry r ->
  exists o r',
    for_each inds (fun ind =>
      s <- get_self ;;
      x <- lift (py_pop (OscReceive._address s) (Z.of_nat ind)) ;;
      modify (OscReceive.set_address (fun _ => x.2)) ;;
      s <- get_self ;;
      x <- lift (py_pop (OscReceive._base_objs s) (Z.of_nat ind)) ;;
      modify (OscReceive.set_base_objs (fun _ => x.2))) r c = (o, r', c) /\
    registry r' /\
    OscReceive._address r' `sublist_of` OscReceive._address r.
Proof.
  revert r c. induction inds as [|ind inds IH]; intros r c Hr; simpl.
  - by exists (Returned tt), r.
  - unfold bind at 1 2, get_self at 1.
    destruct (OscReceive._address r !! ind) as [a|] eqn:Ha.
    + assert (is_Some (OscReceive._base_objs r !! ind)) as [b Hb].
      { apply lookup_lt_is_Some. apply lookup_lt_Some in Ha.
        unfold registry in Hr. by rewrite <- Hr, length_fmap in Ha. }
      unfold bind at 1. rewrite (py_pop_nat _ _ _ Ha). unfold lift at 1.
      unfold bind at 1, modify at 1. unfold bind at 1, get_self at 1.
      unfold bind at 1. simpl. rewrite (py_pop_nat _ _ _ Hb). unfold lift at 1.
      unfold modify at 1. simpl.
      match goal with |- context [for_each inds _ ?r1 c] =>
        destruct (IH r1 c) as (o & r' & Hrun & Hr' & Hsub) end.
      { unfold registry in *. simpl. by rewrite list_fmap_delete, Hr. }
      exists o, r'. split_and!; [done..|].
      etrans; [exact Hsub|]. simpl. apply sublist_delete.
    + unfold bind at 1. rewrite py_pop_nat_out by by apply lookup_ge_None.
      by exists (Raised IndexError), r.
Qed.

Lemma OscReceive_delAddress_registry (path : arg string) r c :
  registry r ->
  exists o r',
    OscReceive.delAddress path r c = (o, r', c) /\
    registry r' /\
    OscReceive._address r' `sublist_of` OscReceive._address r.
Proof.
  intros Hr. unfold OscReceive.delAddress.
  unfold bind at 1, modify at 1.
  set (r1 := OscReceive.set_mainReceiver _ r).
  assert (registry r1) as Hr1 by done.
  unfold bind at 1.
  destruct (comprehension_index OscReceive._address (to_list path) r1 c)
    as (o & -> & Ho).
  destruct o as [inds| |]; [|by exists (Raised e), r1|done].
  destruct (OscReceive_pop_loop (rev inds) r1 c Hr1) as (o & r' & Hrun & Hr' & Hsub).
  by exists o, r'.
Qed.

Lemma OscReceive_add_loop (mul add : list sample) (ips : list (nat * string)) r c :
  mul <> [] -> add <> [] -> registry r ->
  exists r',
    for_each ips (fun '(i, p) =>
      s <- get_self ;;
      if negb (py_in p (OscReceive._address s)) then
        modify (OscReceive.set_mainReceiver (recv_addAddress p)) ;;
        modify (OscReceive.set_address (fun l => l ++ [p])) ;;
        m <- lift (wrap mul i) ;;
        d <- lift (wrap add i) ;;
        modify (OscReceive.set_base_objs (fun l => l ++ [OscReceive.OscReceive_base p m d]))
      else ret tt) r c = (Returned tt, r', c) /\
    registry r' /\
    OscReceive._address r `prefix_of` OscReceive._address r'.
Proof.
  intros Hm Hd. revert r c. induction ips as [|[i p] ips IH]; intros r c Hr; simpl.
  - by exists r.
  - unfold bind at 1 2, get_self at 1.
    destruct (py_in p (OscReceive._address r)); simpl.
    + unfold ret at 1. by apply IH.
    + destruct (wrap_Returned mul i Hm) as (m & Wm & _).
      destruct (wrap_Returned add i Hd) as (d & Wd & _).
      unfold bind at 1, modify at 1. unfold bind at 1, modify at 1.
      unfold bind at 1. rewrite Wm. unfold lift at 1.
      unfold bind at 1. rewrite Wd. unfold lift at 1. unfold modify at 1.
      match goal with |- context [for_each ips _ ?r1 c] =>
        destruct (IH r1 c) as (r' & Hrun & Hr' & Hpre) end.
      { unfold registry in *. simpl. by rewrite fmap_app, Hr. }
      exists r'. split_and!; [done..|].
      etrans; [|exact Hpre]. simpl. by apply prefix_app_r.
Qed.

Lemma OscReceive_addAddress_registry (path : arg string) (mul add : arg sample) r c :
  to_list mul <> [] -> to_list add <> [] -> registry r ->
  exists r',
    OscReceive.addAddress path mul add r c = (Returned tt, r', c) /\
    registry r' /\
    OscReceive._address r `prefix_of` OscReceive._address r'.
Proof. intros Hm Hd Hr. unfold OscReceive.addAddress. by apply OscReceive_add_loop. Qed.

(** *** OscListReceive *)

Lemma length_block (num : Z) (a : string) : length (block num a) = Z.to_nat num.
Proof. unfold block, range. by rewrite length_fmap, length_seq. Qed.

Lemma length_bind_const {A B} (f : A -> list B) (n : nat) (l : list A) :
  (forall a, length (f a) = n) -> length (l ≫= f) = (length l * n)%nat.
Proof.
  intros Hf. induction l as [|x l IH]; [done|].
  rewrite bind_cons, length_app, Hf, IH. simpl. lia.
Qed.

(** Taking a block out of a list of blocks of the same length. *)
Lemma delete_bind {A B} (f : A -> list B) (n : nat) (l : list A) (i : nat) :
  (forall a, length (f a) = n) -> (i < length l)%nat ->
  take (i * n) (l ≫= f) ++ drop (i * n + n) (l ≫= f) = delete i l ≫= f.
Proof.
  intros Hf. revert i. induction l as [|x l IH]; intros i Hi; simpl in Hi; [lia|].
  rewrite bind_cons. destruct i as [|i].
  - simpl. by rewrite drop_app_length' by by rewrite Hf.
  - replace (S i * n)%nat with (n + i * n)%nat by lia.
    rewrite take_app_add' by by rewrite Hf.
    replace (n + i * n + n)%nat with (n + (i * n + n))%nat by lia.
    rewrite drop_app_add' by by rewrite Hf.
    change (delete (S i) (x :: l)) with (x :: delete i l).
    rewrite bind_cons, <- app_assoc. f_equal. apply IH. lia.
Qed.

Lemma comprehension_pure {S B C} (f : B -> Py S C) (g : B -> C) (l : list B) s c :
  (forall x, f x s c = (Returned (g x), s, c)) ->
  comprehension l f s c = (Returned (g <$> l), s, c).
Proof.
  intros Hf. induction l as [|x l IH]; simpl; [done|].
  unfold bind at 1. rewrite Hf. unfold bind at 1. by rewrite IH.
Qed.

Lemma new_streams_ok {S} (num : Z) (p : string) (mul add : list sample) (i : nat)
  (s : S) c :
  mul <> [] -> add <> [] ->
  exists objs,
    OscListReceive.new_streams num (Returned p) mul add i s c = (Returned objs, s, c) /\
    tag <$> objs = block num p.
Proof.
  intros Hm Hd.
  destruct (wrap_Returned mul i Hm) as (m & Wm & _).
  destruct (wrap_Returned add i Hd) as (d & Wd & _).
  exists ((fun j => OscListReceive.OscListReceive_base p j m d) <$> range num). split.
  - unfold OscListReceive.new_streams. apply comprehension_pure.
    intros j. unfold bind, lift, ret. by rewrite Wm, Wd.
  - unfold block. by rewrite <- list_fmap_compose.
Qed.

(** [for i in reversed(range(first, first+num)): self._base_objs.pop(i)] *)
Lemma pop_block_loop (a n : nat) (num : Z) lr c :
  Z.to_nat num = n ->
  (a + n <= length (OscListReceive._base_objs lr))%nat ->
  for_each (rev (range2 (Z.of_nat a) (Z.of_nat a + num))) (fun i =>
      s <- get_self ;;
      x <- lift (py_pop (OscListReceive._base_objs s) i) ;;
      modify (OscListReceive.set_base_objs (fun _ => x.2))) lr c
  = (Returned tt,
     OscListReceive.set_base_objs (fun l => take a l ++ drop (a + n) l) lr, c).
Proof.
  intros Hn. unfold range2.
  replace (Z.of_nat a + num - Z.of_nat a) with num by lia. rewrite Hn. clear Hn num.
  revert lr c. induction n as [|n IH]; intros lr c Hlen.
  - simpl. unfold ret. destruct lr. unfold OscListReceive.set_base_objs. simpl.
    by rewrite Nat.add_0_r, take_drop.
  - rewrite seq_S, fmap_app, rev_app_distr. simpl.
    destruct (lookup_lt_is_Some_2 (OscListReceive._base_objs lr) (a + n)%nat) as [b Hb];
      [lia|].
    unfold bind at 1 2, get_self at 1. unfold bind at 1.
    replace (Z.of_nat a + Z.of_nat n) with (Z.of_nat (a + n)) by lia.
    rewrite (py_pop_nat _ _ _ Hb). unfold lift at 1, modify at 1.
    rewrite IH.
    2:{ simpl. rewrite length_delete by by eexists. lia. }
    destruct lr as [? ? ? ? ? ? objs]. unfold OscListReceive.set_base_objs. simpl in *.
    do 3 f_equal. rewrite delete_take_drop.
    rewrite take_app_le by (rewrite length_take; lia).
    rewrite take_take. replace (a `min` (a + n))%nat with a by lia.
    rewrite drop_app_length' by (rewrite length_take; lia).
    f_equal. f_equal. lia.
Qed.

Lemma OscListReceive_pop_loop (inds : list nat) lr c :
  list_registry lr ->
  exists o lr',
    for_each inds (fun ind =>
      s <- get_self ;;
      x <- lift (py_pop (OscListReceive._address s) (Z.of_nat ind)) ;;
      modify (OscListReceive.set_address (fun _ => x.2)) ;;
      let first := Z.of_nat ind * OscListReceive._num s in
      for_each (rev (range2 first (first + OscListReceive._num s))) (fun i =>
        s <- get_self ;;
        x <- lift (py_pop (OscListReceive._base_objs s) i) ;;
        modify (OscListReceive.set_base_objs (fun _ => x.2)))) lr c = (o, lr', c) /\
    list_registry lr' /\
    OscListReceive._num lr' = OscListReceive._num lr /\
    OscListReceive._address lr' `sublist_of` OscListReceive._address lr.
Proof.
  revert lr c. induction inds as [|ind inds IH]; intros lr c Hr; simpl.
  - by exists (Returned tt), lr.
  - unfold bind at 1 2, get_self at 1.
    destruct (OscListReceive._address lr !! ind) as [a|] eqn:Ha.
    + unfold bind at 1. rewrite (py_pop_nat _ _ _ Ha). unfold lift at 1.
      unfold bind at 1, modify at 1.
      set (n := Z.to_nat (OscListReceive._num lr)).
      pose proof (lookup_lt_Some _ _ _ Ha) as Hlt.
      assert (length (OscListReceive._base_objs lr)
              = (length (OscListReceive._address lr) * n)%nat) as Hlen.
      { unfold list_registry in Hr. rewrite <- (length_fmap tag), Hr.
        apply length_bind_const, length_block. }
      assert (Z.of_nat ind * OscListReceive._num lr + OscListReceive._num lr
              - Z.of_nat ind * OscListReceive._num lr = OscListReceive._num lr) as Hd by lia.
      assert (rev (range2 (Z.of_nat ind * OscListReceive._num lr)
                 (Z.of_nat ind * OscListReceive._num lr + OscListReceive._num lr))
              = rev (range2 (Z.of_nat (ind * n))
                      (Z.of_nat (ind * n) + OscListReceive._num lr))) as ->.
      { unfold range2. rewrite Hd.
        replace (Z.of_nat (ind * n) + OscListReceive._num lr - Z.of_nat (ind * n))
          with (OscListReceive._num lr) by lia.
        destruct (decide (0 < OscListReceive._num lr)) as [Hpos|Hneg].
        - do 2 f_equal. replace (Z.of_nat (ind * n))
            with (Z.of_nat ind * OscListReceive._num lr) by (unfold n; lia). done.
        - by replace (Z.to_nat (OscListReceive._num lr)) with 0%nat by lia. }
      rewrite (pop_block_loop (ind * n) n); [|done|simpl; nia].
      match goal with |- context [for_each inds _ ?r1 c] =>
        destruct (IH r1 c) as (o & lr' & Hrun & Hr' & Hnum & Hsub) end.
      { unfold list_registry in *. simpl.
        rewrite fmap_app, fmap_take, fmap_drop, Hr.
        apply delete_bind; [apply length_block|done]. }
      exists o, lr'. split_and!; [done..|].
      etrans; [exact Hsub|]. simpl. apply sublist_delete.
    + unfold bind at 1. rewrite py_pop_nat_out by by apply lookup_ge_None.
      by exists (Raised IndexError), lr.
Qed.

Lemma OscListReceive_delAddress_registry (path : arg string) lr c :
  list_registry lr ->
  exists o lr',
    OscListReceive.delAddress path lr c = (o, lr', c) /\
    list_registry lr' /\
    OscListReceive._num lr' = OscListReceive._num lr /\
    OscListReceive._address lr' `sublist_of` OscListReceive._address lr.
Proof.
  intros Hr. unfold OscListReceive.delAddress.
  unfold bind at 1, modify at 1.
  set (r1 := OscListReceive.set_mainReceiver _ lr).
  assert (list_registry r1) as Hr1 by done.
  unfold bind at 1.
  destruct (comprehension_index OscListReceive._address (to_list path) r1 c)
    as (o & -> & Ho).
  destruct o as [inds| |]; [|by exists (Raised e), r1|done].
  destruct (OscListReceive_pop_loop (rev inds) r1 c Hr1)
    as (o & lr' & Hrun & Hr' & Hnum & Hsub).
  by exists o, lr'.
Qed.

Lemma OscListReceive_add_loop (mul add : list sample) (ips : list (nat * string)) lr c :
  mul <> [] -> add <> [] -> list_registry lr ->
  exists lr',
    for_each ips (fun '(i, p) =>
      s <- get_self ;;
      if negb (py_in p (OscListReceive._address s)) then
        modify (OscListReceive.set_mainReceiver (recv_addAddress p)) ;;
        modify (OscListReceive.set_address (fun l => l ++ [p])) ;;
        objs <- OscListReceive.new_streams (OscListReceive._num s) (Returned p) mul add i ;;
        modify (OscListReceive.set_base_objs (fun l => l ++ objs))
      else ret tt) lr c = (Returned tt, lr', c) /\
    list_registry lr' /\
    OscListReceive._num lr' = OscListReceive._num lr /\
    OscListReceive._address lr `prefix_of` OscListReceive._address lr'.
Proof.
  intros Hm Hd. revert lr c. induction ips as [|[i p] ips IH]; intros lr c Hr; simpl.
  - by exists lr.
  - unfold bind at 1 2, get_self at 1.
    destruct (py_in p (OscListReceive._address lr)); simpl.
    + unfold ret at 1. by apply IH.
    + unfold bind at 1, modify at 1. unfold bind at 1, modify at 1.
      unfold bind at 1.
      match goal with |- context [OscListReceive.new_streams ?n _ _ _ _ ?s1 c] =>
        destruct (new_streams_ok n p mul add i s1 c Hm Hd) as (objs & -> & Hobjs) end.
      unfold modify at 1.
      match goal with |- context [for_each ips _ ?r1 c] =>
        destruct (IH r1 c) as (lr' & Hrun & Hr' & Hnum & Hpre) end.
      { unfold list_registry in *. simpl. rewrite fmap_app, Hr, Hobjs, bind_app.
        f_equal. simpl. by rewrite app_nil_r. }
      exists lr'. split_and!; [done..|].
      etrans; [|exact Hpre]. simpl. by apply prefix_app_r.
Qed.

Lemma OscListReceive_addAddress_registry (path : arg string) (mul add : arg sample) lr c :
  to_list mul <> [] -> to_list add <> [] -> list_registry lr ->
  exists lr',
    OscListReceive.addAddress path mul add lr c = (Returned tt, lr', c) /\
    list_registry lr' /\
    OscListReceive._num lr' = OscListReceive._num lr /\
    OscListReceive._address lr `prefix_of` OscListReceive._address lr'.
Proof. intros Hm Hd Hr. unfold OscListReceive.addAddress. by apply OscListReceive_add_loop. Qed.

(** *** Removing one registered path *)

Lemma OscReceive_delAddress_one (p : string) (k : nat) r c :
  registry r ->
  OscReceive._address r !! k = Some p -> p ∉ take k (OscReceive._address r) ->
  exists r',
    OscReceive.delAddress (One p) r c = (Returned tt, r', c) /\
    OscReceive._address r' = delete k (OscReceive._address r) /\
    OscReceive._base_objs r' = delete k (OscReceive._base_objs r).
Proof.
  intros Hr Hk Hfirst.
  assert (is_Some (OscReceive._base_objs r !! k)) as [b Hb].
  { apply lookup_lt_is_Some. apply lookup_lt_Some in Hk.
    unfold registry in Hr. by rewrite <- Hr, length_fmap in Hk. }
  eexists. unfold OscReceive.delAddress. simpl.
  unfold bind, modify, get_self, lift, ret. simpl.
  rewrite (py_index_first _ _ _ Hk Hfirst). simpl.
  unfold bind, ret. simpl.
  rewrite (py_pop_nat _ _ _ Hk). simpl.
  rewrite (py_pop_nat _ _ _ Hb). simpl. done.
Qed.

Lemma OscListReceive_delAddress_one (p : string) (k : nat) lr c :
  list_registry lr ->
  OscListReceive._address lr !! k = Some p -> p ∉ take k (OscListReceive._address lr) ->
  let n := Z.to_nat (OscListReceive._num lr) in
  exists lr',
    OscListReceive.delAddress (One p) lr c = (Returned tt, lr', c) /\
    OscListReceive._address lr' = delete k (OscListReceive._address lr) /\
    OscListReceive._base_objs lr'
    = take (k * n) (OscListReceive._base_objs lr)
      ++ drop (k * n + n) (OscListReceive._base_objs lr).
Proof.
  intros Hr Hk Hfirst n.
  pose proof (lookup_lt_Some _ _ _ Hk) as Hlt.
  assert (length (OscListReceive._base_objs lr)
          = (length (OscListReceive._address lr) * n)%nat) as Hlen.
  { unfold list_registry in Hr. rewrite <- (length_fmap tag), Hr.
    apply length_bind_const, length_block. }
  eexists. unfold OscListReceive.delAddress. simpl.
  unfold bind at 1, modify at 1. unfold bind at 1. unfold bind at 1.
  unfold bind at 1, get_self at 1, lift at 1. simpl.
  rewrite (py_index_first _ _ _ Hk Hfirst). unfold bind at 1, ret at 1, ret at 1.
  simpl. unfold bind at 1. unfold bind at 1, get_self at 1. unfold bind at 1. simpl.
  rewrite (py_pop_nat _ _ _ Hk). unfold lift at 1. unfold bind at 1, modify at 1.
  simpl.
  assert (rev (range2 (Z.of_nat k * OscListReceive._num lr)
             (Z.of_nat k * OscListReceive._num lr + OscListReceive._num lr))
          = rev (range2 (Z.of_nat (k * n)) (Z.of_nat (k * n) + OscListReceive._num lr)))
    as ->.
  { unfold range2.
    replace (Z.of_nat k * OscListReceive._num lr + OscListReceive._num lr
             - Z.of_nat k * OscListReceive._num lr) with (OscListReceive._num lr) by lia.
    replace (Z.of_nat (k * n) + OscListReceive._num lr - Z.of_nat (k * n))
      with (OscListReceive._num lr) by lia.
    destruct (decide (0 < OscListReceive._num lr)) as [Hpos|Hneg].
    - do 2 f_equal. replace (Z.of_nat (k * n))
        with (Z.of_nat k * OscListReceive._num lr) by (unfold n; lia). done.
    - by replace (Z.to_nat (OscListReceive._num lr)) with 0%nat by lia. }
  rewrite (pop_block_loop (k * n) n); [|done|simpl; fold n; nia].
  unfold ret. simpl. done.
Qed.

(** C9. From an object whose stream objects are those of its addresses, in
    the order of the addresses (one each for OscReceive, a block of num for
    OscListReceive), every sequence of addAddress and delAddress calls, with
    mul and add as documented, leads to such an object again: the number of
    stream objects is the number of addresses (times num, a length, for
    OscListReceive). delAddress leaves the addresses that remain in their
    order, and delAddress of one registered path removes that address and
    its stream objects from their position; addAddress appends. *)
Theorem registry_invariant (calls : list (registry_call sample)) :
  Forall documented calls ->
  (forall r c, registry r ->
     let r' := (run_calls OscReceive_call calls r c).1 in
     registry r' /\
     length (OscReceive._base_objs r') = length (OscReceive._address r')) /\
  (forall lr c, list_registry lr -> 0 <= OscListReceive._num lr ->
     let lr' := (run_calls OscListReceive_call calls lr c).1 in
     list_registry lr' /\
     OscListReceive._num lr' = OscListReceive._num lr /\
     Z.of_nat (length (OscListReceive._base_objs lr'))
     = Z.of_nat (length (OscListReceive._address lr')) * OscListReceive._num lr') /\
  (forall path r c, registry r ->
     OscReceive._address (OscReceive.delAddress path r c).1.2
       `sublist_of` OscReceive._address r) /\
  (forall path lr c, list_registry lr ->
     OscListReceive._address (OscListReceive.delAddress path lr c).1.2
       `sublist_of` OscListReceive._address lr) /\
  (forall p k r c, registry r ->
     OscReceive._address r !! k = Some p -> p ∉ take k (OscReceive._address r) ->
     exists r',
       OscReceive.delAddress (One p) r c = (Returned tt, r', c) /\
       OscReceive._address r' = delete k (OscReceive._address r) /\
       OscReceive._base_objs r' = delete k (OscReceive._base_objs r)) /\
  (forall p k lr c, list_registry lr ->
     OscListReceive._address lr !! k = Some p ->
     p ∉ take k (OscListReceive._address lr) ->
     let n := Z.to_nat (OscListReceive._num lr) in
     exists lr',
       OscListReceive.delAddress (One p) lr c = (Returned tt, lr', c) /\
       OscListReceive._address lr' = delete k (OscListReceive._address lr) /\
       OscListReceive._base_objs lr'
       = take (k * n) (OscListReceive._base_objs lr)
         ++ drop (k * n + n) (OscListReceive._base_objs lr)).
Proof.
  intros Hdoc. split_and!.
  - intros r c Hr r'.
    assert (registry r') as Hr'.
    { unfold r'. apply (run_calls_preserve OscReceive_call registry documented);
        [|done..].
      intros [path mul add|path] s c0 Hd Hs; simpl.
      - destruct Hd as [Hm Ha].
        destruct (OscReceive_addAddress_registry path mul add s c0 Hm Ha Hs)
          as (s' & -> & Hs' & _). done.
      - destruct (OscReceive_delAddress_registry path s c0 Hs)
          as (o & s' & -> & Hs' & _). done. }
    split; [done|]. unfold registry in Hr'. by rewrite <- Hr', length_fmap.
  - intros lr c Hr Hnum lr'.
    set (I := fun s : OscListReceive.t sample L =>
                list_registry s /\ OscListReceive._num s = OscListReceive._num lr).
    assert (I lr') as [Hr' Hn'].
    { unfold lr'. apply (run_calls_preserve OscListReceive_call I documented);
        [|done..].
      intros [path mul add|path] s c0 Hd [Hs Hn]; simpl.
      - destruct Hd as [Hm Ha].
        destruct (OscListReceive_addAddress_registry path mul add s c0 Hm Ha Hs)
          as (s' & -> & Hs' & Hn' & _). split; [done|]. simpl. congruence.
      - destruct (OscListReceive_delAddress_registry path s c0 Hs)
          as (o & s' & -> & Hs' & Hn' & _). split; [done|]. simpl. congruence. }
    split_and!; [done..|].
    unfold list_registry in Hr'. rewrite <- (length_fmap tag), Hr'.
    rewrite (length_bind_const _ (Z.to_nat (OscListReceive._num lr')))
      by apply length_block.
    lia.
  - intros path r c Hr.
    by destruct (OscReceive_delAddress_registry path r c Hr) as (o & s' & -> & _ & Hsub).
  - intros path lr c Hr.
    by destruct (OscListReceive_delAddress_registry path lr c Hr)
      as (o & s' & -> & _ & _ & Hsub).
  - intros p k r c. apply OscReceive_delAddress_one.
  - intros p k lr c. apply OscListReceive_delAddress_one.
Qed.

End Registries.

(** * The properties on the example objects *)

Lemma construction_refused_witness :
  (is_IntType (PStr "9000") = false /\
   OscReceive.__init__ (R := floats) (fun _ _ => []) (PStr "9000") (One "/pitch")
     (One 1) (One 0) tt []
   = (Exited, tt, [(Stderr, OscReceive.port_error)])) /\
  (is_IntType (PInt 9000) = true /\ callable (PStr "pp") = false /\
   OscDataReceive.__init__ (PInt 9000) (One "/pitch") (PStr "pp") tt []
   = (Exited, tt, [(Stderr, OscDataReceive.function_error)])) /\
  (is_IntType (PFloat 8 0) = false /\
   OscListReceive.__init__ (R := lists) (fun _ _ _ => []) (PInt 9000) (One "/pitch")
     (PFloat 8 0) (One 1) (One 0) tt []
   = (Exited, tt, [(Stderr, OscListReceive.num_error)])).
Proof.
  pose proof (construction_refused (sample := Z) (R := floats) (L := lists)
    (fun _ _ => []) (fun _ _ _ => []) (PStr "9000") (PStr "pp") (PFloat 8 0)
    (One "/pitch") (One 1) (One 0) []) as (H1 & _ & _).
  pose proof (construction_refused (sample := Z) (R := floats) (L := lists)
    (fun _ _ => []) (fun _ _ _ => []) (PInt 9000) (PStr "pp") (PFloat 8 0)
    (One "/pitch") (One 1) (One 0) []) as (_ & H2 & H3).
  split_and!.
  - reflexivity.
  - exact (proj1 (H1 eq_refl)).
  - reflexivity.
  - reflexivity.
  - exact (H2 eq_refl eq_refl).
  - reflexivity.
  - exact (H3 eq_refl eq_refl).
Defined.

Lemma delAddress_unknown_witness :
  ("/zz" ∉ OscReceive._address ex_receive) /\
  OscReceive.delAddress (One "/zz") ex_receive []
  = (Raised ValueError, OscReceive.set_mainReceiver (recv_delAddress ["/zz"]) ex_receive, []) /\
  ("/zz" ∉ OscListReceive._address (ex_list_receive 2)) /\
  OscListReceive.delAddress (One "/zz") (ex_list_receive 2) []
  = (Raised ValueError,
     OscListReceive.set_mainReceiver (recv_delAddress ["/zz"]) (ex_list_receive 2), []) /\
  OscDataSend._addresses ex_data_send !! "/zz" = None /\
  OscDataSend.delAddress (One "/zz") ex_data_send [] = (Raised KeyError, ex_data_send, []) /\
  ("/zz" ∉ OscDataReceive._address ex_data_receive) /\
  OscDataReceive.delAddress (One "/zz") ex_data_receive []
  = (Raised ValueError, ex_data_receive, []).
Proof.
  assert ("/zz" ∉ OscReceive._address ex_receive) as H1 by by_computation.
  assert ("/zz" ∉ OscListReceive._address (ex_list_receive 2)) as H2 by by_computation.
  assert (OscDataSend._addresses ex_data_send !! "/zz" = None) as H3 by by_computation.
  assert ("/zz" ∉ OscDataReceive._address ex_data_receive) as H4 by by_computation.
  destruct (delAddress_unknown (R := floats) (L := lists) "/zz" []) as (T1 & T2 & T3 & T4).
  split_and!; try assumption.
  - exact (proj1 (T1 ex_receive H1)).
  - exact (proj1 (T2 (ex_list_receive 2) H2)).
  - exact (T3 ex_data_send H3).
  - exact (T4 ex_data_receive H4).
Defined.

Lemma addAddress_registered_witness :
  (forall p, p ∈ ["/amp"; "/pitch"] -> p ∈ OscReceive._address ex_receive) /\
  OscReceive.addAddress (Many ["/amp"; "/pitch"]) (One 1) (One 0) ex_receive []
  = (Returned tt, ex_receive, []) /\
  OscListReceive.addAddress (Many ["/amp"; "/pitch"]) (One 1) (One 0) (ex_list_receive 2) []
  = (Returned tt, ex_list_receive 2, []) /\
  (forall p, p ∈ ["/y"] -> p ∈ OscDataReceive._address ex_data_receive) /\
  OscDataReceive.addAddress (One "/y") ex_data_receive [] = (Returned tt, ex_data_receive, []).
Proof.
  assert (forall p, p ∈ ["/amp"; "/pitch"] -> p ∈ ["/pitch"; "/amp"]) as H1.
  { intros p Hp. apply list_elem_of_In. apply list_elem_of_In in Hp. simpl in *. tauto. }
  assert (forall p, p ∈ ["/y"] -> p ∈ ["/x"; "/y"]) as H2.
  { intros p Hp. apply list_elem_of_In. apply list_elem_of_In in Hp. simpl in *. tauto. }
  destruct (addAddress_registered (R := floats) (L := lists)
              (Many ["/amp"; "/pitch"]) (One 1) (One 0) []) as (T1 & T2 & _).
  destruct (addAddress_registered (sample := Z) (R := floats) (L := lists)
              (One "/y") (One 1) (One 0) []) as (_ & _ & T3).
  split_and!; try assumption.
  - exact (T1 ex_receive H1).
  - exact (T2 (ex_list_receive 2) H1).
  - exact (T3 ex_data_receive H2).
Defined.

(** C3 as stated fails: addAddress of the registered '/pitch' returns with
    the object and the console as they were, so nothing is reported. *)
Lemma addAddress_duplicate_silent :
  "/pitch" ∈ OscReceive._address ex_receive /\
  OscReceive.addAddress (One "/pitch") (One 1) (One 0) ex_receive []
  = (Returned tt, ex_receive, []) /\
  ~ reported [] [] (Returned tt).
Proof.
  split_and!.
  - by_computation.
  - reflexivity.
  - intros [[e He]|(lines & Hne & Heq)]; [discriminate|].
    destruct lines; [done|discriminate].
Qed.

Lemma setValue_routes_witness :
  to_list (Many ["/pitch"; "/zz"; "/amp"]) <> [] /\
  to_list (Many [440; 1; 7]) <> [] /\
  OscReceive.setValue (Many ["/pitch"; "/zz"; "/amp"]) (Many [440; 1; 7]) ex_receive []
  = (Returned tt,
     OscReceive.set_mainReceiver
       (fun m => m ++ [CallSet "/pitch" 440; CallSet "/amp" 7]) ex_receive,
     [(Stdout, OscReceive.illegal_address "/zz")]) /\
  ("/zz" ∉ OscReceive._address ex_receive) /\
  OscReceive.setValue (One "/zz") (One 1) ex_receive []
  = (Returned tt, ex_receive, [(Stdout, OscReceive.illegal_address "/zz")]).
Proof.
  assert (to_list (Many ["/pitch"; "/zz"; "/amp"]) <> []) as H1 by done.
  assert (to_list (Many [440; 1; 7]) <> []) as H2 by done.
  assert ("/zz" ∉ OscReceive._address ex_receive) as H3 by by_computation.
  split_and!; try assumption.
  - exact (proj1 (setValue_routes (Many ["/pitch"; "/zz"; "/amp"]) (Many [440; 1; 7])
                    ex_receive [] H1 H2)).
  - assert (to_list (One "/zz") <> []) as H4 by done.
    assert (to_list (One 1) <> []) as H5 by done.
    exact (proj2 (setValue_routes (One "/zz") (One 1) ex_receive [] H4 H5)
                 "/zz" 1 eq_refl eq_refl H3).
Defined.

Lemma setValue_wrong_length_witness :
  ("/pitch" ∈ OscListReceive._address (ex_list_receive 8)) /\
  Z.of_nat (length [1; 2; 3; 4]) <> OscListReceive._num (ex_list_receive 8) /\
  exists o c' k,
    OscListReceive.setValue (One "/pitch") (OscListReceive.EFloat <$> [1; 2; 3; 4])
      (ex_list_receive 8) [] = (o, ex_list_receive 8, c') /\
    reported [] c' o /\ ~ fatal o /\
    ([1; 2; 3; 4] <> [] ->
     o = Returned tt /\ c' = [] ++ [(Stdout, OscListReceive.length_error)]) /\
    ([1; 2; 3; 4] = [] -> o = Raised IndexError /\ c' = []) /\
    py_index (OscListReceive._address (ex_list_receive 8)) "/pitch" = Returned k /\
    OscListReceive.get (Some "/pitch") false (ex_list_receive 8) c'
    = (Returned (inl (OscListReceive.values (ex_list_receive 8)
                        (Z.of_nat k * OscListReceive._num (ex_list_receive 8)))),
       ex_list_receive 8, c').
Proof.
  assert ("/pitch" ∈ OscListReceive._address (ex_list_receive 8)) as H1 by by_computation.
  assert (Z.of_nat (length [1; 2; 3; 4]) <> OscListReceive._num (ex_list_receive 8)) as H2
    by (simpl; lia).
  split_and!; try assumption.
  exact (setValue_wrong_length "/pitch" [1; 2; 3; 4] (ex_list_receive 8) [] H1 H2).
Defined.

Lemma getitem_unknown_witness :
  ("/zz" ∉ OscReceive._address ex_receive) /\
  OscReceive.__getitem__ (KStr "/zz") ex_receive [] = (Raised ValueError, ex_receive, []) /\
  ("/zz" ∉ OscListReceive._address (ex_list_receive 2)) /\
  OscListReceive.__getitem__ (KStr "/zz") (ex_list_receive 2) []
  = (Raised ValueError, ex_list_receive 2, []) /\
  Z.of_nat (length (OscReceive._base_objs ex_receive)) <= 2 /\
  OscReceive.__getitem__ (KInt 2) ex_receive []
  = (Returned None, ex_receive, [(Stdout, OscReceive.too_large)]) /\
  Z.of_nat (length (OscListReceive._base_objs (ex_list_receive 2))) <= 4 /\
  OscListReceive.__getitem__ (KInt 4) (ex_list_receive 2) []
  = (Returned None, ex_list_receive 2, [(Stdout, OscListReceive.too_large)]).
Proof.
  assert ("/zz" ∉ OscReceive._address ex_receive) as H1 by by_computation.
  assert ("/zz" ∉ OscListReceive._address (ex_list_receive 2)) as H2 by by_computation.
  assert (Z.of_nat (length (OscReceive._base_objs ex_receive)) <= 2) as H3
    by (simpl; lia).
  assert (Z.of_nat (length (OscListReceive._base_objs (ex_list_receive 2))) <= 4) as H4
    by (simpl; lia).
  destruct (getitem_unknown (sample := Z) (R := floats) (L := lists) "/zz" 2 [])
    as (T1 & T2 & T3 & _).
  destruct (getitem_unknown (sample := Z) (R := floats) (L := lists) "/zz" 4 [])
    as (_ & _ & _ & T4).
  split_and!; try assumption.
  - exact (T1 ex_receive H1).
  - exact (T2 (ex_list_receive 2) H2).
  - exact (T3 ex_receive H3).
  - exact (T4 (ex_list_receive 2) H4).
Defined.

(** C7 as stated fails: on the two streams of the example the ordinal 5 is
    out of range, and the subscript returns None, not an error result. *)
Lemma getitem_out_of_range_returns_None :
  Z.of_nat (length (OscReceive._base_objs ex_receive)) <= 5 /\
  OscReceive.__getitem__ (KInt 5) ex_receive []
  = (Returned None, ex_receive, [(Stdout, OscReceive.too_large)]) /\
  ~ error_result (Returned (@None (OscReceive.base Z))).
Proof.
  split_and!.
  - simpl. lia.
  - reflexivity.
  - intros [e He]. discriminate.
Qed.

Lemma window_of_address_witness :
  0 < OscListReceive._num (ex_list_receive 2) /\
  (Z.of_nat 1 + 1) * OscListReceive._num (ex_list_receive 2)
    <= Z.of_nat (length (OscListReceive._base_objs (ex_list_receive 2))) /\
  OscListReceive._address (ex_list_receive 2) !! 1%nat = Some "/amp" /\
  ("/amp" ∉ take 1 (OscListReceive._address (ex_list_receive 2))) /\
  OscListReceive.__getitem__ (KStr "/amp") (ex_list_receive 2) []
  = (Returned (Some [ex_lstream "/amp" 0; ex_lstream "/amp" 1]), ex_list_receive 2, []) /\
  OscListReceive.__getitem__ (KInt 1) (ex_list_receive 2) []
  = (Returned (Some [ex_lstream "/amp" 0; ex_lstream "/amp" 1]), ex_list_receive 2, []) /\
  OscListReceive.get (Some "/amp") false (ex_list_receive 2) []
  = (Returned (inl [0; 0]), ex_list_receive 2, []).
Proof.
  assert (0 < OscListReceive._num (ex_list_receive 2)) as H1 by (simpl; lia).
  assert ((Z.of_nat 1 + 1) * OscListReceive._num (ex_list_receive 2)
          <= Z.of_nat (length (OscListReceive._base_objs (ex_list_receive 2)))) as H2
    by (simpl; lia).
  assert (OscListReceive._address (ex_list_receive 2) !! 1%nat = Some "/amp") as H3
    by reflexivity.
  assert ("/amp" ∉ take 1 (OscListReceive._address (ex_list_receive 2))) as H4
    by by_computation.
  destruct (window_of_address "/amp" 1 (ex_list_receive 2) [] H1 H2 H3 H4)
    as (_ & _ & T1 & T2 & T3 & _).
  split_and!; try assumption.
Defined.

(** C6 as stated fails for num = 0: the subscript '/pitch' returns the empty
    window, the ordinal subscript 0 of the same address returns None. *)
Lemma zero_width_ordinal_differs :
  OscListReceive._address (ex_list_receive 0) !! 0%nat = Some "/pitch" /\
  OscListReceive.__getitem__ (KStr "/pitch") (ex_list_receive 0) []
  = (Returned (Some []), ex_list_receive 0, []) /\
  OscListReceive.__getitem__ (KInt 0) (ex_list_receive 0) []
  = (Returned None, ex_list_receive 0, [(Stdout, OscListReceive.too_large)]).
Proof. by split_and!. Qed.

Lemma send_fan_out_witness :
  OscDataSend.send [PFloat 314 (-2); PInt 1] None ex_data_send []
  = (Returned tt,
     OscDataSend.set_wire (fun _ =>
       [OscDataSend.Packet "127.0.0.1" 9900 "/x" [PFloat 314 (-2); PInt 1];
        OscDataSend.Packet "127.0.0.1" 9900 "/y" [PFloat 314 (-2); PInt 1]]) ex_data_send,
     []) /\
  Forall (accepts [PFloat 314 (-2); PInt 1]) (OscDataSend._base_objs ex_data_send) /\
  OscDataSend._addresses ex_data_send !! "/y" = Some (ex_target 1 "/y") /\
  OscDataSend.send [PFloat 314 (-2); PInt 1] (Some "/y") ex_data_send []
  = (Returned tt,
     OscDataSend.set_wire (fun _ =>
       [OscDataSend.Packet "127.0.0.1" 9900 "/y" [PFloat 314 (-2); PInt 1]]) ex_data_send,
     []).
Proof.
  assert (Forall (accepts [PFloat 314 (-2); PInt 1]) (OscDataSend._base_objs ex_data_send))
    as H1 by (repeat constructor).
  assert (OscDataSend._addresses ex_data_send !! "/y" = Some (ex_target 1 "/y")) as H2
    by by_computation.
  destruct (send_fan_out [PFloat 314 (-2); PInt 1] ex_data_send []) as (T1 & T2 & T3).
  split_and!; try assumption.
  etrans; [exact (T3 "/y" _ H2)|]. reflexivity.
Defined.

Lemma registry_invariant_witness :
  Forall documented ex_calls /\
  registry ex_receive /\
  list_registry (ex_list_receive 2) /\
  0 <= OscListReceive._num (ex_list_receive 2) /\
  registry (run_calls OscReceive_call ex_calls ex_receive []).1 /\
  length (OscReceive._base_objs (run_calls OscReceive_call ex_calls ex_receive []).1)
  = length (OscReceive._address (run_calls OscReceive_call ex_calls ex_receive []).1) /\
  list_registry (run_calls OscListReceive_call ex_calls (ex_list_receive 2) []).1 /\
  Z.of_nat (length (OscListReceive._base_objs
                      (run_calls OscListReceive_call ex_calls (ex_list_receive 2) []).1))
  = Z.of_nat (length (OscListReceive._address
                        (run_calls OscListReceive_call ex_calls (ex_list_receive 2) []).1))
    * OscListReceive._num (run_calls OscListReceive_call ex_calls (ex_list_receive 2) []).1.
Proof.
  assert (Forall documented ex_calls) as H1 by (repeat constructor; done).
  assert (registry ex_receive) as H2 by reflexivity.
  assert (list_registry (ex_list_receive 2)) as H3 by reflexivity.
  assert (0 <= OscListReceive._num (ex_list_receive 2)) as H4 by (simpl; lia).
  destruct (registry_invariant (R := floats) (L := lists) ex_calls H1) as (T1 & T2 & _).
  destruct (T1 ex_receive [] H2) as [T1a T1b].
  destruct (T2 (ex_list_receive 2) [] H3 H4) as (T2a & _ & T2b).
  split_and!; assumption.
Defined.

(** ** Further behaviour of the subscripts and of delAddress *)

(** An ordinal between the number of addresses and the number of stream
    objects of an OscListReceive passes the test on [i] and selects a window
    beyond the streams: the result is the empty list and nothing is
    printed. *)
Example getitem_beyond_addresses :
  OscListReceive.__getitem__ (KInt 3) (ex_list_receive 2) []
  = (Returned (Some []), ex_list_receive 2, []).
Proof. reflexivity. Qed.

(** Paths given to delAddress against the order of the address list are
    popped at shifted positions: here '/pitch' goes, then position 1 no
    longer exists, and '/amp' stays registered on the Python side. *)
Example delAddress_against_order :
  OscReceive.delAddress (Many ["/amp"; "/pitch"]) ex_receive []
  = (Raised IndexError,
     OscReceive.Build (One 1) (One 0) ["/amp"] [CallDel ["/amp"; "/pitch"]]
       [ex_stream "/amp"],
     []).
Proof. reflexivity. Qed.

(** A broadcast list for [mul] without elements stops addAddress after the
    address is appended and before its stream object exists. *)
Example addAddress_empty_mul :
  OscReceive.addAddress (One "/pan") (Many []) (One 0) ex_receive []
  = (Raised ZeroDivisionError,
     OscReceive.Build (One 1) (One 0) ["/pitch"; "/amp"; "/pan"] [CallAdd "/pan"]
       [ex_stream "/pitch"; ex_stream "/amp"],
     []).
Proof. reflexivity. Qed.

(** * Further properties *)

(** ** The run-time model, continued *)

Lemma comprehension_Forall2 {S B C} (f : B -> Py S C) (P : B -> C -> Prop)
  (l : list B) s c :
  (forall x, x ∈ l -> exists y, f x s c = (Returned y, s, c) /\ P x y) ->
  exists ys, comprehension l f s c = (Returned ys, s, c) /\ Forall2 P l ys.
Proof.
  induction l as [|x l IH]; intros Hf; simpl.
  - exists []. by split.
  - destruct (Hf x) as (y & Hy & Py); [by left|].
    destruct IH as (ys & Hys & Pys); [intros z Hz; apply Hf; by right|].
    exists (y :: ys). split; [|by constructor].
    unfold bind at 1. rewrite Hy. unfold bind at 1. by rewrite Hys.
Qed.

Lemma range_lmax3 {B C D} (a : list B) (b : list C) (d : list D) :
  range (lmax3 a b d) = seq 0 ((length a `max` length b) `max` length d).
Proof. unfold range, lmax3, lmax2, lmax1. f_equal. lia. Qed.

Section Construction.
Context {sample R L : Type}.
Context (OscReceiver_base : Z -> list string -> R).
Context (OscListReceiver_base : Z -> list string -> Z -> L).

(** X1. OscReceive(port, address, mul, add) with an int port and non-empty
    address, mul and add returns an object and prints nothing: its address
    list is the given one, it has as many stream objects as the longest of
    the three arguments, and stream i carries the address, mul and add found
    at position i of each argument, wrapping around. When mul and add are not
    longer than address, the streams are those of the addresses, one each in
    order. *)
Theorem OscReceive_init_streams (port : pyval) (address : arg string)
  (mul add : arg sample) (c : console) :
  is_IntType port = true ->
  to_list address <> [] -> to_list mul <> [] -> to_list add <> [] ->
  let la := length (to_list address) in
  let lm := length (to_list mul) in
  let ld := length (to_list add) in
  exists r : OscReceive.t sample R,
    OscReceive.__init__ OscReceiver_base port address mul add tt c = (Returned r, tt, c) /\
    OscReceive._address r = to_list address /\
    OscReceive._mainReceiver r = OscReceiver_base (int_of port) (to_list address) /\
    length (OscReceive._base_objs r) = ((la `max` lm) `max` ld)%nat /\
    (forall i x, OscReceive._base_objs r !! i = Some x ->
       to_list address !! (i mod la)%nat = Some (OscReceive.b_address x) /\
       to_list mul !! (i mod lm)%nat = Some (OscReceive.b_mul x) /\
       to_list add !! (i mod ld)%nat = Some (OscReceive.b_add x)) /\
    ((lm <= la)%nat -> (ld <= la)%nat -> registry r).
Proof.
  intros Hport Ha Hm Hd la lm ld.
  set (P := fun (i : nat) (x : OscReceive.base sample) =>
              to_list address !! (i mod la)%nat = Some (OscReceive.b_address x) /\
              to_list mul !! (i mod lm)%nat = Some (OscReceive.b_mul x) /\
              to_list add !! (i mod ld)%nat = Some (OscReceive.b_add x)).
  destruct (comprehension_Forall2 (S := unit)
    (fun i => a <- lift (wrap (to_list address) i) ;;
              m <- lift (wrap (to_list mul) i) ;;
              d <- lift (wrap (to_list add) i) ;;
              ret (OscReceive.OscReceive_base a m d)) P
    (seq 0 ((la `max` lm) `max` ld)) tt c) as (objs & Hobjs & HP).
  { intros i _.
    destruct (wrap_Returned (to_list address) i Ha) as (a & Wa & La).
    destruct (wrap_Returned (to_list mul) i Hm) as (m & Wm & Lm).
    destruct (wrap_Returned (to_list add) i Hd) as (d & Wd & Ld).
    exists (OscReceive.OscReceive_base a m d). split; [|done].
    unfold bind, lift, ret. by rewrite Wa, Wm, Wd. }
  pose proof (Forall2_length _ _ _ HP) as Hlen. rewrite length_seq in Hlen.
  eexists. split_and!.
  - unfold OscReceive.__init__. rewrite Hport, range_lmax3.
    unfold bind at 1, ret at 1. unfold bind at 1. fold la lm ld. rewrite Hobjs.
    reflexivity.
  - done.
  - done.
  - done.
  - simpl. intros i x Hx.
    destruct (Forall2_lookup_r _ _ _ _ _ HP Hx) as (j & Hj & HPj).
    apply lookup_seq in Hj as [-> _]. exact HPj.
  - simpl. intros Hlm Hld. unfold registry. simpl.
    apply list_eq. intros i. rewrite list_lookup_fmap.
    destruct (objs !! i) as [x|] eqn:Hx; simpl.
    + destruct (Forall2_lookup_r _ _ _ _ _ HP Hx) as (j & Hj & HPj & _).
      apply lookup_seq in Hj as [-> Hlt]. simpl in HPj.
      rewrite Nat.mod_small in HPj by (fold la; lia). by rewrite HPj.
    + symmetry. apply lookup_ge_None. apply lookup_ge_None in Hx. fold la. lia.
Qed.

(** X2. OscReceive(port, [], ...) with an int port and a mul or add that is
    one value raises ZeroDivisionError: the first stream object asks for
    position 0 of the empty address list. *)
Theorem OscReceive_init_no_address (port : pyval) (mul add : arg sample) (c : console) :
  is_IntType port = true ->
  (to_list mul <> [] \/ to_list add <> []) ->
  OscReceive.__init__ (R := R) OscReceiver_base port (Many []) mul add tt c
  = (Raised ZeroDivisionError, tt, c).
Proof.
  intros Hport Hne. unfold OscReceive.__init__. rewrite Hport, range_lmax3.
  unfold bind at 1, ret at 1. simpl.
  destruct (length (to_list mul) `max` length (to_list add))%nat as [|n] eqn:E.
  - exfalso. destruct Hne as [H|H]; apply H, nil_length_inv; lia.
  - done.
Qed.

Lemma concat_blocks (num : Z) (address : list string)
  (objs : list (list (OscListReceive.base sample))) :
  Forall2 (fun a ys => tag <$> ys = block num a) address objs ->
  tag <$> concat objs = address ≫= block num.
Proof.
  induction 1 as [|a ys address objs Hy _ IH]; [done|].
  simpl. by rewrite fmap_app, Hy, IH.
Qed.

(** X3. OscListReceive(port, address, num, mul, add) with an int port, an
    int num, a non-empty address list, and mul and add non-empty and not
    longer than address returns an object and prints nothing: its width is
    num, its address list is the given one, and its stream objects are those
    of the addresses in order, a block of streams 0 to num-1 each. *)
Theorem OscListReceive_init_streams (port num : pyval) (address : arg string)
  (mul add : arg sample) (c : console) :
  is_IntType port = true -> is_IntType num = true ->
  to_list address <> [] -> to_list mul <> [] -> to_list add <> [] ->
  (length (to_list mul) <= length (to_list address))%nat ->
  (length (to_list add) <= length (to_list address))%nat ->
  exists lr : OscListReceive.t sample L,
    OscListReceive.__init__ OscListReceiver_base port address num mul add tt c
    = (Returned lr, tt, c) /\
    OscListReceive._num lr = int_of num /\
    OscListReceive._address lr = to_list address /\
    OscListReceive._mainReceiver lr
    = OscListReceiver_base (int_of port) (to_list address) (int_of num) /\
    list_registry lr /\
    length (OscListReceive._base_objs lr)
    = (length (to_list address) * Z.to_nat (int_of num))%nat.
Proof.
  intros Hport Hnum Ha Hm Hd Hlm Hld.
  set (la := length (to_list address)).
  set (P := fun (i : nat) (ys : list (OscListReceive.base sample)) =>
              exists a, to_list address !! i = Some a /\ tag <$> ys = block (int_of num) a).
  destruct (comprehension_Forall2 (S := unit)
    (fun i => OscListReceive.new_streams (int_of num) (wrap (to_list address) i)
                (to_list mul) (to_list add) i) P (seq 0 la) tt c) as (objs & Hobjs & HP).
  { intros i Hi. apply elem_of_seq in Hi as [_ Hi]. simpl in Hi.
    destruct (wrap_Returned (to_list address) i Ha) as (a & Wa & La).
    rewrite Nat.mod_small in La by done. rewrite Wa.
    destruct (new_streams_ok (int_of num) a (to_list mul) (to_list add) i tt c Hm Hd)
      as (ys & Hys & Htag).
    exists ys. split; [done|]. by exists a. }
  assert (Forall2 (fun a ys => tag <$> ys = block (int_of num) a) (to_list address) objs)
    as HQ.
  { pose proof (Forall2_length _ _ _ HP) as Hlen. rewrite length_seq in Hlen.
    apply Forall2_same_length_lookup_2; [done|].
    intros i a ys Hia Hiy.
    destruct (Forall2_lookup_r _ _ _ _ _ HP Hiy) as (j & Hj & a' & Ha' & Htag).
    apply lookup_seq in Hj as [-> _]. simpl in Ha'. congruence. }
  assert (list_registry
    (OscListReceive.Build (int_of num) (int_of num) mul add (to_list address)
       (OscListReceiver_base (int_of port) (to_list address) (int_of num))
       (concat objs))) as Hreg.
  { unfold list_registry. simpl. by apply concat_blocks. }
  eexists. split_and!.
  - unfold OscListReceive.__init__. rewrite Hport, Hnum, range_lmax3.
    unfold bind at 1, ret at 1. unfold bind at 1, ret at 1.
    replace ((length (to_list address) `max` length (to_list mul))
               `max` length (to_list add))%nat with la by (unfold la; lia).
    unfold bind at 1. rewrite Hobjs. reflexivity.
  - done.
  - done.
  - done.
  - exact Hreg.
  - simpl. unfold list_registry in Hreg. simpl in Hreg.
    rewrite <- (length_fmap tag), Hreg.
    apply length_bind_const, length_block.
Qed.

(** X4. An OscListReceive of width num <= 0 is built without any stream
    object, whatever address, mul and add are, empty lists included. *)
Theorem OscListReceive_init_no_width (port num : pyval) (address : arg string)
  (mul add : arg sample) (c : console) :
  is_IntType port = true -> is_IntType num = true -> int_of num <= 0 ->
  exists lr : OscListReceive.t sample L,
    OscListReceive.__init__ OscListReceiver_base port address num mul add tt c
    = (Returned lr, tt, c) /\
    OscListReceive._address lr = to_list address /\
    OscListReceive._base_objs lr = [].
Proof.
  intros Hport Hnum Hle.
  destruct (comprehension_Forall2 (S := unit)
    (fun i => OscListReceive.new_streams (int_of num) (wrap (to_list address) i)
                (to_list mul) (to_list add) i)
    (fun _ ys => ys = [])
    (range (lmax3 (to_list address) (to_list mul) (to_list add))) tt c)
    as (objs & Hobjs & HP).
  { intros i _. exists []. split; [|done].
    unfold OscListReceive.new_streams, range.
    by replace (Z.to_nat (int_of num)) with 0%nat by lia. }
  eexists. split_and!.
  - unfold OscListReceive.__init__. rewrite Hport, Hnum.
    unfold bind at 1, ret at 1. unfold bind at 1, ret at 1.
    unfold bind at 1. rewrite Hobjs. reflexivity.
  - done.
  - simpl. clear Hobjs. induction HP as [|? ? ? ? -> _ IH]; [done|]. exact IH.
Qed.

End Construction.

(** ** Registering, looking up and removing an address *)

Section Lookups.
Context {sample R L : Type}.
Context `{!Receiver R sample (OscReceive.base sample) sample}.
Context `{!Receiver L (list (OscListReceive.elem sample)) (OscListReceive.base sample) sample}.

Implicit Types (r : OscReceive.t sample R) (lr : OscListReceive.t sample L).
Implicit Types (p q : string) (c : console).

(** Under [registry], the stream found for a registered address. *)
Lemma OscReceive_getitem_registered q r c :
  registry r -> q ∈ OscReceive._address r ->
  exists k x,
    py_index (OscReceive._address r) q = Returned k /\
    OscReceive._address r !! k = Some q /\
    OscReceive._base_objs r !! k = Some x /\
    OscReceive.b_address x = q /\
    OscReceive.__getitem__ (KStr q) r c = (Returned (Some x), r, c).
Proof.
  intros Hr Hq. destruct (py_index_present _ _ Hq) as (k & Hk & Hlk & _).
  assert (is_Some (OscReceive._base_objs r !! k)) as [x Hx].
  { apply lookup_lt_is_Some. apply lookup_lt_Some in Hlk.
    unfold registry in Hr. by rewrite <- Hr, length_fmap in Hlk. }
  exists k, x. split_and!; [done..| |].
  - unfold registry in Hr. rewrite <- Hr, list_lookup_fmap, Hx in Hlk.
    simpl in Hlk. congruence.
  - unfold OscReceive.__getitem__, bind, get_self, lift, ret.
    by rewrite Hk, (py_getitem_nat _ _ _ Hx).
Qed.

(** X5. On an OscReceive whose streams are those of its addresses,
    addAddress(p, mul, add) for a path p not yet registered returns, appends
    p to the addresses and one stream object for p, with the first mul and
    add, to the streams, and tells the receiver. Afterwards obj[p] and the
    last ordinal both return that new stream. *)
Theorem OscReceive_add_then_lookup p (mul add : arg sample) r c :
  registry r -> p ∉ OscReceive._address r ->
  to_list mul <> [] -> to_list add <> [] ->
  exists r' x,
    OscReceive.addAddress (One p) mul add r c = (Returned tt, r', c) /\
    OscReceive._address r' = OscReceive._address r ++ [p] /\
    OscReceive._base_objs r' = OscReceive._base_objs r ++ [x] /\
    OscReceive._mainReceiver r' = recv_addAddress p (OscReceive._mainReceiver r) /\
    OscReceive.b_address x = p /\
    head (to_list mul) = Some (OscReceive.b_mul x) /\
    head (to_list add) = Some (OscReceive.b_add x) /\
    OscReceive.__getitem__ (KStr p) r' c = (Returned (Some x), r', c) /\
    OscReceive.__getitem__ (KInt (Z.of_nat (length (OscReceive._base_objs r)))) r' c
    = (Returned (Some x), r', c).
Proof.
  intros Hr Hp Hm Hd.
  destruct (to_list mul) as [|m ml] eqn:Em; [done|].
  destruct (to_list add) as [|d dl] eqn:Ed; [done|].
  set (x := OscReceive.OscReceive_base p m d).
  set (r' := OscReceive.Build (OscReceive._mul r) (OscReceive._add r)
               (OscReceive._address r ++ [p])
               (recv_addAddress p (OscReceive._mainReceiver r))
               (OscReceive._base_objs r ++ [x])).
  assert (length (OscReceive._base_objs r) = length (OscReceive._address r)) as Hlen.
  { unfold registry in Hr. by rewrite <- Hr, length_fmap. }
  assert (OscReceive._base_objs r' !! length (OscReceive._base_objs r) = Some x) as Hx.
  { simpl. by rewrite lookup_app_r, Nat.sub_diag. }
  exists r', x. split_and!; try done.
  - unfold OscReceive.addAddress. simpl.
    unfold bind, get_self, modify, lift, ret. rewrite py_in_false by done. simpl.
    rewrite Em, Ed. simpl. done.
  - unfold OscReceive.__getitem__, bind, get_self, lift, ret.
    rewrite (py_index_first _ _ (length (OscReceive._address r))).
    + rewrite <- Hlen. by rewrite (py_getitem_nat _ _ _ Hx).
    + simpl. by rewrite lookup_app_r, Nat.sub_diag.
    + simpl. by rewrite take_app_length.
  - unfold OscReceive.__getitem__, bind, get_self, lift, ret.
    rewrite decide_True by (simpl; rewrite length_app; simpl; lia).
    by rewrite (py_getitem_nat _ _ _ Hx).
Qed.

(** X6. On such an OscReceive, addAddress(p) of a new path followed by
    delAddress(p) returns twice and leaves the address list and the stream
    objects as they were before the two calls. *)
Theorem OscReceive_add_then_del p (mul add : arg sample) r c :
  registry r -> p ∉ OscReceive._address r ->
  to_list mul <> [] -> to_list add <> [] ->
  exists r' r'',
    OscReceive.addAddress (One p) mul add r c = (Returned tt, r', c) /\
    OscReceive.delAddress (One p) r' c = (Returned tt, r'', c) /\
    OscReceive._address r'' = OscReceive._address r /\
    OscReceive._base_objs r'' = OscReceive._base_objs r.
Proof.
  intros Hr Hp Hm Hd.
  destruct (OscReceive_addAddress_registry (One p) mul add r c Hm Hd Hr)
    as (r' & Hadd & Hr' & _).
  assert (OscReceive._address r' = OscReceive._address r ++ [p] /\
          exists x, OscReceive._base_objs r' = OscReceive._base_objs r ++ [x])
    as (Ha' & x & Hb').
  { revert Hadd. unfold OscReceive.addAddress. simpl.
    unfold bind, get_self, modify, lift, ret. rewrite py_in_false by done. simpl.
    destruct (wrap (to_list mul) 0) as [m| |]; [|discriminate..].
    destruct (wrap (to_list add) 0) as [d| |]; [|discriminate..].
    intros [= <-]. simpl. eauto. }
  assert (length (OscReceive._base_objs r) = length (OscReceive._address r)) as Hlen.
  { unfold registry in Hr. by rewrite <- Hr, length_fmap. }
  destruct (OscReceive_delAddress_one p (length (OscReceive._address r)) r' c Hr')
    as (r'' & Hdel & Ha'' & Hb'').
  { rewrite Ha'. by rewrite lookup_app_r, Nat.sub_diag. }
  { rewrite Ha'. by rewrite take_app_length. }
  exists r', r''. split_and!; [done..| |].
  - rewrite Ha'', Ha'.
    by rewrite (delete_middle (OscReceive._address r) [] p), app_nil_r.
  - rewrite Hb'', Hb', <- Hlen.
    by rewrite (delete_middle (OscReceive._base_objs r) [] x), app_nil_r.
Qed.

(** X7. On an OscReceive with distinct addresses whose streams are those of
    its addresses, delAddress(p) of a registered path returns and p is no
    longer registered: obj[p] raises ValueError and setValue(p, v) only
    prints the Illegal address line. Every other registered address still
    gives the stream object it gave before. *)
Theorem OscReceive_del_then_lookup p (v : sample) r c :
  registry r -> NoDup (OscReceive._address r) -> p ∈ OscReceive._address r ->
  exists r',
    OscReceive.delAddress (One p) r c = (Returned tt, r', c) /\
    (p ∉ OscReceive._address r') /\
    OscReceive.__getitem__ (KStr p) r' c = (Raised ValueError, r', c) /\
    OscReceive.setValue (One p) (One v) r' c
    = (Returned tt, r', c ++ [(Stdout, OscReceive.illegal_address p)]) /\
    (forall q, q ∈ OscReceive._address r -> q <> p ->
       exists x, OscReceive.__getitem__ (KStr q) r c = (Returned (Some x), r, c) /\
                 OscReceive.__getitem__ (KStr q) r' c = (Returned (Some x), r', c)).
Proof.
  intros Hr Hnd Hp.
  destruct (py_index_present _ _ Hp) as (k & _ & Hk & Hfirst).
  destruct (OscReceive_delAddress_one p k r c Hr Hk Hfirst) as (r' & Hdel & Ha' & Hb').
  assert (registry r') as Hr'.
  { unfold registry in *. by rewrite Ha', Hb', list_fmap_delete, Hr. }
  assert (p ∉ OscReceive._address r') as Hout.
  { rewrite Ha'. intros Hin. apply list_elem_of_lookup in Hin as [j Hj].
    destruct (decide (j < k)%nat).
    - rewrite list_lookup_delete_lt in Hj by done.
      pose proof (NoDup_lookup _ _ _ _ Hnd Hj Hk). lia.
    - rewrite list_lookup_delete_ge in Hj by lia.
      pose proof (NoDup_lookup _ _ _ _ Hnd Hj Hk). lia. }
  exists r'. split_and!; [done..| | |].
  - unfold OscReceive.__getitem__, bind, get_self, lift.
    by rewrite py_index_absent.
  - unfold OscReceive.setValue. simpl. unfold bind, lift, get_self, print. simpl.
    by rewrite py_in_false.
  - intros q Hq Hne.
    destruct (OscReceive_getitem_registered q r c Hr Hq) as (kq & x & _ & Hkq & Hx & _ & Hget).
    exists x. split; [done|].
    assert (kq <> k) as Hkne by (intros ->; congruence).
    set (j := if decide (kq < k)%nat then kq else pred kq).
    assert (OscReceive._address r' !! j = Some q /\ OscReceive._base_objs r' !! j = Some x)
      as [Hjq Hjx].
    { rewrite Ha', Hb'. unfold j. destruct (decide (kq < k)%nat).
      - by rewrite !list_lookup_delete_lt.
      - rewrite !list_lookup_delete_ge by lia.
        by replace (S (pred kq)) with kq by lia. }
    unfold OscReceive.__getitem__, bind, get_self, lift, ret.
    rewrite (py_index_first _ _ j Hjq).
    + by rewrite (py_getitem_nat _ _ _ Hjx).
    + intros Hin. apply list_elem_of_lookup in Hin as [i Hi].
      apply lookup_take_Some in Hi as [Hi Hlt].
      assert (NoDup (OscReceive._address r')) as Hnd'.
      { rewrite Ha'. exact (sublist_NoDup _ _ Hnd (sublist_delete _ _)). }
      pose proof (NoDup_lookup _ _ _ _ Hnd' Hi Hjq). lia.
Qed.

End Lookups.

(** ** The address list under addAddress *)

Lemma add_paths_prefix (l ps : list string) : l `prefix_of` add_paths l ps.
Proof.
  revert l. induction ps as [|p ps IH]; intros l; simpl; [done|].
  destruct (py_in p l); [apply IH|].
  etrans; [|apply IH]. by apply prefix_app_r.
Qed.

Lemma add_paths_elem (l ps : list string) (q : string) :
  q ∈ add_paths l ps <-> q ∈ l \/ q ∈ ps.
Proof.
  revert l. induction ps as [|p ps IH]; intros l; simpl.
  - split; [by left|]. intros [H|H]; [done|]. by apply elem_of_nil in H.
  - unfold py_in. case_bool_decide as Hp; rewrite IH.
    + rewrite elem_of_cons. split.
      * intros [H|H]; [by left|right; by right].
      * intros [H|[->|H]]; [by left|by left|by right].
    + rewrite elem_of_app, list_elem_of_singleton, elem_of_cons. tauto.
Qed.

Lemma add_paths_NoDup (l ps : list string) : NoDup l -> NoDup (add_paths l ps).
Proof.
  revert l. induction ps as [|p ps IH]; intros l Hl; simpl; [done|].
  unfold py_in. case_bool_decide as Hp; apply IH; [done|].
  apply NoDup_app. split_and!; [done| |apply NoDup_singleton].
  intros x Hx ->%list_elem_of_singleton. done.
Qed.

Lemma filter_all {B} (P : B -> Prop) `{!forall x, Decision (P x)} (l : list B) :
  Forall P l -> filter P l = l.
Proof.
  induction 1 as [|x l Hx _ IH]; [done|].
  by rewrite filter_cons_True, IH.
Qed.

Lemma snd_enumerate {B} (l : list B) : (enumerate l).*2 = l.
Proof.
  unfold enumerate. generalize (fun i : nat => i) as g.
  assert (forall (g : nat -> nat), (imap (fun i x => (g i, x)) l).*2 = l) as H.
  { induction l as [|x l IH]; intros g; [done|].
    rewrite imap_cons. simpl. f_equal. apply (IH (fun i => g (S i))). }
  intros g. apply (H (fun i => i)).
Qed.

Section Addresses.
Context {sample R L : Type}.
Context `{!Receiver R sample (OscReceive.base sample) sample}.
Context `{!Receiver L (list (OscListReceive.elem sample)) (OscListReceive.base sample) sample}.

Implicit Types (r : OscReceive.t sample R) (lr : OscListReceive.t sample L).
Implicit Types (dr : OscDataReceive.t) (p q : string) (c : console).

Lemma OscReceive_add_loop_address (mul add : list sample) (ips : list (nat * string)) r c :
  mul <> [] -> add <> [] ->
  exists r',
    for_each ips (fun '(i, p) =>
      s <- get_self ;;
      if negb (py_in p (OscReceive._address s)) then
        modify (OscReceive.set_mainReceiver (recv_addAddress p)) ;;
        modify (OscReceive.set_address (fun l => l ++ [p])) ;;
        m <- lift (wrap mul i) ;;
        d <- lift (wrap add i) ;;
        modify (OscReceive.set_base_objs (fun l => l ++ [OscReceive.OscReceive_base p m d]))
      else ret tt) r c = (Returned tt, r', c) /\
    OscReceive._address r' = add_paths (OscReceive._address r) ips.*2.
Proof.
  intros Hm Hd. revert r c. induction ips as [|[i p] ips IH]; intros r c; simpl.
  - by exists r.
  - unfold bind at 1 2, get_self at 1.
    destruct (py_in p (OscReceive._address r)); simpl.
    + unfold ret at 1. apply IH.
    + destruct (wrap_Returned mul i Hm) as (m & Wm & _).
      destruct (wrap_Returned add i Hd) as (d & Wd & _).
      unfold bind at 1, modify at 1. unfold bind at 1, modify at 1.
      unfold bind at 1. rewrite Wm. unfold lift at 1.
      unfold bind at 1. rewrite Wd. unfold lift at 1. unfold modify at 1.
      match goal with |- context [for_each ips _ ?r1 c] =>
        destruct (IH r1 c) as (r' & Hrun & Ha) end.
      by exists r'.
Qed.

Lemma OscListReceive_add_loop_address (mul add : list sample) (ips : list (nat * string))
  lr c :
  mul <> [] -> add <> [] ->
  exists lr',
    for_each ips (fun '(i, p) =>
      s <- get_self ;;
      if negb (py_in p (OscListReceive._address s)) then
        modify (OscListReceive.set_mainReceiver (recv_addAddress p)) ;;
        modify (OscListReceive.set_address (fun l => l ++ [p])) ;;
        objs <- OscListReceive.new_streams (OscListReceive._num s) (Returned p) mul add i ;;
        modify (OscListReceive.set_base_objs (fun l => l ++ objs))
      else ret tt) lr c = (Returned tt, lr', c) /\
    OscListReceive._address lr' = add_paths (OscListReceive._address lr) ips.*2.
Proof.
  intros Hm Hd. revert lr c. induction ips as [|[i p] ips IH]; intros lr c; simpl.
  - by exists lr.
  - unfold bind at 1 2, get_self at 1.
    destruct (py_in p (OscListReceive._address lr)); simpl.
    + unfold ret at 1. apply IH.
    + unfold bind at 1, modify at 1. unfold bind at 1, modify at 1.
      unfold bind at 1.
      match goal with |- context [OscListReceive.new_streams ?n _ _ _ _ ?s1 c] =>
        destruct (new_streams_ok n p mul add i s1 c Hm Hd) as (objs & -> & Hobjs) end.
      unfold modify at 1.
      match goal with |- context [for_each ips _ ?r1 c] =>
        destruct (IH r1 c) as (lr' & Hrun & Ha) end.
      by exists lr'.
Qed.

Lemma OscDataReceive_add_loop (ps : list string) dr c :
  for_each ps (fun p =>
    s <- get_self ;;
    if negb (py_in p (OscDataReceive._address s))
    then OscDataReceive.base_addAddress p else ret tt) dr c
  = (Returned tt, OscDataReceive.set_address (fun l => add_paths l ps) dr, c).
Proof.
  revert dr c. induction ps as [|p ps IH]; intros dr c; simpl.
  - unfold ret. by destruct dr.
  - unfold bind at 1 2, get_self at 1.
    destruct (py_in p (OscDataReceive._address dr)) eqn:E; simpl.
    + unfold ret at 1. rewrite IH. destruct dr as [? ? l].
      unfold OscDataReceive.set_address. simpl in *. by rewrite E.
    + unfold OscDataReceive.base_addAddress, modify at 1. rewrite IH.
      destruct dr as [? ? l]. unfold OscDataReceive.set_address. simpl in *.
      by rewrite E.
Qed.

(** X8. On the three receive-side classes addAddress(path, ...) (with mul
    and add non-empty) returns and prints nothing. The new address list
    starts with the old one, holds exactly the old addresses and the given
    paths, and has no duplicate when the old list had none, even when a path
    is given twice. *)
Theorem addAddress_addresses (path : arg string) (mul add : arg sample) c :
  to_list mul <> [] -> to_list add <> [] ->
  (forall r, exists r',
     OscReceive.addAddress path mul add r c = (Returned tt, r', c) /\
     OscReceive._address r `prefix_of` OscReceive._address r' /\
     (forall q, q ∈ OscReceive._address r' <->
                q ∈ OscReceive._address r \/ q ∈ to_list path) /\
     (NoDup (OscReceive._address r) -> NoDup (OscReceive._address r'))) /\
  (forall lr, exists lr',
     OscListReceive.addAddress path mul add lr c = (Returned tt, lr', c) /\
     OscListReceive._address lr `prefix_of` OscListReceive._address lr' /\
     (forall q, q ∈ OscListReceive._address lr' <->
                q ∈ OscListReceive._address lr \/ q ∈ to_list path) /\
     (NoDup (OscListReceive._address lr) -> NoDup (OscListReceive._address lr'))) /\
  (forall dr, exists dr',
     OscDataReceive.addAddress path dr c = (Returned tt, dr', c) /\
     OscDataReceive._address dr `prefix_of` OscDataReceive._address dr' /\
     (forall q, q ∈ OscDataReceive._address dr' <->
                q ∈ OscDataReceive._address dr \/ q ∈ to_list path) /\
     (NoDup (OscDataReceive._address dr) -> NoDup (OscDataReceive._address dr'))).
Proof.
  intros Hm Hd. split_and!.
  - intros r.
    destruct (OscReceive_add_loop_address (to_list mul) (to_list add)
                (enumerate (to_list path)) r c Hm Hd) as (r' & Hrun & Ha).
    rewrite snd_enumerate in Ha. exists r'. rewrite Ha. split_and!.
    + exact Hrun.
    + apply add_paths_prefix.
    + apply add_paths_elem.
    + apply add_paths_NoDup.
  - intros lr.
    destruct (OscListReceive_add_loop_address (to_list mul) (to_list add)
                (enumerate (to_list path)) lr c Hm Hd) as (lr' & Hrun & Ha).
    rewrite snd_enumerate in Ha. exists lr'. rewrite Ha. split_and!.
    + exact Hrun.
    + apply add_paths_prefix.
    + apply add_paths_elem.
    + apply add_paths_NoDup.
  - intros dr. eexists. split_and!.
    + unfold OscDataReceive.addAddress. apply OscDataReceive_add_loop.
    + simpl. apply add_paths_prefix.
    + simpl. apply add_paths_elem.
    + simpl. apply add_paths_NoDup.
Qed.

(** ** OscDataReceive.delAddress *)

Lemma delete_NoDup_filter (l : list string) (k : nat) (p : string) :
  NoDup l -> l !! k = Some p -> delete k l = filter (fun q => q <> p) l.
Proof.
  revert k. induction l as [|x l IH]; intros k Hnd Hk; [done|].
  apply NoDup_cons in Hnd as [Hx Hnd]. destruct k as [|k]; simpl in *.
  - injection Hk as ->. rewrite filter_cons_False by tauto.
    symmetry. apply filter_all. apply Forall_forall. by intros q Hq ->.
  - rewrite filter_cons_True.
    + f_equal. by apply IH.
    + intros ->. apply Hx. by eapply list_elem_of_lookup_2.
Qed.

(** X9. On an OscDataReceive with distinct addresses, delAddress of a list of
    distinct registered paths, in any order, returns, prints nothing, and
    leaves exactly the addresses that were not given, in their order: the
    position of each path is looked up when its turn comes. *)
Theorem OscDataReceive_delAddress_any_order (ps : list string) dr c :
  NoDup (OscDataReceive._address dr) -> NoDup ps ->
  (forall p, p ∈ ps -> p ∈ OscDataReceive._address dr) ->
  OscDataReceive.delAddress (Many ps) dr c
  = (Returned tt, OscDataReceive.set_address (filter (fun q => q ∉ ps)) dr, c).
Proof.
  unfold OscDataReceive.delAddress. simpl.
  revert dr c. induction ps as [|p ps IH]; intros dr c Hnd Hps Hin; simpl.
  - unfold ret. destruct dr as [? ? l]. unfold OscDataReceive.set_address. simpl.
    do 2 f_equal. f_equal. symmetry. apply filter_all, Forall_forall.
    intros q _. apply not_elem_of_nil.
  - apply NoDup_cons in Hps as [Hp Hps].
    destruct (py_index_present (OscDataReceive._address dr) p) as (k & Hk & Hlk & _).
    { apply Hin. by left. }
    unfold bind at 1 2, get_self at 1. unfold bind at 1. rewrite Hk. unfold lift at 1.
    unfold OscDataReceive.base_delAddress, modify at 1.
    rewrite IH.
    + destruct dr as [? ? l]. unfold OscDataReceive.set_address. simpl in *.
      do 2 f_equal. f_equal. rewrite (delete_NoDup_filter l k p Hnd Hlk).
      rewrite list_filter_filter. apply list_filter_iff.
      intros q. rewrite elem_of_cons. tauto.
    + simpl. exact (sublist_NoDup _ _ Hnd (sublist_delete _ _)).
    + done.
    + intros q Hq. simpl. rewrite (delete_NoDup_filter _ k p Hnd Hlk).
      apply list_elem_of_filter. split; [|apply Hin; by right].
      intros ->. done.
Qed.

End Addresses.

(** ** Reading values and setting them *)

Section Values.
Context {sample R L : Type}.
Context `{!Receiver R sample (OscReceive.base sample) sample}.
Context `{!Receiver L (list (OscListReceive.elem sample)) (OscListReceive.base sample) sample}.

Implicit Types (r : OscReceive.t sample R) (lr : OscListReceive.t sample L).
Implicit Types (p q : string) (c : console).

(** X10. On an OscReceive whose streams are those of its addresses,
    get(q) for a registered address returns the value of the stream object
    that obj[q] returns, a stream of address q, and changes nothing. With an
    address that is not registered, or with no identifier, get raises
    ValueError. *)
Theorem OscReceive_get_value q r c :
  registry r ->
  (q ∈ OscReceive._address r ->
     exists x,
       OscReceive.__getitem__ (KStr q) r c = (Returned (Some x), r, c) /\
       OscReceive.b_address x = q /\
       OscReceive.get (Some q) false r c
       = (Returned (inl (stream_getValue (OscReceive._mainReceiver r) x)), r, c)) /\
  (q ∉ OscReceive._address r ->
     OscReceive.get (Some q) false r c = (Raised ValueError, r, c)) /\
  OscReceive.get None false r c = (Raised ValueError, r, c).
Proof.
  intros Hr. split_and!.
  - intros Hq.
    destruct (OscReceive_getitem_registered q r c Hr Hq) as (k & x & Hk & _ & Hx & Hb & Hget).
    exists x. split_and!; [done..|].
    unfold OscReceive.get, bind, get_self, lift, ret. simpl.
    by rewrite Hk, (py_getitem_nat _ _ _ Hx).
  - intros Hq. unfold OscReceive.get, bind, get_self, lift. simpl.
    by rewrite py_index_absent.
  - done.
Qed.

(** X11. On an OscListReceive of width num >= 0 whose streams are those of
    its addresses, addAddress(p, mul, add) for a path p not yet registered
    returns, appends p to the addresses and a block of num stream objects
    for p, numbered 0 to num-1, to the streams. Afterwards obj[p] returns
    exactly that block and get(p) the values of its streams. *)
Theorem OscListReceive_add_then_lookup p (mul add : arg sample) lr c :
  list_registry lr -> 0 <= OscListReceive._num lr ->
  p ∉ OscListReceive._address lr ->
  to_list mul <> [] -> to_list add <> [] ->
  exists lr' w,
    OscListReceive.addAddress (One p) mul add lr c = (Returned tt, lr', c) /\
    OscListReceive._address lr' = OscListReceive._address lr ++ [p] /\
    OscListReceive._base_objs lr' = OscListReceive._base_objs lr ++ w /\
    OscListReceive._num lr' = OscListReceive._num lr /\
    OscListReceive._mainReceiver lr' = recv_addAddress p (OscListReceive._mainReceiver lr) /\
    tag <$> w = block (OscListReceive._num lr) p /\
    length w = Z.to_nat (OscListReceive._num lr) /\
    OscListReceive.__getitem__ (KStr p) lr' c = (Returned (Some w), lr', c) /\
    OscListReceive.get (Some p) false lr' c
    = (Returned (inl (stream_getValue (OscListReceive._mainReceiver lr') <$> w)), lr', c).
Proof.
  intros Hr Hnum Hp Hm Hd.
  set (n := Z.to_nat (OscListReceive._num lr)).
  set (s1 := OscListReceive.set_address (fun l => l ++ [p])
               (OscListReceive.set_mainReceiver (recv_addAddress p) lr)).
  destruct (new_streams_ok (OscListReceive._num lr) p (to_list mul) (to_list add) 0 s1 c
              Hm Hd) as (w & Hw & Htag).
  set (lr' := OscListReceive.set_base_objs (fun l => l ++ w) s1).
  assert (length w = n) as Hlw.
  { by rewrite <- (length_fmap tag), Htag, length_block. }
  assert (length (OscListReceive._base_objs lr)
          = (length (OscListReceive._address lr) * n)%nat) as Hlen.
  { unfold list_registry in Hr. rewrite <- (length_fmap tag), Hr.
    apply length_bind_const, length_block. }
  assert (py_index (OscListReceive._address lr') p
          = Returned (length (OscListReceive._address lr))) as Hidx.
  { apply py_index_first; simpl.
    - by rewrite lookup_app_r, Nat.sub_diag.
    - by rewrite take_app_length. }
  assert (OscListReceive.window lr'
            (Z.of_nat (length (OscListReceive._address lr)) * OscListReceive._num lr') = w)
    as Hwin.
  { unfold OscListReceive.window. simpl.
    replace (OscListReceive._num lr) with (Z.of_nat n) by (unfold n; lia).
    rewrite <- Nat2Z.inj_mul. rewrite py_slice_inner.
    - rewrite <- Hlen, drop_app_length. rewrite <- Hlw. apply firstn_all.
    - rewrite length_app. lia. }
  exists lr', w. split_and!; try done.
  - unfold OscListReceive.addAddress. simpl.
    unfold bind at 1 2, get_self at 1. rewrite py_in_false by done. simpl.
    unfold bind at 1, modify at 1. unfold bind at 1, modify at 1.
    unfold bind at 1. fold s1. rewrite Hw. unfold modify at 1.
    unfold bind, ret. done.
  - unfold OscListReceive.__getitem__, bind, get_self, lift, ret.
    by rewrite Hidx, Hwin.
  - unfold OscListReceive.get, bind, get_self, lift, ret. simpl negb. cbv iota.
    rewrite Hidx. unfold OscListReceive.values. by rewrite Hwin.
Qed.

(** X12. On an OscListReceive, setValue(p, value) for a registered path and
    a list of floats whose length is num hands that list to the receiver for
    p, prints nothing and leaves the addresses and the stream objects as
    they were; giving the same list inside a one-element list of lists does
    the same. For a path that is not registered, whatever value is, the
    Illegal address line is printed and nothing else happens. *)
Theorem OscListReceive_setValue_delivers p (l : list sample) (value : list (OscListReceive.elem sample)) lr c :
  (p ∈ OscListReceive._address lr -> l <> [] ->
   Z.of_nat (length l) = OscListReceive._num lr ->
   let lr' := OscListReceive.set_mainReceiver
                (recv_setValue p (OscListReceive.EFloat <$> l)) lr in
   OscListReceive.setValue (One p) (OscListReceive.EFloat <$> l) lr c
   = (Returned tt, lr', c) /\
   OscListReceive.setValue (One p) [OscListReceive.EList l] lr c
   = (Returned tt, lr', c)) /\
  (p ∉ OscListReceive._address lr ->
   OscListReceive.setValue (One p) value lr c
   = (Returned tt, lr, c ++ [(Stdout, OscListReceive.illegal_address p)])).
Proof.
  split.
  - intros Hp Hl Hlen lr'. destruct l as [|x l]; [done|]. split.
    + unfold OscListReceive.setValue. simpl.
      unfold bind, lift, get_self, modify, ret. simpl.
      rewrite py_in_true by done. simpl.
      rewrite decide_True; [done|]. simpl. rewrite length_fmap. simpl in Hlen. lia.
    + unfold OscListReceive.setValue. simpl.
      unfold bind, lift, get_self, modify, ret. simpl.
      rewrite py_in_true by done. simpl.
      rewrite decide_True; [done|]. simpl. rewrite length_fmap. simpl in Hlen. lia.
  - intros Hp. unfold OscListReceive.setValue. simpl.
    unfold bind, lift, get_self, print, ret. simpl.
    by rewrite py_in_false.
Qed.

End Values.

(** ** OscDataSend: targets and addresses *)

Lemma py_remove_in (l : list OscDataSend.base) (o : OscDataSend.base) :
  o ∈ l ->
  exists l1 l2, l = l1 ++ o :: l2 /\ (o ∉ l1) /\
                OscDataSend.py_remove l o = Returned (l1 ++ l2).
Proof.
  induction l as [|y l IH]; intros Hin; [by apply elem_of_nil in Hin|].
  simpl. destruct (decide (y = o)) as [->|Hne].
  - exists [], l. split_and!; [done|apply not_elem_of_nil|done].
  - apply elem_of_cons in Hin as [->|Hin]; [done|].
    destruct (IH Hin) as (l1 & l2 & -> & Hout & ->).
    exists (y :: l1), l2. split_and!; [done| |done].
    intros [->|H]%elem_of_cons; done.
Qed.

Lemma py_remove_not_in (l : list OscDataSend.base) (o : OscDataSend.base) :
  o ∉ l -> OscDataSend.py_remove l o = Raised ValueError.
Proof.
  induction l as [|y l IH]; intros Hout; [done|]. simpl.
  rewrite decide_False by (intros ->; apply Hout; by left).
  rewrite IH; [done|]. intros H. apply Hout. by right.
Qed.

Lemma last_occurrence (l : list string) (a : string) :
  a ∈ l -> exists i, l !! i = Some a /\ a ∉ drop (S i) l.
Proof.
  induction l as [|x l IH]; intros Hin; [by apply elem_of_nil in Hin|].
  destruct (decide (a ∈ l)) as [Hl|Hl].
  - destruct (IH Hl) as (i & Hi & Hd). by exists (S i).
  - apply elem_of_cons in Hin as [->|Hin]; [|done]. by exists 0%nat.
Qed.

(** [for i, adr in enumerate(address): self._addresses[adr] = objs[i]], from
    any first index. *)
Lemma bind_addresses_loop (address : list string) (objs : list OscDataSend.base)
  (g : nat) (ds : OscDataSend.t) (c : console) :
  (g + length address <= length objs)%nat ->
  exists d',
    for_each (imap (fun i adr => ((g + i)%nat, adr)) address) (fun '(i, adr) =>
      o <- lift (py_getitem objs (Z.of_nat i)) ;;
      modify (OscDataSend.set_addresses (insert adr o))) ds c
    = (Returned tt, OscDataSend.set_addresses (fun _ => d') ds, c) /\
    (forall a, a ∉ address -> d' !! a = OscDataSend._addresses ds !! a) /\
    (forall i a, address !! i = Some a -> a ∉ drop (S i) address ->
                 d' !! a = objs !! (g + i)%nat).
Proof.
  revert g ds. induction address as [|x address IH]; intros g ds Hlen.
  - exists (OscDataSend._addresses ds). split_and!; [by destruct ds|done|done].
  - simpl in Hlen. rewrite imap_cons.
    destruct (lookup_lt_is_Some_2 objs (g + 0)%nat) as [o Ho]; [lia|].
    rewrite (imap_ext _ (fun i adr => ((S g + i)%nat, adr))).
    2:{ intros i y _. simpl. f_equal. lia. }
    destruct (IH (S g) (OscDataSend.set_addresses (insert x o) ds)) as (d' & Hrun & Hold & Hnew);
      [lia|].
    exists d'. split_and!.
    + cbn [for_each]. unfold bind at 1 2.
      rewrite (py_getitem_nat _ _ _ Ho). unfold lift at 1, modify at 1.
      rewrite Hrun. by destruct ds.
    + intros a Ha. rewrite Hold by (intros H; apply Ha; by right).
      simpl. apply lookup_insert_ne. intros ->. apply Ha. by left.
    + intros [|i] a Hi Hd; simpl in *.
      * injection Hi as ->. rewrite Hold by done. simpl.
        by rewrite lookup_insert_eq.
      * rewrite (Hnew i a Hi Hd). f_equal. lia.
Qed.

(** X13. OscDataSend(types, port, address, host) with non-empty arguments
    returns an object and prints nothing: it has as many base objects as the
    longest argument, base object i carrying the types, port, address and
    host found at position i of each argument, wrapping around, and nothing
    has been sent. Its dictionary has exactly the given addresses as keys,
    and an address names the base object at the last position where it is
    given. *)
Theorem OscDataSend_init_targets (types : arg string) (port : arg Z)
  (address host : arg string) (c : console) :
  to_list types <> [] -> to_list port <> [] ->
  to_list address <> [] -> to_list host <> [] ->
  let lt := length (to_list types) in
  let lp := length (to_list port) in
  let la := length (to_list address) in
  let lh := length (to_list host) in
  exists ds,
    OscDataSend.__init__ types port address host tt c = (Returned ds, tt, c) /\
    length (OscDataSend._base_objs ds) = (((lt `max` lp) `max` la) `max` lh)%nat /\
    OscDataSend.wire ds = [] /\
    (forall i o, OscDataSend._base_objs ds !! i = Some o ->
       OscDataSend.b_id o = i /\
       to_list types !! (i mod lt)%nat = Some (OscDataSend.b_types o) /\
       to_list port !! (i mod lp)%nat = Some (OscDataSend.b_port o) /\
       to_list address !! (i mod la)%nat = Some (OscDataSend.b_address o) /\
       to_list host !! (i mod lh)%nat = Some (OscDataSend.b_host o)) /\
    (forall a, is_Some (OscDataSend._addresses ds !! a) <-> a ∈ to_list address) /\
    (forall i a, to_list address !! i = Some a -> a ∉ drop (S i) (to_list address) ->
       is_Some (OscDataSend._base_objs ds !! i) /\
       OscDataSend._addresses ds !! a = OscDataSend._base_objs ds !! i).
Proof.
  intros Ht Hp Ha Hh lt lp la lh.
  set (n := (((lt `max` lp) `max` la) `max` lh)%nat).
  set (P := fun (i : nat) (o : OscDataSend.base) =>
              OscDataSend.b_id o = i /\
              to_list types !! (i mod lt)%nat = Some (OscDataSend.b_types o) /\
              to_list port !! (i mod lp)%nat = Some (OscDataSend.b_port o) /\
              to_list address !! (i mod la)%nat = Some (OscDataSend.b_address o) /\
              to_list host !! (i mod lh)%nat = Some (OscDataSend.b_host o)).
  destruct (comprehension_Forall2 (S := unit)
    (fun i => ty <- lift (wrap (to_list types) i) ;;
              p <- lift (wrap (to_list port) i) ;;
              a <- lift (wrap (to_list address) i) ;;
              h <- lift (wrap (to_list host) i) ;;
              ret (OscDataSend.OscDataSend_base (0 + i) ty p a h)) P (seq 0 n) tt c)
    as (objs & Hobjs & HP).
  { intros i _.
    destruct (wrap_Returned (to_list types) i Ht) as (ty & Wt & Lt).
    destruct (wrap_Returned (to_list port) i Hp) as (p & Wp & Lp).
    destruct (wrap_Returned (to_list address) i Ha) as (a & Wa & La).
    destruct (wrap_Returned (to_list host) i Hh) as (h & Wh & Lh).
    exists (OscDataSend.OscDataSend_base (0 + i) ty p a h). split; [|done].
    unfold bind, lift, ret. by rewrite Wt, Wp, Wa, Wh. }
  pose proof (Forall2_length _ _ _ HP) as Hlen. rewrite length_seq in Hlen.
  destruct (bind_addresses_loop (to_list address) objs 0
              (OscDataSend.Build objs ∅ (length objs) []) c)
    as (d' & Hrun & Hold & Hnew).
  { fold la. unfold n in Hlen. lia. }
  exists (OscDataSend.Build objs d' (length objs) []). split_and!.
  - unfold OscDataSend.__init__, OscDataSend.new_objs.
    replace (range _) with (seq 0 n).
    2:{ unfold range, lmax3, lmax2, lmax1, n, lt, lp, la, lh. f_equal. lia. }
    unfold bind at 1. rewrite Hobjs.
    unfold construct, OscDataSend.bind_addresses, enumerate.
    simpl in Hrun. by rewrite Hrun.
  - done.
  - done.
  - simpl. intros i o Ho.
    destruct (Forall2_lookup_r _ _ _ _ _ HP Ho) as (j & Hj & HPj).
    apply lookup_seq in Hj as [-> _]. exact HPj.
  - simpl. intros a. split.
    + intros Hsome. destruct (decide (a ∈ to_list address)) as [|Hout]; [done|].
      rewrite (Hold a Hout) in Hsome. simpl in Hsome.
      rewrite lookup_empty in Hsome. by destruct Hsome.
    + intros Hin. destruct (last_occurrence _ _ Hin) as (i & Hi & Hd).
      rewrite (Hnew i a Hi Hd). simpl. apply lookup_lt_is_Some.
      apply lookup_lt_Some in Hi. fold la in Hi. unfold n in Hlen. lia.
  - simpl. intros i a Hi Hd. rewrite (Hnew i a Hi Hd). simpl. split; [|done].
    apply lookup_lt_is_Some. apply lookup_lt_Some in Hi. fold la in Hi.
    unfold n in Hlen. lia.
Qed.

(** X14. OscDataSend.addAddress(types, port, a, host) with one value each
    returns, appends one new base object and makes a name it, also when a
    already names another target: that target stays among the base objects.
    Afterwards send(msg, address=a) with a fitting msg gives one packet, to
    the new target, and send(msg) to targets that all fit gives one packet
    to each old target, then one to the new. *)
Theorem OscDataSend_add_same_address (ty : string) (port : Z) (a host : string)
  (msg : list pyval) (ds : OscDataSend.t) (c : console) :
  let o := OscDataSend.OscDataSend_base (OscDataSend.allocated ds) ty port a host in
  let ds' := OscDataSend.Build (OscDataSend._base_objs ds ++ [o])
               (<[a := o]> (OscDataSend._addresses ds))
               (S (OscDataSend.allocated ds)) (OscDataSend.wire ds) in
  OscDataSend.addAddress (One ty) (One port) (One a) (One host) ds c
  = (Returned tt, ds', c) /\
  (accepts msg o ->
   OscDataSend.send msg (Some a) ds' c
   = (Returned tt,
      OscDataSend.set_wire (fun w => w ++ [OscDataSend.packet_for msg o]) ds', c)) /\
  (accepts msg o -> Forall (accepts msg) (OscDataSend._base_objs ds) ->
   OscDataSend.send msg None ds' c
   = (Returned tt,
      OscDataSend.set_wire
        (fun w => w ++ (OscDataSend.packet_for msg <$> OscDataSend._base_objs ds)
                    ++ [OscDataSend.packet_for msg o]) ds', c)).
Proof.
  intros o ds'. split_and!.
  - unfold OscDataSend.addAddress, OscDataSend.new_objs, OscDataSend.bind_addresses.
    simpl. unfold bind, get_self, lift, modify, ret. simpl.
    rewrite Nat.add_0_r, Nat.add_1_r. reflexivity.
  - intros Hacc. unfold OscDataSend.send, bind, get_self, lift,
      OscDataSend.dict_getitem. simpl. rewrite lookup_insert_eq.
    unfold OscDataSend.base_send. unfold accepts in Hacc. by rewrite Hacc.
  - intros Hacc Hall. unfold OscDataSend.send, bind, get_self.
    rewrite send_loop. simpl.
    rewrite !filter_app, fmap_app.
    rewrite (filter_all (accepts msg)) by done.
    rewrite (filter_cons_True (accepts msg)) by done.
    replace (filter (fun x => ~ accepts msg x) (OscDataSend._base_objs ds)) with
      (@nil OscDataSend.base).
    2:{ symmetry. clear -Hall. induction Hall as [|x l Hx _ IH]; [done|].
        by rewrite filter_cons_False by tauto. }
    rewrite filter_cons_False by tauto. simpl. by rewrite app_nil_r.
Qed.

(** X15. OscDataSend.delAddress(p) for an address that names a base object
    of the list returns, takes the first occurrence of that object out of
    the base objects, keeping the others in order, and deletes the key:
    afterwards send(msg, address=p) raises KeyError and sends nothing. When
    the named object is not in the list, delAddress raises ValueError and
    changes nothing. *)
Theorem OscDataSend_del_then_send (p : string) (o : OscDataSend.base)
  (msg : list pyval) (ds : OscDataSend.t) (c : console) :
  OscDataSend._addresses ds !! p = Some o ->
  (o ∈ OscDataSend._base_objs ds ->
   exists l1 l2,
     OscDataSend._base_objs ds = l1 ++ o :: l2 /\ (o ∉ l1) /\
     let ds' := OscDataSend.Build (l1 ++ l2) (delete p (OscDataSend._addresses ds))
                  (OscDataSend.allocated ds) (OscDataSend.wire ds) in
     OscDataSend.delAddress (One p) ds c = (Returned tt, ds', c) /\
     OscDataSend.send msg (Some p) ds' c = (Raised KeyError, ds', c)) /\
  (o ∉ OscDataSend._base_objs ds ->
   OscDataSend.delAddress (One p) ds c = (Raised ValueError, ds, c)).
Proof.
  intros Hp. split.
  - intros Hin. destruct (py_remove_in _ _ Hin) as (l1 & l2 & Hl & Hout & Hrm).
    exists l1, l2. split; [done|]. split; [done|]. split.
    + unfold OscDataSend.delAddress. simpl.
      unfold bind, get_self, lift, modify, ret, OscDataSend.dict_getitem. simpl.
      rewrite Hp, Hrm. simpl. by rewrite ?Hp.
    + unfold OscDataSend.send, bind, get_self, lift, OscDataSend.dict_getitem. simpl.
      by rewrite lookup_delete_eq.
  - intros Hout. unfold OscDataSend.delAddress. simpl.
    unfold bind, get_self, lift, OscDataSend.dict_getitem.
    by rewrite Hp, (py_remove_not_in _ _ Hout).
Qed.

(** ** OscReceive.delAddress with several paths *)

Lemma delete_fmap_filter {B} (f : B -> string) (l : list B) (k : nat) (p : string) :
  NoDup (f <$> l) -> (f <$> l) !! k = Some p ->
  delete k l = filter (fun x => f x <> p) l.
Proof.
  revert k. induction l as [|x l IH]; intros k Hnd Hk; [done|].
  rewrite fmap_cons in Hnd. apply NoDup_cons in Hnd as [Hx Hnd].
  destruct k as [|k]; simpl in *.
  - injection Hk as <-. rewrite filter_cons_False by tauto.
    symmetry. apply filter_all. apply Forall_forall. intros y Hy Heq.
    apply Hx. rewrite <- Heq. by apply list_elem_of_fmap_2.
  - rewrite filter_cons_True.
    + f_equal. by apply IH.
    + intros Heq. apply Hx. rewrite Heq. by eapply list_elem_of_lookup_2.
Qed.

(** In a list without duplicates, what a sublist puts first comes first. *)
Lemma sublist_snoc_before (l ps : list string) (p q : string) (k j : nat) :
  NoDup l -> ps ++ [p] `sublist_of` l ->
  q ∈ ps -> l !! j = Some q -> l !! k = Some p -> (j < k)%nat.
Proof.
  intros Hnd Hsub Hq Hj Hk.
  apply sublist_app_l in Hsub as (k1 & k2 & -> & Hs1 & Hs2).
  apply NoDup_app in Hnd as (_ & Hdisj & _).
  assert (q ∈ k1) as Hq1 by exact (elem_of_sublist _ _ _ Hq Hs1).
  assert (p ∈ k2) as Hp2.
  { apply (elem_of_sublist [p]); [by left|done]. }
  destruct (decide (j < length k1)%nat) as [Hjl|Hjl].
  - destruct (decide (k < length k1)%nat) as [Hkl|Hkl]; [|lia].
    rewrite lookup_app_l in Hk by done.
    exfalso. eapply Hdisj; [|exact Hp2]. by eapply list_elem_of_lookup_2.
  - rewrite lookup_app_r in Hj by lia.
    exfalso. eapply Hdisj; [exact Hq1|]. by eapply list_elem_of_lookup_2.
Qed.

Section OrderedRemoval.
Context {sample R : Type}.
Context `{!Receiver R sample (OscReceive.base sample) sample}.

Implicit Types (r : OscReceive.t sample R) (c : console).

(** The object without the given paths and their streams. *)
Lemma OscReceive_pop_sorted (ps : list string) (inds : list nat) r c :
  registry r -> NoDup (OscReceive._address r) ->
  ps `sublist_of` OscReceive._address r ->
  Forall2 (fun p k => OscReceive._address r !! k = Some p) ps inds ->
  for_each (rev inds) (fun ind =>
      s <- get_self ;;
      x <- lift (py_pop (OscReceive._address s) (Z.of_nat ind)) ;;
      modify (OscReceive.set_address (fun _ => x.2)) ;;
      s <- get_self ;;
      x <- lift (py_pop (OscReceive._base_objs s) (Z.of_nat ind)) ;;
      modify (OscReceive.set_base_objs (fun _ => x.2))) r c
  = (Returned tt,
     OscReceive.set_base_objs (filter (fun b => OscReceive.b_address b ∉ ps))
       (OscReceive.set_address (filter (fun q => q ∉ ps)) r), c).
Proof.
  revert inds r. induction ps as [|p ps IH] using rev_ind; intros inds r Hr Hnd Hsub HF.
  - apply Forall2_nil_inv_l in HF as ->. simpl. unfold ret.
    destruct r as [? ? addr ? objs].
    unfold OscReceive.set_base_objs, OscReceive.set_address. simpl.
    rewrite !filter_all; [done|..]; apply Forall_forall; intros ? _; apply not_elem_of_nil.
  - apply Forall2_app_inv_l in HF as (inds0 & ik & HF0 & HFk & ->).
    apply Forall2_cons_inv_l in HFk as (k & ? & Hk & ->%Forall2_nil_inv_l & ->).
    rewrite rev_app_distr. simpl.
    assert (is_Some (OscReceive._base_objs r !! k)) as [b Hb].
    { apply lookup_lt_is_Some. apply lookup_lt_Some in Hk.
      unfold registry in Hr. by rewrite <- Hr, length_fmap in Hk. }
    unfold bind at 1 2, get_self at 1. unfold bind at 1.
    rewrite (py_pop_nat _ _ _ Hk). unfold lift at 1.
    unfold bind at 1, modify at 1. unfold bind at 1, get_self at 1.
    unfold bind at 1. simpl. rewrite (py_pop_nat _ _ _ Hb). unfold lift at 1.
    unfold modify at 1. simpl.
    assert (delete k (OscReceive._address r)
            = filter (fun q => q <> p) (OscReceive._address r)) as Ea.
    { by apply delete_NoDup_filter. }
    assert (delete k (OscReceive._base_objs r)
            = filter (fun x => OscReceive.b_address x <> p) (OscReceive._base_objs r)) as Eb.
    { unfold registry in Hr. apply delete_fmap_filter; by rewrite Hr. }
    assert (p ∉ ps) as Hpps.
    { intros Hin. apply list_elem_of_lookup in Hin as [i Hi].
      destruct (Forall2_lookup_l _ _ _ _ _ HF0 Hi) as (j & _ & Hj).
      pose proof (sublist_snoc_before _ _ _ _ _ _ Hnd Hsub
                    (list_elem_of_lookup_2 _ _ _ Hi) Hj Hk) as Hlt.
      pose proof (NoDup_lookup _ _ _ _ Hnd Hj Hk). lia. }
    rewrite IH.
    + destruct r as [? ? addr ? objs].
      unfold OscReceive.set_base_objs, OscReceive.set_address. simpl in *.
      rewrite Ea, Eb, !list_filter_filter.
      do 2 f_equal. f_equal; apply list_filter_iff; intros x;
        rewrite elem_of_app, list_elem_of_singleton; tauto.
    + unfold registry in *. simpl. by rewrite list_fmap_delete, Hr.
    + simpl. exact (sublist_NoDup _ _ Hnd (sublist_delete _ _)).
    + simpl. rewrite Ea.
      apply sublist_app_l in Hsub as (k1 & k2 & E & Hs1 & Hs2).
      rewrite E, filter_app. rewrite E in Hnd.
      apply NoDup_app in Hnd as (_ & Hdisj & _).
      rewrite (filter_all (fun q => q <> p) k1).
      * by apply sublist_inserts_r.
      * apply Forall_forall. intros q Hq ->. eapply Hdisj; [exact Hq|].
        apply (elem_of_sublist [p]); [by left|done].
    + simpl. apply Forall2_same_length_lookup_2; [by eapply Forall2_length|].
      intros i q j Hi Hj.
      pose proof (Forall2_lookup_lr _ _ _ _ _ _ HF0 Hi Hj) as Hq.
      pose proof (sublist_snoc_before _ _ _ _ _ _ Hnd Hsub
                    (list_elem_of_lookup_2 _ _ _ Hi) Hq Hk) as Hlt.
      by rewrite list_lookup_delete_lt.
Qed.

(** X17. On an OscReceive with distinct addresses whose streams are those of
    its addresses, delAddress of a list of registered paths given in the
    order of the address list returns, prints nothing, tells the receiver,
    and leaves exactly the addresses that were not given and their streams,
    in order. *)
Theorem OscReceive_delAddress_in_order (ps : list string) r c :
  registry r -> NoDup (OscReceive._address r) ->
  ps `sublist_of` OscReceive._address r ->
  exists r',
    OscReceive.delAddress (Many ps) r c = (Returned tt, r', c) /\
    OscReceive._address r' = filter (fun q => q ∉ ps) (OscReceive._address r) /\
    OscReceive._base_objs r'
    = filter (fun b => OscReceive.b_address b ∉ ps) (OscReceive._base_objs r) /\
    OscReceive._mainReceiver r' = recv_delAddress ps (OscReceive._mainReceiver r) /\
    registry r'.
Proof.
  intros Hr Hnd Hsub.
  set (r1 := OscReceive.set_mainReceiver (recv_delAddress ps) r).
  destruct (comprehension_Forall2 (S := OscReceive.t sample R)
    (fun p => s <- get_self ;; lift (py_index (OscReceive._address s) p))
    (fun p k => OscReceive._address r !! k = Some p) ps r1 c) as (inds & Hinds & HF).
  { intros p Hp.
    destruct (py_index_present (OscReceive._address r) p) as (k & Hk & Hlk & _).
    { exact (elem_of_sublist _ _ _ Hp Hsub). }
    exists k. split; [|done]. unfold bind, get_self, lift. simpl. by rewrite Hk. }
  pose proof (OscReceive_pop_sorted ps inds r1 c Hr Hnd Hsub HF) as Hloop.
  eexists. split_and!.
  - unfold OscReceive.delAddress. simpl. unfold bind at 1, modify at 1. fold r1.
    unfold bind at 1. rewrite Hinds. exact Hloop.
  - done.
  - done.
  - done.
  - unfold registry in *. simpl. rewrite <- Hr.
    generalize (OscReceive._base_objs r). intros l.
    induction l as [|x l IH]; [done|].
    rewrite fmap_cons. destruct (decide (OscReceive.b_address x ∈ ps)).
    + rewrite !filter_cons_False by tauto. exact IH.
    + rewrite !filter_cons_True by done. rewrite fmap_cons. by f_equal.
Qed.

End OrderedRemoval.

(** ** What setValue leaves alone, and get(all=True) *)

Lemma wrap_not_Exited {B} (l : list B) (i : nat) : wrap l i <> Exited.
Proof.
  unfold wrap, py_getitem. destruct l as [|x l]; [done|].
  destruct (norm_index _ _) as [j|]; [|done]. by destruct (_ !! j).
Qed.

Lemma py_getitem_not_Exited {B} (l : list B) (i : Z) : py_getitem l i <> Exited.
Proof.
  unfold py_getitem. destruct (norm_index _ _) as [j|]; [|done]. by destruct (_ !! j).
Qed.

(** A loop whose body keeps a property of the object, never exits and only
    adds to the console does the same. *)
Lemma for_each_keeps {S B} (I : S -> Prop) (body : B -> Py S unit) (l : list B) s c :
  (forall x s c, I s ->
     exists o s' c', body x s c = (o, s', c') /\ I s' /\ o <> Exited /\ c `prefix_of` c') ->
  I s ->
  exists o s' c', for_each l body s c = (o, s', c') /\ I s' /\ o <> Exited /\ c `prefix_of` c'.
Proof.
  intros Hbody. revert s c. induction l as [|x l IH]; intros s c Hs; simpl.
  - by exists (Returned tt), s, c.
  - destruct (Hbody x s c Hs) as (o & s' & c' & Hrun & Hs' & Ho & Hc).
    unfold bind. rewrite Hrun. destruct o as [[]| |]; [|by exists (Raised e), s', c'|done].
    destruct (IH s' c' Hs') as (o2 & s2 & c2 & Hrun2 & Hs2 & Ho2 & Hc2).
    exists o2, s2, c2. split_and!; [done..|]. by etrans.
Qed.

(** The concatenation of the consecutive windows of length [n] of a list of
    [m] such windows is the list. *)
Lemma concat_windows {B} (n m : nat) (l : list B) :
  length l = (m * n)%nat ->
  concat ((fun k => take n (drop (k * n) l)) <$> seq 0 m) = l.
Proof.
  revert l. induction m as [|m IH]; intros l Hl.
  - simpl in *. by apply nil_length_inv in Hl as ->.
  - simpl seq. rewrite <- fmap_S_seq, fmap_cons, <- list_fmap_compose. simpl concat.
    rewrite drop_0.
    rewrite (list_fmap_ext _ (fun k => take n (drop (k * n) (drop n l))) (seq 0 m)).
    2:{ intros i k _. simpl. rewrite drop_drop. do 2 f_equal; lia. }
    rewrite IH by (rewrite length_drop; lia).
    apply take_drop.
Qed.

Section Frames.
Context {sample R L : Type}.
Context `{!Receiver R sample (OscReceive.base sample) sample}.
Context `{!Receiver L (list (OscListReceive.elem sample)) (OscListReceive.base sample) sample}.

Implicit Types (r : OscReceive.t sample R) (lr : OscListReceive.t sample L).
Implicit Types (c : console).

(** X18. setValue(path, value), on OscReceive and on OscListReceive, with
    any arguments and however it ends, leaves the addresses, the stream
    objects (and num) as they were, never exits, and only adds lines to the
    console. *)
Theorem setValue_keeps_registry c :
  (forall (path : arg string) (value : arg sample) r,
     exists o r' c',
       OscReceive.setValue path value r c = (o, r', c') /\
       OscReceive._address r' = OscReceive._address r /\
       OscReceive._base_objs r' = OscReceive._base_objs r /\
       o <> Exited /\ c `prefix_of` c') /\
  (forall (path : arg string) (value : list (OscListReceive.elem sample)) lr,
     exists o lr' c',
       OscListReceive.setValue path value lr c = (o, lr', c') /\
       OscListReceive._address lr' = OscListReceive._address lr /\
       OscListReceive._base_objs lr' = OscListReceive._base_objs lr /\
       OscListReceive._num lr' = OscListReceive._num lr /\
       o <> Exited /\ c `prefix_of` c').
Proof.
  split.
  - intros path value r.
    set (I := fun s : OscReceive.t sample R =>
                OscReceive._address s = OscReceive._address r /\
                OscReceive._base_objs s = OscReceive._base_objs r).
    destruct (for_each_keeps I
      (fun i => p <- lift (wrap (to_list path) i) ;;
                s <- get_self ;;
                if py_in p (OscReceive._address s) then
                  v <- lift (wrap (to_list value) i) ;;
                  modify (OscReceive.set_mainReceiver (recv_setValue p v))
                else print Stdout (OscReceive.illegal_address p))
      (range (lmax2 (to_list path) (to_list value))) r c)
      as (o & r' & c' & Hrun & [Ha Hb] & Ho & Hc); [|done|by exists o, r', c'].
    intros i s c0 Hs. unfold bind at 1, lift at 1.
    pose proof (wrap_not_Exited (to_list path) i) as Hw.
    destruct (wrap (to_list path) i) as [p| |]; [|by exists (Raised e), s, c0|done].
    unfold bind at 1, get_self at 1.
    destruct (py_in p (OscReceive._address s)).
    + unfold bind at 1, lift at 1.
      pose proof (wrap_not_Exited (to_list value) i) as Hv.
      destruct (wrap (to_list value) i) as [v| |]; [|by exists (Raised e), s, c0|done].
      eexists _, _, _. split; [reflexivity|]. by destruct s.
    + eexists _, _, _. split; [reflexivity|]. split_and!; [done..|].
      by apply prefix_app_r.
  - intros path value lr.
    set (I := fun s : OscListReceive.t sample L =>
                OscListReceive._address s = OscListReceive._address lr /\
                OscListReceive._base_objs s = OscListReceive._base_objs lr /\
                OscListReceive._num s = OscListReceive._num lr).
    destruct (for_each_keeps I
      (fun i => p <- lift (wrap (to_list path) i) ;;
                s <- get_self ;;
                if py_in p (OscListReceive._address s) then
                  v0 <- lift (py_getitem value 0) ;;
                  val <- (if OscListReceive.is_ListType v0
                          then e <- lift (wrap value i) ;; lift (OscListReceive.as_list e)
                          else ret value) ;;
                  if decide (Z.of_nat (length val) = OscListReceive._num s)
                  then modify (OscListReceive.set_mainReceiver (recv_setValue p val))
                  else print Stdout OscListReceive.length_error
                else print Stdout (OscListReceive.illegal_address p))
      (range (lmax1 (to_list path))) lr c)
      as (o & lr' & c' & Hrun & (Ha & Hb & Hn) & Ho & Hc); [|done|by exists o, lr', c'].
    intros i s c0 Hs. unfold bind at 1, lift at 1.
    pose proof (wrap_not_Exited (to_list path) i) as Hw.
    destruct (wrap (to_list path) i) as [p| |]; [|by exists (Raised e), s, c0|done].
    unfold bind at 1, get_self at 1.
    destruct (py_in p (OscListReceive._address s)).
    + unfold bind at 1, lift at 1.
      pose proof (py_getitem_not_Exited value 0) as Hv0.
      destruct (py_getitem value 0) as [v0| |]; [|by exists (Raised e), s, c0|done].
      assert (exists ov, (if OscListReceive.is_ListType v0
                then e <- lift (wrap value i) ;; lift (OscListReceive.as_list e)
                else ret value) s c0 = (ov, s, c0) /\ ov <> Exited) as (ov & Hov & Hne).
      { destruct (OscListReceive.is_ListType v0); [|by eexists].
        unfold bind, lift. pose proof (wrap_not_Exited value i) as Hv.
        destruct (wrap value i) as [e| |]; [|by eexists|done].
        destruct e; by eexists. }
      unfold bind at 1. rewrite Hov.
      destruct ov as [val| |]; [|by exists (Raised e), s, c0|done].
      destruct (decide _).
      * eexists _, _, _. split; [reflexivity|]. by destruct s.
      * eexists _, _, _. split; [reflexivity|]. split_and!; [done..|].
        by apply prefix_app_r.
    + eexists _, _, _. split; [reflexivity|]. split_and!; [done..|].
      by apply prefix_app_r.
Qed.

(** X19. On an OscListReceive of width num >= 0 with distinct addresses whose
    streams are those of its addresses, get(all=True) returns one list per
    address, in the order of the addresses: the list at position k is what
    get of the k-th address returns, it has num values, and the lists put
    end to end are the values of all the stream objects. *)
Theorem OscListReceive_get_all (identifier : option string) lr c :
  list_registry lr -> NoDup (OscListReceive._address lr) ->
  0 <= OscListReceive._num lr ->
  exists outs,
    OscListReceive.get identifier true lr c = (Returned (inr outs), lr, c) /\
    length outs = length (OscListReceive._address lr) /\
    (forall k a, OscListReceive._address lr !! k = Some a ->
       exists ys, outs !! k = Some ys /\
         length ys = Z.to_nat (OscListReceive._num lr) /\
         OscListReceive.get (Some a) false lr c = (Returned (inl ys), lr, c)) /\
    concat outs
    = stream_getValue (OscListReceive._mainReceiver lr) <$> OscListReceive._base_objs lr.
Proof.
  intros Hr Hnd Hnum.
  set (n := Z.to_nat (OscListReceive._num lr)).
  set (g := stream_getValue (OscListReceive._mainReceiver lr)).
  assert (length (OscListReceive._base_objs lr)
          = (length (OscListReceive._address lr) * n)%nat) as Hlen.
  { unfold list_registry in Hr. rewrite <- (length_fmap tag), Hr.
    apply length_bind_const, length_block. }
  assert (forall k, (k < length (OscListReceive._address lr))%nat ->
            OscListReceive.values lr (Z.of_nat k * OscListReceive._num lr)
            = take n (drop (k * n) (g <$> OscListReceive._base_objs lr))) as Hval.
  { intros k Hk. unfold OscListReceive.values, OscListReceive.window.
    replace (OscListReceive._num lr) with (Z.of_nat n) by (unfold n; lia).
    rewrite <- Nat2Z.inj_mul, py_slice_inner by nia.
    by rewrite fmap_take, fmap_drop. }
  assert (forall k a, OscListReceive._address lr !! k = Some a ->
            py_index (OscListReceive._address lr) a = Returned k) as Hidx.
  { intros k a Hk. apply py_index_first; [done|].
    intros Hin. apply list_elem_of_lookup in Hin as [j Hj].
    apply lookup_take_Some in Hj as [Hj Hlt].
    pose proof (NoDup_lookup _ _ _ _ Hnd Hj Hk). lia. }
  destruct (comprehension_Forall2
    (fun add => k <- lift (py_index (OscListReceive._address lr) add) ;;
                ret (OscListReceive.values lr (Z.of_nat k * OscListReceive._num lr)))
    (fun a ys => exists k, OscListReceive._address lr !! k = Some a /\
                   ys = take n (drop (k * n) (g <$> OscListReceive._base_objs lr)))
    (OscListReceive._address lr) lr c) as (outs & Houts & HF).
  { intros a Ha. apply list_elem_of_lookup in Ha as [k Hk].
    eexists. split.
    - unfold bind, lift, ret. by rewrite (Hidx k a Hk).
    - exists k. split; [done|]. apply Hval. by eapply lookup_lt_Some. }
  pose proof (Forall2_length _ _ _ HF) as Hlo.
  assert (forall k, (k < length (OscListReceive._address lr))%nat ->
            outs !! k = Some (take n (drop (k * n) (g <$> OscListReceive._base_objs lr))))
    as Hout.
  { intros k Hk. destruct (lookup_lt_is_Some_2 _ _ Hk) as [a Ha].
    destruct (Forall2_lookup_l _ _ _ _ _ HF Ha) as (ys & Hys & k' & Hk' & ->).
    pose proof (NoDup_lookup _ _ _ _ Hnd Ha Hk') as ->. done. }
  exists outs. split_and!.
  - unfold OscListReceive.get, bind at 1, get_self at 1.
    change (negb true) with false. cbv iota.
    unfold bind at 1. rewrite Houts. done.
  - done.
  - intros k a Hk. pose proof (lookup_lt_Some _ _ _ Hk) as Hlt.
    eexists. split_and!; [by apply Hout| |].
    + rewrite length_take, length_drop, length_fmap. nia.
    + unfold OscListReceive.get, bind, get_self, lift, ret. simpl.
      by rewrite (Hidx k a Hk), Hval.
  - rewrite <- (concat_windows n (length (OscListReceive._address lr))
                  (g <$> OscListReceive._base_objs lr)) by by rewrite length_fmap.
    f_equal. apply list_eq. intros k. rewrite list_lookup_fmap.
    destruct (decide (k < length (OscListReceive._address lr))%nat) as [Hk|Hk].
    + rewrite lookup_seq_lt by done. simpl. by apply Hout.
    + rewrite (lookup_ge_None_2 outs) by lia.
      by rewrite (lookup_ge_None_2 (seq _ _)) by (rewrite length_seq; lia).
Qed.

End Frames.

(** ** OscSend *)

Section Sender.
Context {signal fader stream : Type}.
Context (InputFader : signal -> fader).
Context (fader_setInput : signal -> pyval -> fader -> fader).
Context (fader_streams : fader -> list stream).

(** X16. OscSend(input, port, address, host) with non-empty port, address
    and host, and an input fader of at least one stream, returns an object
    holding the input and its fader, with as many base objects as the
    longest of the four, base object i carrying the stream, port, address
    and host found at position i of each, wrapping around. setInput then
    replaces the input, hands it to the fader and keeps the base objects. *)
Theorem OscSend_init_targets (input x : signal) (fadetime : pyval) (port : arg Z)
  (address host : arg string) (c : console) :
  fader_streams (InputFader input) <> [] ->
  to_list port <> [] -> to_list address <> [] -> to_list host <> [] ->
  let ls := length (fader_streams (InputFader input)) in
  let lp := length (to_list port) in
  let la := length (to_list address) in
  let lh := length (to_list host) in
  exists s,
    OscSend.__init__ InputFader fader_streams input port address host tt c
    = (Returned s, tt, c) /\
    OscSend._input s = input /\
    OscSend._in_fader s = InputFader input /\
    length (OscSend._base_objs s) = (((ls `max` lp) `max` la) `max` lh)%nat /\
    (forall i o, OscSend._base_objs s !! i = Some o ->
       fader_streams (InputFader input) !! (i mod ls)%nat = Some (OscSend.b_input o) /\
       to_list port !! (i mod lp)%nat = Some (OscSend.b_port o) /\
       to_list address !! (i mod la)%nat = Some (OscSend.b_address o) /\
       to_list host !! (i mod lh)%nat = Some (OscSend.b_host o)) /\
    OscSend.setInput fader_setInput x fadetime s c
    = (Returned tt,
       OscSend.Build x (fader_setInput x fadetime (InputFader input)) (OscSend._base_objs s),
       c).
Proof.
  intros Hs Hp Ha Hh ls lp la lh.
  set (n := (((ls `max` lp) `max` la) `max` lh)%nat).
  set (P := fun (i : nat) (o : OscSend.base stream) =>
              fader_streams (InputFader input) !! (i mod ls)%nat = Some (OscSend.b_input o) /\
              to_list port !! (i mod lp)%nat = Some (OscSend.b_port o) /\
              to_list address !! (i mod la)%nat = Some (OscSend.b_address o) /\
              to_list host !! (i mod lh)%nat = Some (OscSend.b_host o)).
  destruct (comprehension_Forall2 (S := unit)
    (fun i => y <- lift (wrap (fader_streams (InputFader input)) i) ;;
              p <- lift (wrap (to_list port) i) ;;
              a <- lift (wrap (to_list address) i) ;;
              h <- lift (wrap (to_list host) i) ;;
              ret (OscSend.OscSend_base y p a h)) P (seq 0 n) tt c)
    as (objs & Hobjs & HP).
  { intros i _.
    destruct (wrap_Returned (fader_streams (InputFader input)) i Hs) as (y & Wy & Ly).
    destruct (wrap_Returned (to_list port) i Hp) as (p & Wp & Lp).
    destruct (wrap_Returned (to_list address) i Ha) as (a & Wa & La).
    destruct (wrap_Returned (to_list host) i Hh) as (h & Wh & Lh).
    exists (OscSend.OscSend_base y p a h). split; [|done].
    unfold bind, lift, ret. by rewrite Wy, Wp, Wa, Wh. }
  pose proof (Forall2_length _ _ _ HP) as Hlen. rewrite length_seq in Hlen.
  exists (OscSend.Build input (InputFader input) objs). split_and!.
  - unfold OscSend.__init__.
    replace (range _) with (seq 0 n).
    2:{ unfold range, lmax3, lmax2, lmax1, n, ls, lp, la, lh. f_equal. lia. }
    unfold bind at 1. by rewrite Hobjs.
  - done.
  - done.
  - done.
  - simpl. intros i o Ho.
    destruct (Forall2_lookup_r _ _ _ _ _ HP Ho) as (j & Hj & HPj).
    apply lookup_seq in Hj as [-> _]. exact HPj.
  - done.
Qed.

End Sender.

(** * The further properties on the example objects *)

Lemma OscReceive_init_streams_witness :
  is_IntType (PInt 9000) = true /\
  to_list (Many ["/pitch"; "/amp"]) <> [] /\
  to_list (One 1) <> [] /\ to_list (One 0) <> [] /\
  exists r : OscReceive.t Z floats,
    OscReceive.__init__ (fun _ _ => []) (PInt 9000) (Many ["/pitch"; "/amp"])
      (One 1) (One 0) tt [] = (Returned r, tt, []) /\
    OscReceive._address r = ["/pitch"; "/amp"] /\
    length (OscReceive._base_objs r) = 2%nat /\
    registry r.
Proof.
  assert (to_list (Many ["/pitch"; "/amp"]) <> []) as H1 by done.
  assert (to_list (One 1) <> []) as H2 by done.
  assert (to_list (One 0) <> []) as H3 by done.
  destruct (OscReceive_init_streams (R := floats) (fun _ _ => []) (PInt 9000)
              (Many ["/pitch"; "/amp"]) (One 1) (One 0) [] eq_refl H1 H2 H3)
    as (r & T1 & T2 & _ & T3 & _ & T4).
  split_and!; try done.
  exists r. split_and!; [exact T1|exact T2|exact T3|].
  apply T4; simpl; lia.
Defined.

Lemma OscReceive_init_no_address_witness :
  is_IntType (PInt 9000) = true /\
  (to_list (One 1) <> [] \/ to_list (One 0) <> []) /\
  OscReceive.__init__ (R := floats) (fun _ _ => []) (PInt 9000) (Many []) (One 1) (One 0)
    tt [] = (Raised ZeroDivisionError, tt, []).
Proof.
  assert (to_list (One 1) <> [] \/ to_list (One 0) <> []) as H1 by (by left).
  split_and!; [done|exact H1|].
  exact (OscReceive_init_no_address (R := floats) (fun _ _ => []) (PInt 9000)
           (One 1) (One 0) [] eq_refl H1).
Defined.

Lemma OscListReceive_init_streams_witness :
  is_IntType (PInt 9000) = true /\ is_IntType (PInt 2) = true /\
  to_list (Many ["/pitch"; "/amp"]) <> [] /\
  to_list (One 1) <> [] /\ to_list (One 0) <> [] /\
  (length (to_list (One 1)) <= length (to_list (Many ["/pitch"; "/amp"])))%nat /\
  (length (to_list (One 0)) <= length (to_list (Many ["/pitch"; "/amp"])))%nat /\
  exists lr : OscListReceive.t Z lists,
    OscListReceive.__init__ (fun _ _ _ => []) (PInt 9000) (Many ["/pitch"; "/amp"])
      (PInt 2) (One 1) (One 0) tt [] = (Returned lr, tt, []) /\
    list_registry lr /\
    length (OscListReceive._base_objs lr) = 4%nat.
Proof.
  assert (to_list (Many ["/pitch"; "/amp"]) <> []) as H1 by done.
  assert (to_list (One 1) <> []) as H2 by done.
  assert (to_list (One 0) <> []) as H3 by done.
  assert (length (to_list (One 1)) <= length (to_list (Many ["/pitch"; "/amp"])))%nat
    as H4 by (simpl; lia).
  assert (length (to_list (One 0)) <= length (to_list (Many ["/pitch"; "/amp"])))%nat
    as H5 by (simpl; lia).
  destruct (OscListReceive_init_streams (L := lists) (fun _ _ _ => []) (PInt 9000)
              (PInt 2) (Many ["/pitch"; "/amp"]) (One 1) (One 0) []
              eq_refl eq_refl H1 H2 H3 H4 H5)
    as (lr & T1 & _ & _ & _ & T2 & T3).
  split_and!; try done.
  exists lr. split_and!; [exact T1|exact T2|exact T3].
Defined.

Lemma OscListReceive_init_no_width_witness :
  is_IntType (PInt 9000) = true /\ is_IntType (PInt 0) = true /\ int_of (PInt 0) <= 0 /\
  exists lr : OscListReceive.t Z lists,
    OscListReceive.__init__ (fun _ _ _ => []) (PInt 9000) (Many []) (PInt 0)
      (One 1) (One 0) tt [] = (Returned lr, tt, []) /\
    OscListReceive._base_objs lr = [].
Proof.
  assert (int_of (PInt 0) <= 0) as H1 by (simpl; lia).
  destruct (OscListReceive_init_no_width (L := lists) (fun _ _ _ => []) (PInt 9000)
              (PInt 0) (Many []) (One 1) (One 0) [] eq_refl eq_refl H1)
    as (lr & T1 & _ & T2).
  split_and!; try done.
  exists lr. by split.
Defined.

Lemma OscReceive_add_then_lookup_witness :
  registry ex_receive /\ ("/pan" ∉ OscReceive._address ex_receive) /\
  to_list (One 1) <> [] /\ to_list (One 0) <> [] /\
  exists r',
    OscReceive.addAddress (One "/pan") (One 1) (One 0) ex_receive [] = (Returned tt, r', []) /\
    OscReceive.__getitem__ (KStr "/pan") r' [] = (Returned (Some (ex_stream "/pan")), r', []) /\
    OscReceive.__getitem__ (KInt 2) r' [] = (Returned (Some (ex_stream "/pan")), r', []).
Proof.
  assert (registry ex_receive) as H1 by reflexivity.
  assert ("/pan" ∉ OscReceive._address ex_receive) as H2 by by_computation.
  assert (to_list (One 1) <> []) as H3 by done.
  assert (to_list (One 0) <> []) as H4 by done.
  destruct (OscReceive_add_then_lookup "/pan" (One 1) (One 0) ex_receive [] H1 H2 H3 H4)
    as (r' & x & T1 & _ & _ & _ & T2 & T3 & T4 & T5 & T6).
  split_and!; try done.
  assert (x = ex_stream "/pan") as ->.
  { destruct x as [a m d]. simpl in *. injection T3 as <-. injection T4 as <-.
    by rewrite T2. }
  exists r'. split_and!; [exact T1|exact T5|exact T6].
Defined.

Lemma OscReceive_add_then_del_witness :
  registry ex_receive /\ ("/pan" ∉ OscReceive._address ex_receive) /\
  to_list (One 1) <> [] /\ to_list (One 0) <> [] /\
  exists r' r'',
    OscReceive.addAddress (One "/pan") (One 1) (One 0) ex_receive [] = (Returned tt, r', []) /\
    OscReceive.delAddress (One "/pan") r' [] = (Returned tt, r'', []) /\
    OscReceive._address r'' = ["/pitch"; "/amp"] /\
    OscReceive._base_objs r'' = [ex_stream "/pitch"; ex_stream "/amp"].
Proof.
  assert (registry ex_receive) as H1 by reflexivity.
  assert ("/pan" ∉ OscReceive._address ex_receive) as H2 by by_computation.
  assert (to_list (One 1) <> []) as H3 by done.
  assert (to_list (One 0) <> []) as H4 by done.
  destruct (OscReceive_add_then_del "/pan" (One 1) (One 0) ex_receive [] H1 H2 H3 H4)
    as (r' & r'' & T1 & T2 & T3 & T4).
  split_and!; try done.
  exists r', r''. split_and!; [exact T1|exact T2|exact T3|exact T4].
Defined.

Lemma OscReceive_del_then_lookup_witness :
  registry ex_receive /\ NoDup (OscReceive._address ex_receive) /\
  ("/pitch" ∈ OscReceive._address ex_receive) /\
  exists r',
    OscReceive.delAddress (One "/pitch") ex_receive [] = (Returned tt, r', []) /\
    OscReceive.__getitem__ (KStr "/pitch") r' [] = (Raised ValueError, r', []) /\
    OscReceive.setValue (One "/pitch") (One 440) r' []
    = (Returned tt, r', [(Stdout, OscReceive.illegal_address "/pitch")]).
Proof.
  assert (registry ex_receive) as H1 by reflexivity.
  assert (NoDup (OscReceive._address ex_receive)) as H2 by by_computation.
  assert ("/pitch" ∈ OscReceive._address ex_receive) as H3 by by_computation.
  destruct (OscReceive_del_then_lookup "/pitch" 440 ex_receive [] H1 H2 H3)
    as (r' & T1 & _ & T2 & T3 & _).
  split_and!; try done.
  exists r'. split_and!; [exact T1|exact T2|exact T3].
Defined.

Lemma addAddress_addresses_witness :
  to_list (One 1) <> [] /\ to_list (One 0) <> [] /\
  exists r',
    OscReceive.addAddress (Many ["/pan"; "/amp"; "/pan"]) (One 1) (One 0) ex_receive []
    = (Returned tt, r', []) /\
    (NoDup (OscReceive._address ex_receive) -> NoDup (OscReceive._address r')) /\
    ("/pan" ∈ OscReceive._address r').
Proof.
  assert (to_list (One 1) <> []) as H1 by done.
  assert (to_list (One 0) <> []) as H2 by done.
  destruct (addAddress_addresses (R := floats) (L := lists)
              (Many ["/pan"; "/amp"; "/pan"]) (One 1) (One 0) [] H1 H2) as (T & _ & _).
  destruct (T ex_receive) as (r' & T1 & _ & T2 & T3).
  split_and!; try done.
  exists r'. split_and!; [exact T1|exact T3|].
  apply T2. right. by_computation.
Defined.

Lemma OscDataReceive_delAddress_any_order_witness :
  NoDup (OscDataReceive._address ex_data_receive) /\ NoDup ["/y"; "/x"] /\
  (forall p, p ∈ ["/y"; "/x"] -> p ∈ OscDataReceive._address ex_data_receive) /\
  OscDataReceive.delAddress (Many ["/y"; "/x"]) ex_data_receive []
  = (Returned tt, OscDataReceive.Build 9900 (PFunc "pp") [], []).
Proof.
  assert (NoDup (OscDataReceive._address ex_data_receive)) as H1 by by_computation.
  assert (NoDup ["/y"; "/x"]) as H2 by by_computation.
  assert (forall p, p ∈ ["/y"; "/x"] -> p ∈ OscDataReceive._address ex_data_receive) as H3.
  { intros p Hp. apply list_elem_of_In. apply list_elem_of_In in Hp. simpl in *. tauto. }
  split_and!; try assumption.
  exact (OscDataReceive_delAddress_any_order ["/y"; "/x"] ex_data_receive [] H1 H2 H3).
Defined.

Lemma OscReceive_get_value_witness :
  registry ex_receive /\ ("/amp" ∈ OscReceive._address ex_receive) /\
  ("/zz" ∉ OscReceive._address ex_receive) /\
  OscReceive.get (Some "/amp") false ex_receive [] = (Returned (inl 0), ex_receive, []) /\
  OscReceive.get (Some "/zz") false ex_receive [] = (Raised ValueError, ex_receive, []).
Proof.
  assert (registry ex_receive) as H1 by reflexivity.
  assert ("/amp" ∈ OscReceive._address ex_receive) as H2 by by_computation.
  assert ("/zz" ∉ OscReceive._address ex_receive) as H3 by by_computation.
  destruct (OscReceive_get_value "/amp" ex_receive [] H1) as (T1 & _ & _).
  destruct (OscReceive_get_value "/zz" ex_receive [] H1) as (_ & T2 & _).
  destruct (T1 H2) as (x & _ & _ & T3).
  split_and!; try assumption.
  exact (T2 H3).
Defined.

Lemma OscListReceive_add_then_lookup_witness :
  list_registry (ex_list_receive 2) /\ 0 <= OscListReceive._num (ex_list_receive 2) /\
  ("/pan" ∉ OscListReceive._address (ex_list_receive 2)) /\
  to_list (One 1) <> [] /\ to_list (One 0) <> [] /\
  exists lr' w,
    OscListReceive.addAddress (One "/pan") (One 1) (One 0) (ex_list_receive 2) []
    = (Returned tt, lr', []) /\
    tag <$> w = [("/pan", 0%nat); ("/pan", 1%nat)] /\
    OscListReceive.__getitem__ (KStr "/pan") lr' [] = (Returned (Some w), lr', []).
Proof.
  assert (list_registry (ex_list_receive 2)) as H1 by reflexivity.
  assert (0 <= OscListReceive._num (ex_list_receive 2)) as H2 by (simpl; lia).
  assert ("/pan" ∉ OscListReceive._address (ex_list_receive 2)) as H3 by by_computation.
  assert (to_list (One 1) <> []) as H4 by done.
  assert (to_list (One 0) <> []) as H5 by done.
  destruct (OscListReceive_add_then_lookup "/pan" (One 1) (One 0) (ex_list_receive 2) []
              H1 H2 H3 H4 H5) as (lr' & w & T1 & _ & _ & _ & _ & T2 & _ & T3 & _).
  split_and!; try done.
  exists lr', w. split_and!; [exact T1|exact T2|exact T3].
Defined.

Lemma OscListReceive_setValue_delivers_witness :
  ("/amp" ∈ OscListReceive._address (ex_list_receive 2)) /\ [5; 6] <> [] /\
  Z.of_nat (length [5; 6]) = OscListReceive._num (ex_list_receive 2) /\
  ("/zz" ∉ OscListReceive._address (ex_list_receive 2)) /\
  OscListReceive.setValue (One "/amp") [OscListReceive.EFloat 5; OscListReceive.EFloat 6]
    (ex_list_receive 2) []
  = (Returned tt,
     OscListReceive.set_mainReceiver
       (fun _ => [CallSet "/amp" [OscListReceive.EFloat 5; OscListReceive.EFloat 6]])
       (ex_list_receive 2), []) /\
  OscListReceive.setValue (One "/zz") [] (ex_list_receive 2) []
  = (Returned tt, ex_list_receive 2, [(Stdout, OscListReceive.illegal_address "/zz")]).
Proof.
  assert ("/amp" ∈ OscListReceive._address (ex_list_receive 2)) as H1 by by_computation.
  assert ([5; 6] <> []) as H2 by done.
  assert (Z.of_nat (length [5; 6]) = OscListReceive._num (ex_list_receive 2)) as H3
    by reflexivity.
  assert ("/zz" ∉ OscListReceive._address (ex_list_receive 2)) as H4 by by_computation.
  destruct (OscListReceive_setValue_delivers "/amp" [5; 6] [] (ex_list_receive 2) [])
    as (T1 & _).
  destruct (OscListReceive_setValue_delivers "/zz" [5; 6] [] (ex_list_receive 2) [])
    as (_ & T2).
  split_and!; try assumption.
  - exact (proj1 (T1 H1 H2 H3)).
  - exact (T2 H4).
Defined.

Lemma OscDataSend_init_targets_witness :
  to_list (One "fi") <> [] /\ to_list (One 9900) <> [] /\
  to_list (Many ["/x"; "/y"]) <> [] /\ to_list (One "127.0.0.1") <> [] /\
  exists ds,
    OscDataSend.__init__ (One "fi") (One 9900) (Many ["/x"; "/y"]) (One "127.0.0.1") tt []
    = (Returned ds, tt, []) /\
    length (OscDataSend._base_objs ds) = 2%nat /\
    OscDataSend._addresses ds !! "/y" = OscDataSend._base_objs ds !! 1%nat.
Proof.
  assert (to_list (One "fi") <> []) as H1 by done.
  assert (to_list (One 9900) <> []) as H2 by done.
  assert (to_list (Many ["/x"; "/y"]) <> []) as H3 by done.
  assert (to_list (One "127.0.0.1") <> []) as H4 by done.
  destruct (OscDataSend_init_targets (One "fi") (One 9900) (Many ["/x"; "/y"])
              (One "127.0.0.1") [] H1 H2 H3 H4) as (ds & T1 & T2 & _ & _ & _ & T3).
  split_and!; try done.
  exists ds. split_and!; [exact T1|exact T2|].
  apply (T3 1%nat "/y"); [reflexivity|by_computation].
Defined.

Lemma OscDataSend_add_same_address_witness :
  accepts [PFloat 314 (-2); PInt 1] (ex_target 2 "/x") /\
  Forall (accepts [PFloat 314 (-2); PInt 1]) (OscDataSend._base_objs ex_data_send) /\
  exists ds',
    OscDataSend.addAddress (One "fi") (One 9900) (One "/x") (One "127.0.0.1") ex_data_send []
    = (Returned tt, ds', []) /\
    OscDataSend.send [PFloat 314 (-2); PInt 1] (Some "/x") ds' []
    = (Returned tt,
       OscDataSend.set_wire (fun w =>
         w ++ [OscDataSend.packet_for [PFloat 314 (-2); PInt 1] (ex_target 2 "/x")]) ds',
       []) /\
    OscDataSend.send [PFloat 314 (-2); PInt 1] None ds' []
    = (Returned tt,
       OscDataSend.set_wire (fun w =>
         w ++ (OscDataSend.packet_for [PFloat 314 (-2); PInt 1]
                 <$> [ex_target 0 "/x"; ex_target 1 "/y"])
           ++ [OscDataSend.packet_for [PFloat 314 (-2); PInt 1] (ex_target 2 "/x")]) ds',
       []).
Proof.
  assert (accepts [PFloat 314 (-2); PInt 1] (ex_target 2 "/x")) as H1 by reflexivity.
  assert (Forall (accepts [PFloat 314 (-2); PInt 1]) (OscDataSend._base_objs ex_data_send))
    as H2 by (repeat constructor).
  destruct (OscDataSend_add_same_address "fi" 9900 "/x" "127.0.0.1"
              [PFloat 314 (-2); PInt 1] ex_data_send []) as (T1 & T2 & T3).
  split_and!; try done.
  eexists. split_and!; [exact T1|exact (T2 H1)|exact (T3 H1 H2)].
Defined.

Lemma OscDataSend_del_then_send_witness :
  OscDataSend._addresses ex_data_send !! "/x" = Some (ex_target 0 "/x") /\
  (ex_target 0 "/x" ∈ OscDataSend._base_objs ex_data_send) /\
  exists ds',
    OscDataSend.delAddress (One "/x") ex_data_send [] = (Returned tt, ds', []) /\
    OscDataSend._base_objs ds' = [ex_target 1 "/y"] /\
    OscDataSend.send [PFloat 314 (-2); PInt 1] (Some "/x") ds' [] = (Raised KeyError, ds', []).
Proof.
  assert (OscDataSend._addresses ex_data_send !! "/x" = Some (ex_target 0 "/x")) as H1
    by by_computation.
  assert (ex_target 0 "/x" ∈ OscDataSend._base_objs ex_data_send) as H2 by by_computation.
  destruct (OscDataSend_del_then_send "/x" (ex_target 0 "/x") [PFloat 314 (-2); PInt 1]
              ex_data_send [] H1) as (T & _).
  destruct (T H2) as (l1 & l2 & E & Hout & T1 & T2).
  split_and!; try done.
  assert (l1 = [] /\ l2 = [ex_target 1 "/y"]) as [-> ->].
  { destruct l1 as [|y l1]; simpl in E.
    - by injection E as <-.
    - injection E as <- E. exfalso. apply Hout. by left. }
  eexists. split_and!; [exact T1|reflexivity|exact T2].
Defined.

Lemma OscReceive_delAddress_in_order_witness :
  registry ex_receive /\ NoDup (OscReceive._address ex_receive) /\
  ["/pitch"; "/amp"] `sublist_of` OscReceive._address ex_receive /\
  exists r',
    OscReceive.delAddress (Many ["/pitch"; "/amp"]) ex_receive [] = (Returned tt, r', []) /\
    OscReceive._address r' = [] /\ OscReceive._base_objs r' = [].
Proof.
  assert (registry ex_receive) as H1 by reflexivity.
  assert (NoDup (OscReceive._address ex_receive)) as H2 by by_computation.
  assert (["/pitch"; "/amp"] `sublist_of` OscReceive._address ex_receive) as H3
    by reflexivity.
  destruct (OscReceive_delAddress_in_order ["/pitch"; "/amp"] ex_receive [] H1 H2 H3)
    as (r' & T1 & T2 & T3 & _).
  split_and!; try done.
  exists r'. split_and!; [exact T1|exact T2|exact T3].
Defined.

Lemma OscListReceive_get_all_witness :
  list_registry (ex_list_receive 2) /\ NoDup (OscListReceive._address (ex_list_receive 2)) /\
  0 <= OscListReceive._num (ex_list_receive 2) /\
  exists outs,
    OscListReceive.get None true (ex_list_receive 2) []
    = (Returned (inr outs), ex_list_receive 2, []) /\
    length outs = 2%nat /\
    concat outs = [0; 0; 0; 0].
Proof.
  assert (list_registry (ex_list_receive 2)) as H1 by reflexivity.
  assert (NoDup (OscListReceive._address (ex_list_receive 2))) as H2 by by_computation.
  assert (0 <= OscListReceive._num (ex_list_receive 2)) as H3 by (simpl; lia).
  destruct (OscListReceive_get_all None (ex_list_receive 2) [] H1 H2 H3)
    as (outs & T1 & T2 & _ & T3).
  split_and!; try done.
  exists outs. split_and!; [exact T1|exact T2|exact T3].
Defined.

Lemma OscSend_init_targets_witness :
  (fun f : list nat => f) ((fun s : list nat => s) [7%nat]) <> [] /\
  to_list (One 10001) <> [] /\ to_list (Many ["/pitch"; "/amp"]) <> [] /\
  to_list (One "127.0.0.1") <> [] /\
  exists s,
    OscSend.__init__ (fun s : list nat => s) (fun f : list nat => f) [7%nat]
      (One 10001) (Many ["/pitch"; "/amp"]) (One "127.0.0.1") tt [] = (Returned s, tt, []) /\
    length (OscSend._base_objs s) = 2%nat.
Proof.
  assert ((fun f : list nat => f) ((fun s : list nat => s) [7%nat]) <> []) as H0 by done.
  assert (to_list (One 10001) <> []) as H1 by done.
  assert (to_list (Many ["/pitch"; "/amp"]) <> []) as H2 by done.
  assert (to_list (One "127.0.0.1") <> []) as H3 by done.
  destruct (OscSend_init_targets (fun s : list nat => s) (fun _ _ f => f)
              (fun f : list nat => f) [7%nat] [8%nat] PNone (One 10001)
              (Many ["/pitch"; "/amp"]) (One "127.0.0.1") [] H0 H1 H2 H3)
    as (s & T1 & _ & _ & T2 & _).
  split_and!; try done.
  exists s. split; [exact T1|exact T2].
Defined.
